(** * Startup orchestration of [openshift start]

    A shallow embedding of [pkg/cmd/server/start.go]: role resolution,
    address defaulting, the etcd readiness loop, certificate bootstrap and
    the order in which the components are launched.  Go strings are
    [string], Go [int] is [Z], slices are lists, a returned [error] is a
    message.  External effects (log lines, probes of etcd, sleeps,
    certificates issued, components launched) are recorded as a trace of
    events; what the outside world answers is read from an [Env]. *)

From Stdlib Require Import String Ascii List ZArith NArith Bool Lia.
From Stdlib Require Import Decimal DecimalString DecimalN DecimalZ.
Import ListNotations.
Open Scope string_scope.
Open Scope Z_scope.

(** ** Results and errors *)

(** A Go [(T, error)] pair: either the value or the error's message. *)
Inductive result (A : Type) : Type :=
| Ok (a : A)
| Err (msg : string).
Arguments Ok {A} a.
Arguments Err {A} msg.

(** A Go [error] return value; [None] is [nil]. *)
Definition error := option string.

(** ** Strings: the Go standard library functions the code calls *)

Module GoStr.

(** [strings.Contains(s, string(c))] for a one-byte pattern. *)
Fixpoint contains (c : ascii) (s : string) : bool :=
  match s with
  | EmptyString => false
  | String a s' => Ascii.eqb a c || contains c s'
  end.

(** Splits at the last occurrence of [c]. *)
Fixpoint split_last (c : ascii) (s : string) : option (string * string) :=
  match s with
  | EmptyString => None
  | String a s' =>
      match split_last c s' with
      | Some (h, p) => Some (String a h, p)
      | None => if Ascii.eqb a c then Some (EmptyString, s') else None
      end
  end.

(** Splits at the first occurrence of [c]. *)
Fixpoint split_first (c : ascii) (s : string) : option (string * string) :=
  match s with
  | EmptyString => None
  | String a s' =>
      if Ascii.eqb a c then Some (EmptyString, s')
      else match split_first c s' with
           | Some (h, t) => Some (String a h, t)
           | None => None
           end
  end.

(** The longest prefix free of the bytes selected by [stop], and the rest. *)
Fixpoint span (stop : ascii -> bool) (s : string) : string * string :=
  match s with
  | EmptyString => (EmptyString, EmptyString)
  | String a s' =>
      if stop a then (EmptyString, s)
      else let (h, t) := span stop s' in (String a h, t)
  end.

(** [strings.HasPrefix(s, p)]. *)
Fixpoint HasPrefix (s p : string) {struct p} : bool :=
  match p with
  | EmptyString => true
  | String a p' =>
      match s with
      | EmptyString => false
      | String b s' => Ascii.eqb a b && HasPrefix s' p'
      end
  end.

(** [strconv.Itoa]: decimal rendering of a Go [int]. *)
Definition Itoa (z : Z) : string := NilZero.string_of_int (Z.to_int z).

(** Conversion [int(u)] of a [uint64] to a 64-bit [int]. *)
Definition int_of_uint64 (n : Z) : Z :=
  if n <? 2 ^ 63 then n else n - 2 ^ 64.

(** Addition of Go [int]s (64 bits, two's complement wrap-around). *)
Definition int_add (x y : Z) : Z :=
  let s := (x + y) mod 2 ^ 64 in
  if s <? 2 ^ 63 then s else s - 2 ^ 64.

(** [strconv.ParseUint(s, 10, 64)]: digits only, not empty, below 2^64. *)
Definition ParseUint (s : string) : result Z :=
  match NilZero.uint_of_string s with
  | None => Err ("strconv.ParseUint: parsing " ++ s ++ ": invalid syntax")
  | Some d =>
      let n := Z.of_N (N.of_uint d) in
      if n <? 2 ^ 64 then Ok n
      else Err ("strconv.ParseUint: parsing " ++ s ++ ": value out of range")
  end.

(** [net.JoinHostPort]: a host holding a colon or a percent sign is put
    in square brackets. *)
Definition JoinHostPort (host port : string) : string :=
  if contains ":" host || contains "%" host
  then "[" ++ host ++ "]:" ++ port
  else host ++ ":" ++ port.

(** [net.SplitHostPort]: the port follows the last colon; a host in
    brackets is unwrapped; stray brackets and further colons are errors. *)
Definition SplitHostPort (hostport : string) : result (string * string) :=
  match split_last ":" hostport with
  | None => Err "missing port in address"
  | Some (h, p) =>
      match h with
      | String "[" h' =>
          match split_first "]" h' with
          | None => Err "missing ']' in address"
          | Some (inner, EmptyString) =>
              if contains "[" inner then Err "unexpected '[' in address"
              else if contains "[" p then Err "unexpected '[' in address"
              else if contains "]" p then Err "unexpected ']' in address"
              else Ok (inner, p)
          | Some (_, String ":" _) => Err "too many colons in address"
          | Some (_, _) => Err "missing port in address"
          end
      | _ =>
          if contains ":" h then Err "too many colons in address"
          else if contains "[" hostport then Err "unexpected '[' in address"
          else if contains "]" hostport then Err "unexpected ']' in address"
          else Ok (h, p)
      end
  end.

End GoStr.

(** ** [net/url]: the part of a URL the code reads *)

Module url.

Record URL : Type := mkURL {
  Scheme : string;
  Host : string;   (* host or host:port *)
  Path : string
}.

Definition ends_authority (c : ascii) : bool :=
  Ascii.eqb c "/" || Ascii.eqb c "?" || Ascii.eqb c "#".

Definition ends_path (c : ascii) : bool :=
  Ascii.eqb c "?" || Ascii.eqb c "#".

(** [url.Parse] on [scheme://authority/path?query#fragment]; query and
    fragment are cut off (the caller clears them anyway), user
    information is not modelled. *)
Definition Parse (rawurl : string) : result URL :=
  match GoStr.split_first ":" rawurl with
  | None => Err "missing protocol scheme"
  | Some (scheme, rest) =>
      match rest with
      | String "/" (String "/" rest') =>
          let (authority, tail) := GoStr.span ends_authority rest' in
          let (path, _) := GoStr.span ends_path tail in
          Ok (mkURL scheme authority path)
      | _ => Err "missing authority"
      end
  end.

(** [URL.String] for a URL with a scheme and an authority. *)
Definition String (u : URL) : string :=
  Scheme u ++ "://" ++ Host u ++ Path u.

End url.

(** ** [flagtypes.Addr] *)

Module flagtypes.

(** Modelled from the spec: the package [pkg/cmd/flagtypes] (type [Addr]
    with its methods [Default], [Set] and [String]) is not among the
    sources.  The fields are those [start.go] writes and reads.  An
    address "distinguishes explicitly provided by operator from
    defaulted" ([Provided]) and, once set, "has a concrete scheme, host,
    and port"; the flags take a "host, host:port, or URL". *)
Record Addr : Type := mkAddr {
  DefaultScheme : string;
  DefaultPort : Z;
  AllowPrefix : bool;
  Provided : bool;
  Value : string;
  URL : url.URL;
  Host : string;
  Port : Z
}.

(** A struct literal that names only the caller's fields. *)
Definition literal (value scheme : string) (port : Z) (prefix : bool) : Addr :=
  mkAddr scheme port prefix false value (url.mkURL "" "" "") "" 0.

Definition urlPrefixes : list string := ["http://"; "https://"; "tcp://"].

(** Modelled from the spec: whether a flag value is a URL rather than a
    host or host:port. *)
Definition isURL (a : Addr) (value : string) : bool :=
  existsb (GoStr.HasPrefix value)
          (if String.eqb (DefaultScheme a) "" then urlPrefixes
           else (urlPrefixes ++ [(DefaultScheme a ++ "://")%string])%list).

(** Modelled from the spec: the port a scheme implies when none is given. *)
Definition schemePort (scheme : string) : result Z :=
  if String.eqb scheme "http" then Ok 80
  else if String.eqb scheme "https" then Ok 443
  else Err "no port specified".

(** Modelled from the spec: [Addr.Set], not among the sources.  It
    reads a host, a host:port or a URL, fills scheme and port from the
    defaults where the value has none, and marks the address as
    provided.  On an error the address is left as it was. *)
Definition Set_ (a : Addr) (value : string) : result Addr :=
  let store (u : url.URL) (host : string) (port : Z) : Addr :=
    mkAddr (DefaultScheme a) (DefaultPort a) (AllowPrefix a)
           true value u host port in
  let with_port (hostport : string) (u : url.URL) : result Addr :=
    match GoStr.SplitHostPort hostport with
    | Err e => Err ("not a valid host:port: " ++ e)
    | Ok (host, port) =>
        match GoStr.ParseUint port with
        | Err e => Err ("port is not a valid number: " ++ e)
        | Ok n => Ok (store u host (GoStr.int_of_uint64 n))
        end
    end in
  if isURL a value then
    match url.Parse value with
    | Err e => Err ("not a valid URL: " ++ e)
    | Ok parsed =>
        let parsed :=
          if AllowPrefix a then parsed
          else url.mkURL (url.Scheme parsed) (url.Host parsed) "" in
        if GoStr.contains ":" (url.Host parsed) then
          with_port (url.Host parsed) parsed
        else
          match schemePort (url.Scheme parsed) with
          | Err e => Err e
          | Ok port =>
              Ok (store (url.mkURL (url.Scheme parsed)
                           (GoStr.JoinHostPort (url.Host parsed) (GoStr.Itoa port))
                           (url.Path parsed))
                        (url.Host parsed) port)
          end
    end
  else
    let scheme :=
      if String.eqb (DefaultScheme a) "" then "tcp" else DefaultScheme a in
    if GoStr.contains ":" value then
      with_port value (url.mkURL scheme value "")
    else
      match (if DefaultPort a =? 0 then schemePort scheme
             else Ok (DefaultPort a)) with
      | Err e => Err e
      | Ok port =>
          Ok (store (url.mkURL scheme
                       (GoStr.JoinHostPort value (GoStr.Itoa port)) "")
                    value port)
      end.

(** Modelled from the spec: [Addr.Default], the address read from its
    default value and marked as not provided. *)
Definition Default (a : Addr) : result Addr :=
  match Set_ a (Value a) with
  | Err e => Err e
  | Ok a' =>
      Ok (mkAddr (DefaultScheme a') (DefaultPort a') (AllowPrefix a')
                 false (Value a') (URL a') (Host a') (Port a'))
  end.

(** Modelled from the spec: [Addr.String], the address as a URL. *)
Definition String (a : Addr) : string := url.String (URL a).

End flagtypes.

(** ** Collaborators of [start] that are outside this file *)

Module net.

(** A [net.IP] holding an IPv4 address. *)
Record IP : Type := IPv4 { b0 : Byte.byte; b1 : Byte.byte; b2 : Byte.byte; b3 : Byte.byte }.

Definition octet (b : Byte.byte) : string :=
  NilZero.string_of_uint (N.to_uint (Byte.to_N b)).

(** [IP.String]: dotted decimal. *)
Definition String (ip : IP) : string :=
  octet (b0 ip) ++ "." ++ octet (b1 ip) ++ "." ++ octet (b2 ip) ++ "." ++ octet (b3 ip).

End net.

Module kclient.

(** [kclient.Config]: [Host] and [Version] are the fields [start.go]
    sets; [Credentials] stands for the remaining fields (client
    certificate, key and CA), [None] being their zero value. *)
Record Config : Type := mkConfig {
  Host : string;
  Version : string;
  Credentials : option string
}.

End kclient.

Module etcd.

Record Config : Type := mkConfig {
  BindAddr : string;
  PeerBindAddr : string;
  MasterAddr : string;
  EtcdDir : string
}.

End etcd.

Module crypto.

(** The certificate authority handle of [crypto.InitCA]; [Roots] is
    [ca.Config.Roots]. *)
Record CA : Type := mkCA { Roots : list string }.

Record ServerCert : Type := mkServerCert { CertFile : string; KeyFile : string }.

End crypto.

Module origin.

(** The fields of [origin.MasterConfig] that [start] assigns; the etcd
    helper, authorizer and admission control are opaque handles. *)
Record MasterConfig : Type := mkMasterConfig {
  TLS : bool;
  BindAddr : string;
  MasterAddr : string;
  AssetAddr : string;
  KubernetesAddr : string;
  RequireAuthentication : bool;
  MasterCertFile : string;
  MasterKeyFile : string;
  AssetCertFile : string;
  AssetKeyFile : string;
  KubeClientConfig : kclient.Config;
  OSClientConfig : kclient.Config;
  DeployerOSClientConfig : kclient.Config
}.

Record AuthConfig : Type := mkAuthConfig {
  AuthMasterAddr : string;
  MasterRoots : option (list string);   (* [None] is a nil pool *)
  SessionSecrets : list string
}.

End origin.

Module kubernetes.

Record MasterConfig : Type := mkMasterConfig {
  MasterHost : string;
  MasterPort : Z;
  NodeHosts : list string;
  PortalNet : string
}.

Record NodeConfig : Type := mkNodeConfig {
  BindHost : string;
  NodeHost : string;
  NodeMasterHost : string;
  VolumeDir : string;
  NetworkContainerImage : string;
  MasterServiceNamespace : string
}.

End kubernetes.

Module docker.
Inductive Helper : Type := NewHelper.
End docker.

(** What a probe of etcd's root key comes back with. *)
Inductive etcdAnswer : Type :=
| Found                       (* [err == nil] *)
| KeyNotFound (msg : string)  (* [tools.IsEtcdNotFound(err)] *)
| Failed (msg : string).      (* any other error *)

(** The answers of the outside world during one run of [start]. *)
Record Env : Type := mkEnv {
  DefaultLocalIP4 : result net.IP;
  etcd_Get : nat -> string -> etcdAnswer;  (* the n-th [Get] of the run, per server *)
  origin_NewEtcdHelper : string -> error;
  kmaster_NewEtcdHelper : error;
  time_Now_Unix : Z;
  InitCA : string -> string -> result crypto.CA;
  MakeServerCert : crypto.CA -> string -> list string -> result crypto.ServerCert;
  MakeClientConfig : crypto.CA -> string -> kclient.Config -> result kclient.Config;
  Getenv : string -> string;
  latest_Version : string;
  klatest_Version : string;
  kubelet_NetworkContainerImage : string
}.

(** ** The configuration *)

(** [config] is the struct the command stores flag values into. *)
Record config : Type := mkConfig {
  Docker : docker.Helper;
  MasterAddr : flagtypes.Addr;
  BindAddr : flagtypes.Addr;
  EtcdAddr : flagtypes.Addr;
  KubernetesAddr : flagtypes.Addr;
  PortalNet : string;
  Hostname : string;
  VolumeDir : string;
  EtcdDir : string;
  CertDir : string;
  StorageVersion : string;
  NodeList : list string;
  CORSAllowedOrigins : list string;
  RequireAuthentication : bool;
  MasterServiceNamespace : string
}.

Definition set_MasterAddr (a : flagtypes.Addr) (c : config) : config :=
  mkConfig (Docker c) a (BindAddr c) (EtcdAddr c) (KubernetesAddr c)
    (PortalNet c) (Hostname c) (VolumeDir c) (EtcdDir c) (CertDir c)
    (StorageVersion c) (NodeList c) (CORSAllowedOrigins c)
    (RequireAuthentication c) (MasterServiceNamespace c).

Definition set_BindAddr (a : flagtypes.Addr) (c : config) : config :=
  mkConfig (Docker c) (MasterAddr c) a (EtcdAddr c) (KubernetesAddr c)
    (PortalNet c) (Hostname c) (VolumeDir c) (EtcdDir c) (CertDir c)
    (StorageVersion c) (NodeList c) (CORSAllowedOrigins c)
    (RequireAuthentication c) (MasterServiceNamespace c).

Definition set_EtcdAddr (a : flagtypes.Addr) (c : config) : config :=
  mkConfig (Docker c) (MasterAddr c) (BindAddr c) a (KubernetesAddr c)
    (PortalNet c) (Hostname c) (VolumeDir c) (EtcdDir c) (CertDir c)
    (StorageVersion c) (NodeList c) (CORSAllowedOrigins c)
    (RequireAuthentication c) (MasterServiceNamespace c).

Definition set_KubernetesAddr (a : flagtypes.Addr) (c : config) : config :=
  mkConfig (Docker c) (MasterAddr c) (BindAddr c) (EtcdAddr c) a
    (PortalNet c) (Hostname c) (VolumeDir c) (EtcdDir c) (CertDir c)
    (StorageVersion c) (NodeList c) (CORSAllowedOrigins c)
    (RequireAuthentication c) (MasterServiceNamespace c).

Definition set_NodeList (l : list string) (c : config) : config :=
  mkConfig (Docker c) (MasterAddr c) (BindAddr c) (EtcdAddr c) (KubernetesAddr c)
    (PortalNet c) (Hostname c) (VolumeDir c) (EtcdDir c) (CertDir c)
    (StorageVersion c) l (CORSAllowedOrigins c)
    (RequireAuthentication c) (MasterServiceNamespace c).

Definition set_CORSAllowedOrigins (l : list string) (c : config) : config :=
  mkConfig (Docker c) (MasterAddr c) (BindAddr c) (EtcdAddr c) (KubernetesAddr c)
    (PortalNet c) (Hostname c) (VolumeDir c) (EtcdDir c) (CertDir c)
    (StorageVersion c) (NodeList c) l
    (RequireAuthentication c) (MasterServiceNamespace c).

(** The configuration [NewCommandStartServer] builds before the flags are
    read; [hostname] is the outcome of [defaultHostname] (or "localhost"),
    [namespace] is [kapi.NamespaceDefault].  A panic of [Default] shows as
    the error. *)
Definition NewCommandStartServer (hostname namespace : string) : result config :=
  match flagtypes.Default (flagtypes.literal "localhost:8443" "https" 8443 true),
        flagtypes.Default (flagtypes.literal "0.0.0.0:8443" "https" 8443 true),
        flagtypes.Default (flagtypes.literal "0.0.0.0:4001" "http" 4001 false),
        flagtypes.Default (flagtypes.literal "" "https" 8443 false) with
  | Ok m, Ok b, Ok e, Ok k =>
      Ok (mkConfig docker.NewHelper m b e k "172.30.17.0/24"
            hostname "openshift.local.volumes" "openshift.local.etcd"
            "openshift.local.certificates" "" ["127.0.0.1"] [] false namespace)
  | Err e, _, _, _ | _, Err e, _, _ | _, _, Err e, _ | _, _, _, Err e => Err e
  end.

(** ** Address defaulting *)

(** [defaultMasterAddress] checks for an unset master address and then
    uses the first public IPv4 non-loopback address of the host; it also
    updates [EtcdAddr] if it was not provided.  The Go function mutates
    [cfg] in place, so the configuration comes back next to the error. *)
Definition defaultMasterAddress (env : Env) (cfg : config) : config * error :=
  if negb (flagtypes.Provided (MasterAddr cfg)) then
    let port := flagtypes.Port (MasterAddr cfg) in
    let port := if flagtypes.Provided (BindAddr cfg)
                then flagtypes.Port (BindAddr cfg) else port in
    let scheme := url.Scheme (flagtypes.URL (MasterAddr cfg)) in
    let scheme := if flagtypes.Provided (BindAddr cfg)
                  then url.Scheme (flagtypes.URL (BindAddr cfg)) else scheme in
    match DefaultLocalIP4 env with
    | Err err =>
        (cfg, Some ("Unable to find the public address of this master: " ++ err))
    | Ok addr =>
        let masterAddr :=
          scheme ++ "://" ++ GoStr.JoinHostPort (net.String addr) (GoStr.Itoa port) in
        match flagtypes.Set_ (MasterAddr cfg) masterAddr with
        | Err err =>
            (cfg, Some ("Unable to set public address of this master: " ++ err))
        | Ok m =>
            let cfg := set_MasterAddr m cfg in
            if negb (flagtypes.Provided (EtcdAddr cfg)) then
              let etcdAddr :=
                GoStr.JoinHostPort (net.String addr)
                  (GoStr.Itoa (flagtypes.DefaultPort (EtcdAddr cfg))) in
              match flagtypes.Set_ (EtcdAddr cfg) etcdAddr with
              | Err err =>
                  (cfg, Some ("Unable to set public address of etcd: " ++ err))
              | Ok e => (set_EtcdAddr e cfg, None)
              end
            else (cfg, None)
        end
    end
  else if negb (flagtypes.Provided (EtcdAddr cfg)) then
    let etcdAddr :=
      GoStr.JoinHostPort (flagtypes.Host (MasterAddr cfg))
        (GoStr.Itoa (flagtypes.DefaultPort (EtcdAddr cfg))) in
    match flagtypes.Set_ (EtcdAddr cfg) etcdAddr with
    | Err err => (cfg, Some ("Unable to set public address of etcd: " ++ err))
    | Ok e => (set_EtcdAddr e cfg, None)
    end
  else (cfg, None).

(** ** Effects: the trace of a run *)

(** The components [start] launches, named after the call that does it. *)
Inductive component : Type :=
| RunAPI (installers : list string)
| RunScheduler
| RunReplicationController
| RunEndpointController
| RunMinionController
| StartRecording
| RunAssetServer
| RunBuildController
| RunBuildImageChangeTriggerController
| RunDeploymentController
| RunDeploymentConfigController
| RunDeploymentConfigChangeController
| RunDeploymentImageChangeTriggerController
| EnsureVolumeDir
| EnsureDocker
| RunProxy
| RunKubelet.

(** What a run does to the outside world, in order. *)
Inductive event : Type :=
| Infof (msg : string)
| EtcdRun (c : etcd.Config)
| EtcdGet (server : string)
| Sleep (milliseconds : Z)
| CallInitCA (dir name : string)
| CallMakeServerCert (name : string) (hosts : list string)
| CallMakeClientConfig (name : string) (template : kclient.Config)
| BuildClients (osmaster : origin.MasterConfig)
| EnsureCORSAllowedOrigins (origins : list string)
| EnsurePortalFlags (kmaster : kubernetes.MasterConfig)
| AuthConfigured (auth : origin.AuthConfig)
| NodeConfigured (node : kubernetes.NodeConfig)
| Launch (c : component)
| Park.                       (* [select {}]: blocks for ever *)

(** A computation counts the probes of etcd made so far, appends to the
    trace, and stops at the first error. *)
Definition M (A : Type) : Type := nat -> (list event * nat) * result A.

Definition ret {A} (a : A) : M A := fun n => (([], n), Ok a).

Definition fail {A} (msg : string) : M A := fun n => (([], n), Err msg).

Definition bind {A B} (m : M A) (f : A -> M B) : M B :=
  fun n =>
    match m n with
    | ((t1, n1), Ok a) =>
        match f a n1 with
        | ((t2, n2), r) => (((t1 ++ t2)%list, n2), r)
        end
    | ((t1, n1), Err e) => ((t1, n1), Err e)
    end.

Definition emit (e : event) : M unit := fun n => (([e], n), Ok tt).

Declare Scope go_scope.
Delimit Scope go_scope with go.
Notation "x <- m ;; k" := (bind m (fun x => k))
  (at level 100, m at next level, right associativity) : go_scope.
Notation "m ;; k" := (bind m (fun _ => k))
  (at level 100, right associativity) : go_scope.
Open Scope go_scope.

(** A callee that returns [(T, error)]. *)
Definition lift {A} (r : result A) : M A :=
  match r with Ok a => ret a | Err e => fail e end.

(** A callee that returns only an [error]; [wrap] is the [fmt.Errorf] prefix. *)
Definition check (wrap : string) (e : error) : M unit :=
  match e with None => ret tt | Some msg => fail (wrap ++ msg) end.

Definition trace {A} (out : (list event * nat) * result A) : list event :=
  fst (fst out).

Definition outcome {A} (out : (list event * nat) * result A) : result A :=
  snd out.

(** ** The readiness loop *)

(** [etcdClient.Get("/", false, false)]. *)
Definition etcdGet (env : Env) (server : string) : M etcdAnswer :=
  fun n => (([EtcdGet server], S n), Ok (etcd_Get env n server)).

(** The loop of [getEtcdClient], [i] being its counter.  [None] says the
    fuel ran out before the loop left. *)
Fixpoint poll (env : Env) (server : string) (fuel : nat) (i : Z) : M (option string) :=
  match fuel with
  | O => ret None
  | S fuel' =>
      a <- etcdGet env server ;;
      match a with
      | Found | KeyNotFound _ => ret (Some server)
      | Failed err =>
          if i >? 100 then fail ("Could not reach etcd: " ++ err)
          else (emit (Sleep 50) ;; poll env server fuel' (GoStr.int_add i 1))
      end
  end.

(** The number of rounds after which the loop has left in any case. *)
Definition pollBound : nat := 102.

(** [getEtcdClient] creates an etcd client and waits until the server
    answers; the client is represented by the server it talks to. *)
Definition getEtcdClient (env : Env) (cfg : config) : M string :=
  o <- poll env (url.String (flagtypes.URL (EtcdAddr cfg))) pollBound 0 ;;
  match o with
  | Some client => ret client
  | None => fail "getEtcdClient: loop did not leave"
  end.

(** ** [start] *)

Definition usage : string :=
  "You may start an OpenShift all-in-one server with no arguments, or pass 'master' or 'node' to run in that role.".

(** The three flags [start] derives from its arguments. *)
Record roles : Type := mkRoles {
  startEtcd : bool;
  startNode : bool;
  startMaster : bool
}.

(** [defaultMasterAddress] as a step of [start]: an error ends the run. *)
Definition defaulted (env : Env) (cfg : config) : M config :=
  match defaultMasterAddress env cfg with
  | (cfg', None) => ret cfg'
  | (_, Some err) => fail err
  end.

Definition addresses (cfg : config) : string :=
  flagtypes.String (MasterAddr cfg) ++ " (etcd: " ++ flagtypes.String (EtcdAddr cfg) ++ ")".

(** The first part of [start]: the roles chosen by the arguments, and the
    configuration with its addresses defaulted. *)
Definition resolveRoles (env : Env) (cfg : config) (args : list string)
  : M (roles * config) :=
  if (1 <? length args)%nat then fail usage
  else if (length args =? 1)%nat then
    let arg := nth 0 args "" in
    if String.eqb arg "master" then
      let startEtcd := negb (flagtypes.Provided (EtcdAddr cfg)) in
      cfg <- defaulted env cfg ;;
      emit (Infof ("Starting an OpenShift master, reachable at " ++ addresses cfg)) ;;
      ret (mkRoles startEtcd false true, cfg)
    else if String.eqb arg "node" then
      cfg <- defaulted env cfg ;;
      emit (Infof ("Starting an OpenShift node, connecting to " ++ addresses cfg)) ;;
      ret (mkRoles false true false, cfg)
    else fail usage
  else
    let startEtcd := negb (flagtypes.Provided (EtcdAddr cfg)) in
    cfg <- defaulted env cfg ;;
    emit (Infof ("Starting an OpenShift all-in-one, reachable at " ++ addresses cfg)) ;;
    ret (mkRoles startEtcd true true, cfg).

(** The node list of a master: the single default entry stands for this host. *)
Definition masterNodeList (cfg : config) : list string :=
  if (length (NodeList cfg) =? 1)%nat && String.eqb (nth 0 (NodeList cfg) "") "127.0.0.1"
  then Hostname cfg :: tl (NodeList cfg)
  else NodeList cfg.

Fixpoint logNodes (l : list string) : M unit :=
  match l with
  | [] => ret tt
  | s :: l' => emit (Infof ("  Node: " ++ s)) ;; logNodes l'
  end.

(** [net.JoinHostPort(cfg.MasterAddr.Host, strconv.Itoa(cfg.BindAddr.Port+1))]. *)
Definition assetAddr (cfg : config) : string :=
  GoStr.JoinHostPort (flagtypes.Host (MasterAddr cfg))
    (GoStr.Itoa (GoStr.int_add (flagtypes.Port (BindAddr cfg)) 1)).

(** The CORS list after the asset server and the loopback names are appended. *)
Definition corsAllowedOrigins (cfg : config) : list string :=
  (CORSAllowedOrigins cfg ++ [assetAddr cfg; "localhost"; "127.0.0.1"])%list.

Definition with_serverCert (c : crypto.ServerCert) (m : origin.MasterConfig)
  : origin.MasterConfig :=
  origin.mkMasterConfig (origin.TLS m) (origin.BindAddr m) (origin.MasterAddr m)
    (origin.AssetAddr m) (origin.KubernetesAddr m) (origin.RequireAuthentication m)
    (crypto.CertFile c) (crypto.KeyFile c) (crypto.CertFile c) (crypto.KeyFile c)
    (origin.KubeClientConfig m) (origin.OSClientConfig m)
    (origin.DeployerOSClientConfig m).

Definition with_clients (kube os deployer : kclient.Config) (m : origin.MasterConfig)
  : origin.MasterConfig :=
  origin.mkMasterConfig (origin.TLS m) (origin.BindAddr m) (origin.MasterAddr m)
    (origin.AssetAddr m) (origin.KubernetesAddr m) (origin.RequireAuthentication m)
    (origin.MasterCertFile m) (origin.MasterKeyFile m)
    (origin.AssetCertFile m) (origin.AssetKeyFile m) kube os deployer.

(** [ca.MakeClientConfig(name, template)], recorded in the trace. *)
Definition makeClientConfig (env : Env) (ca : crypto.CA) (name : string)
    (template : kclient.Config) : M kclient.Config :=
  emit (CallMakeClientConfig name template) ;;
  lift (MakeClientConfig env ca name template).

(** The certificate bootstrap of a master: with TLS a CA, the server
    certificate and the client configurations; without, one client
    configuration for the OpenShift clients.  Yields the master
    configuration and the certificate roots. *)
Definition bootstrapTrust (env : Env) (startKube : bool) (cfg : config)
    (osmaster : origin.MasterConfig) : M (origin.MasterConfig * option (list string)) :=
  if origin.TLS osmaster then
    let name := flagtypes.Host (MasterAddr cfg) ++ "@" ++ GoStr.Itoa (time_Now_Unix env) in
    emit (CallInitCA (CertDir cfg) name) ;;
    ca <- match InitCA env (CertDir cfg) name with
          | Ok ca => ret ca
          | Err err => fail ("Unable to configure certificate authority: " ++ err)
          end ;;
    let hosts := [flagtypes.Host (MasterAddr cfg); "localhost"; "127.0.0.1"; "172.17.42.1"] in
    emit (CallMakeServerCert "master" hosts) ;;
    serverCert <- lift (MakeServerCert env ca "master" hosts) ;;
    let osmaster := with_serverCert serverCert osmaster in
    let osClientConfigTemplate :=
      kclient.mkConfig (url.String (flagtypes.URL (MasterAddr cfg))) (latest_Version env) None in
    os <- makeClientConfig env ca "openshift-client" osClientConfigTemplate ;;
    deployer <- makeClientConfig env ca "openshift-deployer" osClientConfigTemplate ;;
    _ <- makeClientConfig env ca "admin" osClientConfigTemplate ;;
    kube <- (if startKube
             then makeClientConfig env ca "kube-client" (origin.KubeClientConfig osmaster)
             else ret (origin.KubeClientConfig osmaster)) ;;
    ret (with_clients kube os deployer osmaster, Some (crypto.Roots ca))
  else
    let osClientConfig :=
      kclient.mkConfig (url.String (flagtypes.URL (MasterAddr cfg))) (latest_Version env) None in
    ret (with_clients (origin.KubeClientConfig osmaster) osClientConfig osClientConfig osmaster,
         None).

(** The six controllers, in the order of the source. *)
Definition controllers : list component :=
  [RunBuildController; RunBuildImageChangeTriggerController;
   RunDeploymentController; RunDeploymentConfigController;
   RunDeploymentConfigChangeController; RunDeploymentImageChangeTriggerController].

Fixpoint launchAll (l : list component) : M unit :=
  match l with
  | [] => ret tt
  | c :: l' => emit (Launch c) ;; launchAll l'
  end.

(** The configuration handed to the embedded etcd server. *)
Definition etcdConfig (cfg : config) : etcd.Config :=
  etcd.mkConfig (flagtypes.Host (BindAddr cfg)) (flagtypes.Host (BindAddr cfg))
    (url.Host (flagtypes.URL (EtcdAddr cfg))) (EtcdDir cfg).

(** The client configuration for Kubernetes: our own server under the
    master address, or another server under its own address. *)
Definition kubeClientConfig (env : Env) (startKube : bool) (cfg : config)
  : kclient.Config :=
  if startKube
  then kclient.mkConfig (url.String (flagtypes.URL (MasterAddr cfg))) (klatest_Version env) None
  else kclient.mkConfig (url.String (flagtypes.URL (KubernetesAddr cfg))) (klatest_Version env) None.

(** [osmaster] as it stands before the certificates are made: the struct
    literal and the assignment of [KubeClientConfig]. *)
Definition newMasterConfig (env : Env) (startKube : bool) (cfg : config)
  : origin.MasterConfig :=
  let noClient := kclient.mkConfig "" "" None in
  origin.mkMasterConfig
    (String.eqb (url.Scheme (flagtypes.URL (MasterAddr cfg))) "https")
    (url.Host (flagtypes.URL (BindAddr cfg)))
    (url.String (flagtypes.URL (MasterAddr cfg)))
    (assetAddr cfg)
    (url.String (flagtypes.URL (KubernetesAddr cfg)))
    (RequireAuthentication cfg)
    "" "" "" "" (kubeClientConfig env startKube cfg) noClient noClient.

(** The configuration of the embedded Kubernetes master. *)
Definition kubeMasterConfig (cfg : config) : kubernetes.MasterConfig :=
  kubernetes.mkMasterConfig (flagtypes.Host (MasterAddr cfg))
    (flagtypes.Port (MasterAddr cfg)) (NodeList cfg) (PortalNet cfg).

(** The API server, followed by the Kubernetes control loops when
    Kubernetes runs in this process. *)
Definition apiLaunches (startKube : bool) : list component :=
  if startKube
  then [RunAPI ["kmaster"; "auth"; "osmaster"; "swagger"];
        RunScheduler; RunReplicationController;
        RunEndpointController; RunMinionController]
  else [RunAPI ["auth"; "osmaster"; "swagger"]].

(** The [if startMaster] block of [start]; the configuration comes back
    with its node list and CORS list as the block leaves them. *)
Definition runMaster (env : Env) (startEtcd startKube : bool) (cfg : config) : M config :=
  let cfg := set_NodeList (masterNodeList cfg) cfg in
  logNodes (NodeList cfg) ;;
  (if startEtcd then emit (EtcdRun (etcdConfig cfg)) else ret tt) ;;
  etcdClient <- getEtcdClient env cfg ;;
  check "Error setting up server storage: " (origin_NewEtcdHelper env (StorageVersion cfg)) ;;
  check "Error setting up Kubernetes server storage: " (kmaster_NewEtcdHelper env) ;;
  let cfg := set_CORSAllowedOrigins (corsAllowedOrigins cfg) cfg in
  r <- bootstrapTrust env startKube cfg (newMasterConfig env startKube cfg) ;;
  let (osmaster, roots) := r in
  emit (BuildClients osmaster) ;;
  emit (EnsureCORSAllowedOrigins (CORSAllowedOrigins cfg)) ;;
  let auth := origin.mkAuthConfig (url.String (flagtypes.URL (MasterAddr cfg))) roots ["secret"] in
  emit (AuthConfigured auth) ;;
  (if startKube then emit (EnsurePortalFlags (kubeMasterConfig cfg)) else ret tt) ;;
  launchAll (apiLaunches startKube) ;;
  launchAll (StartRecording :: RunAssetServer :: controllers) ;;
  ret cfg.

(** [env(key, defaultValue)]: an environment variable or a default. *)
Definition env_ (env : Env) (key defaultValue : string) : string :=
  let val := Getenv env key in
  if (String.length val =? 0)%nat then defaultValue else val.

(** The [if startNode] block of [start]. *)
Definition runNode (env : Env) (cfg : config) : M unit :=
  etcdClient <- getEtcdClient env cfg ;;
  let nodeConfig :=
    kubernetes.mkNodeConfig (flagtypes.Host (BindAddr cfg)) (Hostname cfg)
      (url.String (flagtypes.URL (MasterAddr cfg))) (VolumeDir cfg)
      (env_ env "KUBERNETES_NETWORK_CONTAINER_IMAGE" (kubelet_NetworkContainerImage env))
      (MasterServiceNamespace cfg) in
  emit (NodeConfigured nodeConfig) ;;
  launchAll [EnsureVolumeDir; EnsureDocker; RunProxy; RunKubelet].

(** [start] launches the appropriate startup modes or returns an error.
    A run that returns [Ok] has reached [select {}] and stays there. *)
Definition start (env : Env) (cfg : config) (args : list string) : M unit :=
  r <- resolveRoles env cfg args ;;
  let (rl, cfg) := r in
  let startKube := negb (flagtypes.Provided (KubernetesAddr cfg)) in
  let cfg := if startKube then set_KubernetesAddr (MasterAddr cfg) cfg else cfg in
  cfg <- (if startMaster rl then runMaster env (startEtcd rl) startKube cfg else ret cfg) ;;
  (if startNode rl then runNode env cfg else ret tt) ;;
  emit Park.

(** ** Vocabulary of the properties *)

Module GoStrFacts.

(** Every byte of [s] satisfies [p]. *)
Fixpoint all (p : ascii -> bool) (s : string) : bool :=
  match s with
  | EmptyString => true
  | String a s' => p a && all p s'
  end.

Definition digit (a : ascii) : bool :=
  match a with
  | "0" | "1" | "2" | "3" | "4" | "5" | "6" | "7" | "8" | "9" => true
  | _ => false
  end%char.

(** A byte that may occur in a host name or in a dotted IPv4 address:
    none of the delimiters of a URL or of a host:port pair. *)
Definition hostChar (a : ascii) : bool :=
  negb (Ascii.eqb a ":" || Ascii.eqb a "%" || Ascii.eqb a "[" || Ascii.eqb a "]"
        || Ascii.eqb a "/" || Ascii.eqb a "?" || Ascii.eqb a "#").

(** A host name or IPv4 literal (the code is not IPv6 safe, as its own
    TODO says). *)
Definition plainHost (h : string) : bool := all hostChar h.

(** Some [:] of [s] is followed by [/]. *)
Fixpoint colon_slash (s : string) : bool :=
  match s with
  | EmptyString => false
  | String a s' =>
      (Ascii.eqb a ":" && match s' with String b _ => Ascii.eqb b "/" | EmptyString => false end)
      || colon_slash s'
  end.

End GoStrFacts.

(** A port a Go [int] can hold and [strconv.ParseUint] reads back. *)
Definition validPort (p : Z) : Prop := 0 <= p < 2 ^ 63.

(** The schemes a flag value can carry. *)
Definition knownSchemes : list string := ["http"; "https"; "tcp"].

(** The scheme an address without one falls back to. *)
Definition fallbackScheme (a : flagtypes.Addr) : string :=
  if String.eqb (flagtypes.DefaultScheme a) "" then "tcp" else flagtypes.DefaultScheme a.

(** The configuration [NewCommandStartServer] builds, written out. *)
Definition initialConfig (hostname namespace : string) : config :=
  mkConfig docker.NewHelper
    (flagtypes.mkAddr "https" 8443 true false "localhost:8443"
       (url.mkURL "https" "localhost:8443" "") "localhost" 8443)
    (flagtypes.mkAddr "https" 8443 true false "0.0.0.0:8443"
       (url.mkURL "https" "0.0.0.0:8443" "") "0.0.0.0" 8443)
    (flagtypes.mkAddr "http" 4001 false false "0.0.0.0:4001"
       (url.mkURL "http" "0.0.0.0:4001" "") "0.0.0.0" 4001)
    (flagtypes.mkAddr "https" 8443 false false ""
       (url.mkURL "https" ":8443" "") "" 8443)
    "172.30.17.0/24" hostname "openshift.local.volumes" "openshift.local.etcd"
    "openshift.local.certificates" "" ["127.0.0.1"] [] false namespace.

(** Reading a flag: [flag.Var(&addr, ...)] calls [Set] on the value; a
    value that is refused leaves the address as it was. *)
Definition flagAddr (a : flagtypes.Addr) (value : string) : flagtypes.Addr :=
  match flagtypes.Set_ a value with
  | Ok a' => a'
  | Err _ => a
  end.

(** Concrete hosts, environments and command lines. *)
Module Scenario.

(** 10.0.0.5, the one routable address of the host. *)
Definition localIP : net.IP := net.IPv4 Byte.x0a Byte.x00 Byte.x00 Byte.x05.

(** A certificate authority that signs whatever it is asked to. *)
Definition signAll (_ : crypto.CA) (name : string) (c : kclient.Config)
  : result kclient.Config :=
  Ok (kclient.mkConfig (kclient.Host c) (kclient.Version c) (Some name)).

(** A host with address 10.0.0.5 whose store answers the third probe. *)
Definition env : Env :=
  mkEnv (Ok localIP)
    (fun n _ => if (n <? 2)%nat then Failed "connection refused" else KeyNotFound "Key not found")
    (fun _ => None) None 1700000000
    (fun _ _ => Ok (crypto.mkCA ["ca.crt"]))
    (fun _ name _ => Ok (crypto.mkServerCert (name ++ ".crt") (name ++ ".key")))
    signAll (fun _ => "") "v1beta1" "v1beta1" "kubernetes/pause:latest".

(** The same host with a store that never answers. *)
Definition envDown : Env :=
  mkEnv (Ok localIP) (fun _ _ => Failed "connection refused")
    (fun _ => None) None 1700000000
    (fun _ _ => Ok (crypto.mkCA ["ca.crt"]))
    (fun _ name _ => Ok (crypto.mkServerCert (name ++ ".crt") (name ++ ".key")))
    signAll (fun _ => "") "v1beta1" "v1beta1" "kubernetes/pause:latest".

(** [openshift start] without flags. *)
Definition cfgA : config := initialConfig "node1.example.com" "default".

(** [openshift start master --master=203.0.113.9:9443]. *)
Definition cfgB : config :=
  set_MasterAddr (flagAddr (MasterAddr cfgA) "203.0.113.9:9443") cfgA.

(** [openshift start node --master=10.0.0.5:8443]. *)
Definition cfgC : config :=
  set_MasterAddr (flagAddr (MasterAddr cfgA) "10.0.0.5:8443") cfgA.

(** [openshift start --etcd=10.0.0.9:4001]: an external store. *)
Definition cfgExternalStore : config :=
  set_EtcdAddr (flagAddr (EtcdAddr cfgA) "10.0.0.9:4001") cfgA.

(** [openshift start --master=http://10.0.0.5:8080 --kubernetes=https://10.0.0.7:8443]:
    plain transport and an external Kubernetes. *)
Definition cfgPlainExternalKube : config :=
  set_KubernetesAddr (flagAddr (KubernetesAddr cfgA) "https://10.0.0.7:8443")
    (set_MasterAddr (flagAddr (MasterAddr cfgA) "http://10.0.0.5:8080") cfgA).

(** [openshift start --master=http://10.0.0.5:8080]: plain transport,
    Kubernetes in this process. *)
Definition cfgPlain : config :=
  set_MasterAddr (flagAddr (MasterAddr cfgA) "http://10.0.0.5:8080") cfgA.

(** [openshift start master --cors-allowed-origins=https://console.example.com,example.org]. *)
Definition cfgCors : config :=
  set_CORSAllowedOrigins ["https://console.example.com"; "example.org"] cfgA.

End Scenario.

(** The port and the scheme [defaultMasterAddress] picks for a master
    address that was not provided. *)
Definition chosenPort (cfg : config) : Z :=
  if flagtypes.Provided (BindAddr cfg)
  then flagtypes.Port (BindAddr cfg) else flagtypes.Port (MasterAddr cfg).

Definition chosenScheme (cfg : config) : string :=
  if flagtypes.Provided (BindAddr cfg)
  then url.Scheme (flagtypes.URL (BindAddr cfg))
  else url.Scheme (flagtypes.URL (MasterAddr cfg)).


(** Whether a probe's answer lets the readiness loop leave. *)
Definition ready (a : etcdAnswer) : bool :=
  match a with
  | Found | KeyNotFound _ => true
  | Failed _ => false
  end.

(** The message of a probe's error. *)
Definition failure (a : etcdAnswer) : string :=
  match a with
  | Failed msg => msg
  | _ => ""
  end.

(** The index of the first ready answer among the probes [n], [n+1], ...,
    [n+bound-1] of the run, if there is one. *)
Fixpoint firstReady (env : Env) (server : string) (n bound : nat) : option nat :=
  match bound with
  | O => None
  | S bound' =>
      if ready (etcd_Get env n server) then Some O
      else option_map S (firstReady env server (S n) bound')
  end.

(** [k] failed probes, each followed by its sleep. *)
Fixpoint rounds (server : string) (k : nat) : list event :=
  match k with
  | O => []
  | S k' => EtcdGet server :: Sleep 50 :: rounds server k'
  end.

(** ** Reading a trace *)

(** The events of a trace that [f] picks, in order. *)
Definition select {A} (f : event -> option A) (t : list event) : list A :=
  flat_map (fun e => match f e with Some a => [a] | None => [] end) t.

(** The names certificates were asked for: the server certificate and the
    client configurations. *)
Definition issued : list event -> list string :=
  select (fun e => match e with
                   | CallMakeServerCert name _ | CallMakeClientConfig name _ => Some name
                   | _ => None
                   end).

(** The certificate authorities set up. *)
Definition caInits : list event -> list (string * string) :=
  select (fun e => match e with CallInitCA dir name => Some (dir, name) | _ => None end).

(** The components launched. *)
Definition launches : list event -> list component :=
  select (fun e => match e with Launch c => Some c | _ => None end).

(** The servers whose root key was probed. *)
Definition probed : list event -> list string :=
  select (fun e => match e with EtcdGet server => Some server | _ => None end).

(** The embedded stores started. *)
Definition storesRun : list event -> list etcd.Config :=
  select (fun e => match e with EtcdRun c => Some c | _ => None end).

(** The CORS lists handed to the master. *)
Definition corsHanded : list event -> list (list string) :=
  select (fun e => match e with EnsureCORSAllowedOrigins l => Some l | _ => None end).

(** The master configurations whose clients were built. *)
Definition clientsBuilt : list event -> list origin.MasterConfig :=
  select (fun e => match e with BuildClients m => Some m | _ => None end).

(** The Kubernetes master configurations put to use. *)
Definition kubeMasters : list event -> list kubernetes.MasterConfig :=
  select (fun e => match e with EnsurePortalFlags k => Some k | _ => None end).

(** The lines logged. *)
Definition logged : list event -> list string :=
  select (fun e => match e with Infof msg => Some msg | _ => None end).

(** The log lines of [logNodes]. *)
Definition nodeLog (l : list string) : list event :=
  map (fun s => Infof ("  Node: " ++ s)) l.

(** The identities of a TLS master. *)
Definition expectedIdentities (startKube : bool) : list string :=
  (["master"; "openshift-client"; "openshift-deployer"; "admin"]
   ++ (if startKube then ["kube-client"] else []))%list.

(** The launches of a master and of a node, in order. *)
Definition masterLaunches (startKube : bool) : list component :=
  (apiLaunches startKube ++ StartRecording :: RunAssetServer :: controllers)%list.

Definition nodeLaunches : list component :=
  [EnsureVolumeDir; EnsureDocker; RunProxy; RunKubelet].

(** The node configuration [runNode] builds. *)
Definition nodeConfig (env : Env) (cfg : config) : kubernetes.NodeConfig :=
  kubernetes.mkNodeConfig (flagtypes.Host (BindAddr cfg)) (Hostname cfg)
    (url.String (flagtypes.URL (MasterAddr cfg))) (VolumeDir cfg)
    (env_ env "KUBERNETES_NETWORK_CONTAINER_IMAGE" (kubelet_NetworkContainerImage env))
    (MasterServiceNamespace cfg).

(** The events of a master after its certificates are made. *)
Definition masterTail (startKube : bool) (cfg : config)
    (osmaster : origin.MasterConfig) (roots : option (list string)) : list event :=
  ([BuildClients osmaster;
    EnsureCORSAllowedOrigins (CORSAllowedOrigins cfg);
    AuthConfigured (origin.mkAuthConfig (url.String (flagtypes.URL (MasterAddr cfg)))
                      roots ["secret"])]
   ++ (if startKube then [EnsurePortalFlags (kubeMasterConfig cfg)] else [])
   ++ map Launch (masterLaunches startKube))%list.

(** How [start] leaves its first part once the role is known: with the
    defaulted configuration and one log line, or with the error of
    [defaultMasterAddress]. *)
Definition resolved (env : Env) (cfg : config) (what : string) (rl : roles)
  : M (roles * config) :=
  fun n =>
    match defaultMasterAddress env cfg with
    | (cfg', None) => (([Infof (what ++ addresses cfg')], n), Ok (rl, cfg'))
    | (_, Some err) => (([], n), Err err)
    end.

(** The certificate authority's name, the server certificate's hosts and
    the template of the client configurations. *)
Definition caName (env : Env) (cfg : config) : string :=
  flagtypes.Host (MasterAddr cfg) ++ "@" ++ GoStr.Itoa (time_Now_Unix env).

Definition serverHosts (cfg : config) : list string :=
  [flagtypes.Host (MasterAddr cfg); "localhost"; "127.0.0.1"; "172.17.42.1"].

Definition osClientConfig (env : Env) (cfg : config) : kclient.Config :=
  kclient.mkConfig (url.String (flagtypes.URL (MasterAddr cfg))) (latest_Version env) None.

(** The calls of a certificate bootstrap that went through. *)
Definition trustCalls (env : Env) (startKube : bool) (cfg : config)
    (osmaster : origin.MasterConfig) : list event :=
  ([CallInitCA (CertDir cfg) (caName env cfg);
    CallMakeServerCert "master" (serverHosts cfg);
    CallMakeClientConfig "openshift-client" (osClientConfig env cfg);
    CallMakeClientConfig "openshift-deployer" (osClientConfig env cfg);
    CallMakeClientConfig "admin" (osClientConfig env cfg)]
   ++ (if startKube
       then [CallMakeClientConfig "kube-client" (origin.KubeClientConfig osmaster)]
       else []))%list.

(** Whether Kubernetes runs in this process. *)
Definition embeddedKube (cfg : config) : bool :=
  negb (flagtypes.Provided (KubernetesAddr cfg)).

(** The configuration as [start] passes it to the master and node blocks:
    without an explicit Kubernetes address, that address is the master's. *)
Definition withKube (cfg : config) : config :=
  if embeddedKube cfg then set_KubernetesAddr (MasterAddr cfg) cfg else cfg.

(** The configuration of a master at the time its certificates are made,
    [cfg] being the operator's and [cfg0] the one with the addresses
    defaulted: Kubernetes address, node list and CORS list settled. *)
Definition settled (cfg cfg0 : config) : config :=
  let cfg1 := set_NodeList (masterNodeList cfg) (withKube cfg0) in
  set_CORSAllowedOrigins (corsAllowedOrigins cfg1) cfg1.

(** A client configuration without credentials that talks to [target]. *)
Definition plainClientAt (target : string) (c : kclient.Config) : Prop :=
  kclient.Host c = target /\ kclient.Credentials c = None.

(** Every client of the master shares the unauthenticated access to
    [target]. *)
Definition allClientsAt (target : string) (m : origin.MasterConfig) : Prop :=
  origin.OSClientConfig m = origin.DeployerOSClientConfig m
  /\ plainClientAt target (origin.OSClientConfig m)
  /\ plainClientAt target (origin.KubeClientConfig m).


(** The authentication configurations built. *)
Definition authConfigs : list event -> list origin.AuthConfig :=
  select (fun e => match e with AuthConfigured a => Some a | _ => None end).

(** The node configurations built. *)
Definition nodeConfigs : list event -> list kubernetes.NodeConfig :=
  select (fun e => match e with NodeConfigured c => Some c | _ => None end).

(** The server certificates asked for: name and hosts. *)
Definition serverCerts : list event -> list (string * list string) :=
  select (fun e => match e with
                   | CallMakeServerCert name hosts => Some (name, hosts)
                   | _ => None
                   end).

(** The configuration of the store a master runs for itself, [cfg] being
    the operator's configuration and [cfg0] the one with the addresses
    defaulted. *)
Definition ownStore (cfg cfg0 : config) : etcd.Config :=
  etcd.mkConfig (flagtypes.Host (BindAddr cfg)) (flagtypes.Host (BindAddr cfg))
    (url.Host (flagtypes.URL (EtcdAddr cfg0))) (EtcdDir cfg).

(** One pass through the readiness gate that needed [k] failed probes. *)
Definition gatePass (server : string) (k : nat) : list event :=
  (rounds server k ++ [EtcdGet server])%list.

(** Whether the authority [ca] answers without error the call the
    certificate bootstrap makes for the identity [name]. *)
Definition signs (env : Env) (ca : crypto.CA) (cfg : config)
    (osmaster : origin.MasterConfig) (name : string) : bool :=
  if String.eqb name "master" then
    match MakeServerCert env ca "master" (serverHosts cfg) with
    | Ok _ => true
    | Err _ => false
    end
  else
    match MakeClientConfig env ca name
            (if String.eqb name "kube-client" then origin.KubeClientConfig osmaster
             else osClientConfig env cfg) with
    | Ok _ => true
    | Err _ => false
    end.

(** The calls made down a list of identities when each call is made only
    after those before it went through: all up to the first that fails,
    that one included. *)
Fixpoint uptoFirstFailure (ok : string -> bool) (names : list string) : list string :=
  match names with
  | [] => []
  | name :: rest => name :: (if ok name then uptoFirstFailure ok rest else [])
  end.

(** The environment with another outcome of the address discovery. *)
Definition withLocalIP (r : result net.IP) (env : Env) : Env :=
  mkEnv r (etcd_Get env) (origin_NewEtcdHelper env) (kmaster_NewEtcdHelper env)
    (time_Now_Unix env) (InitCA env) (MakeServerCert env) (MakeClientConfig env)
    (Getenv env) (latest_Version env) (klatest_Version env)
    (kubelet_NetworkContainerImage env).

Module Failing.

(** A certificate authority that refuses the deployer's identity. *)
Definition signButDeployer (ca : crypto.CA) (name : string) (c : kclient.Config)
  : result kclient.Config :=
  if String.eqb name "openshift-deployer" then Err "x509: signing failed"
  else Scenario.signAll ca name c.

Definition envNoDeployer : Env :=
  mkEnv (Ok Scenario.localIP) (fun _ _ => Found) (fun _ => None) None 1700000000
    (fun _ _ => Ok (crypto.mkCA ["ca.crt"]))
    (fun _ name _ => Ok (crypto.mkServerCert (name ++ ".crt") (name ++ ".key")))
    signButDeployer (fun _ => "") "v1beta1" "v1beta1" "kubernetes/pause:latest".

(** A host on which the server storage cannot be set up. *)
Definition envNoStorage : Env :=
  mkEnv (Ok Scenario.localIP) (fun _ _ => Found)
    (fun _ => Some "unsupported storage version") None 1700000000
    (fun _ _ => Ok (crypto.mkCA ["ca.crt"]))
    (fun _ name _ => Ok (crypto.mkServerCert (name ++ ".crt") (name ++ ".key")))
    Scenario.signAll (fun _ => "") "v1beta1" "v1beta1" "kubernetes/pause:latest".

(** A host whose store answers the first probe and no other. *)
Definition envStoreLost : Env :=
  mkEnv (Ok Scenario.localIP)
    (fun n _ => if (n <? 1)%nat then Found else Failed "connection reset")
    (fun _ => None) None 1700000000
    (fun _ _ => Ok (crypto.mkCA ["ca.crt"]))
    (fun _ name _ => Ok (crypto.mkServerCert (name ++ ".crt") (name ++ ".key")))
    Scenario.signAll (fun _ => "") "v1beta1" "v1beta1" "kubernetes/pause:latest".

(** A host without a routable address. *)
Definition envNoAddress : Env :=
  withLocalIP (Err "no suitable address found") Scenario.env.

End Failing.

(** * Properties *)

(** ** Strings *)

Module GoStrLemmas.
Import GoStr GoStrFacts.

Lemma append_assoc (s1 s2 s3 : string) : (s1 ++ s2) ++ s3 = s1 ++ s2 ++ s3.
Proof. induction s1 as [|a s1 IH]; cbn [append]; [reflexivity | now rewrite IH]. Qed.

Lemma append_nil_r (s : string) : s ++ "" = s.
Proof. induction s as [|a s IH]; cbn [append]; [reflexivity | now rewrite IH]. Qed.

Lemma contains_app c s1 s2 :
  contains c (s1 ++ s2) = contains c s1 || contains c s2.
Proof.
  induction s1 as [|a s1 IH]; simpl; [reflexivity|].
  now rewrite IH, orb_assoc.
Qed.

Lemma all_app p s1 s2 : all p (s1 ++ s2) = all p s1 && all p s2.
Proof.
  induction s1 as [|a s1 IH]; simpl; [reflexivity|].
  now rewrite IH, andb_assoc.
Qed.

Lemma all_contains p c s :
  all p s = true -> p c = false -> contains c s = false.
Proof.
  intros Hs Hc. induction s as [|a s IH]; simpl in *; [reflexivity|].
  apply andb_true_iff in Hs as [Ha Hs].
  rewrite (IH Hs), orb_false_r.
  destruct (Ascii.eqb_spec a c) as [->|]; [congruence | reflexivity].
Qed.

Lemma all_impl (p q : ascii -> bool) s :
  (forall a, p a = true -> q a = true) -> all p s = true -> all q s = true.
Proof.
  intros Hpq. induction s as [|a s IH]; simpl; [reflexivity|].
  intros H. apply andb_true_iff in H as [Ha Hs].
  now rewrite (Hpq _ Ha), (IH Hs).
Qed.

Lemma split_last_none c s : contains c s = false -> split_last c s = None.
Proof.
  induction s as [|a s IH]; simpl; [reflexivity|].
  intros H. apply orb_false_iff in H as [Ha Hs].
  now rewrite (IH Hs), Ha.
Qed.

Lemma split_last_app c h p :
  contains c p = false -> split_last c (h ++ String c p) = Some (h, p).
Proof.
  intros Hp. induction h as [|a h IH]; simpl.
  - now rewrite (split_last_none _ _ Hp), Ascii.eqb_refl.
  - now rewrite IH.
Qed.

Lemma split_first_app c h t :
  contains c h = false -> split_first c (h ++ String c t) = Some (h, t).
Proof.
  induction h as [|a h IH]; simpl.
  - now rewrite Ascii.eqb_refl.
  - intros H. apply orb_false_iff in H as [Ha Hh].
    now rewrite Ha, (IH Hh).
Qed.

Lemma span_all stop s :
  all (fun a => negb (stop a)) s = true -> span stop s = (s, EmptyString).
Proof.
  induction s as [|a s IH]; simpl; [reflexivity|].
  intros H. apply andb_true_iff in H as [Ha Hs].
  apply negb_true_iff in Ha. now rewrite Ha, (IH Hs).
Qed.

Lemma digits_uint d : all digit (NilEmpty.string_of_uint d) = true.
Proof. induction d; simpl; auto. Qed.

Lemma digits_uint0 d : all digit (NilZero.string_of_uint d) = true.
Proof. destruct d; try apply digits_uint; reflexivity. Qed.

Lemma digit_hostChar a : digit a = true -> hostChar a = true.
Proof.
  destruct a as [[] [] [] [] [] [] [] []]; simpl; intros H;
    try discriminate H; reflexivity.
Qed.

(** A non-negative [int] is rendered by its digits alone. *)
Lemma Itoa_digits p : 0 <= p -> all digit (Itoa p) = true.
Proof.
  intros Hp. unfold Itoa. destruct p as [|q|q];
    [reflexivity | apply digits_uint0 | lia].
Qed.

Lemma ParseUint_Itoa p : validPort p -> ParseUint (Itoa p) = Ok p.
Proof.
  intros [H0 H1]. unfold ParseUint, Itoa.
  destruct p as [|q|q]; try lia; [reflexivity|].
  simpl Z.to_int. cbv beta iota delta [NilZero.string_of_int].
  rewrite NilZero.usu by apply DecimalPos.Unsigned.to_uint_nonnil.
  unfold N.of_uint. rewrite DecimalPos.Unsigned.of_to.
  simpl Z.of_N.
  destruct (Z.ltb_spec (Z.pos q) (2 ^ 64)); [reflexivity | lia].
Qed.

Lemma int_of_uint64_small p : validPort p -> int_of_uint64 p = p.
Proof.
  intros [H0 H1]. unfold int_of_uint64.
  destruct (Z.ltb_spec p (2 ^ 63)); [reflexivity | lia].
Qed.

Lemma int_add_small x y : validPort (x + y) -> int_add x y = x + y.
Proof.
  intros [H0 H1]. unfold int_add.
  assert (H64 : 2 ^ 64 = 2 * 2 ^ 63) by reflexivity.
  rewrite Z.mod_small by lia.
  destruct (Z.ltb_spec (x + y) (2 ^ 63)); [reflexivity | lia].
Qed.

Lemma int_add_counter i : 0 <= i <= 101 -> int_add i 1 = i + 1.
Proof.
  intros H. apply int_add_small. split; [lia|].
  apply Z.le_lt_trans with 102; [lia | reflexivity].
Qed.

Lemma plain_no c h :
  plainHost h = true -> hostChar c = false -> contains c h = false.
Proof. intros; eapply all_contains; eauto. Qed.

Lemma plain_not_bracketed h :
  plainHost h = true ->
  match h with String "[" _ => False | _ => True end.
Proof.
  destruct h as [|a h]; simpl; [trivial|].
  intros H. apply andb_true_iff in H as [Ha _].
  destruct a as [[] [] [] [] [] [] [] []]; simpl in *; trivial; discriminate.
Qed.

Lemma JoinHostPort_plain h port :
  plainHost h = true -> JoinHostPort h port = h ++ ":" ++ port.
Proof.
  intros H. unfold JoinHostPort.
  now rewrite (plain_no ":"%char _ H eq_refl), (plain_no "%"%char _ H eq_refl).
Qed.

(** [net.SplitHostPort] undoes [net.JoinHostPort] on a plain host and a
    port made of digits. *)
Lemma SplitHostPort_Join h port :
  plainHost h = true -> all digit port = true ->
  SplitHostPort (JoinHostPort h port) = Ok (h, port).
Proof.
  intros Hh Hp. rewrite (JoinHostPort_plain _ port Hh).
  assert (Hd : forall c, digit c = false -> contains c port = false)
    by (intros; eapply all_contains; eauto).
  unfold SplitHostPort. simpl append.
  rewrite split_last_app by (apply Hd; reflexivity).
  pose proof (plain_not_bracketed _ Hh) as Hb.
  assert (Hrest :
    (if contains ":" h then Err "too many colons in address"
     else if contains "[" (h ++ String ":" port) then Err "unexpected '[' in address"
     else if contains "]" (h ++ String ":" port) then Err "unexpected ']' in address"
     else Ok (h, port)) = Ok (h, port)).
  { rewrite !contains_app. simpl contains.
    rewrite (plain_no ":"%char _ Hh eq_refl), (plain_no "["%char _ Hh eq_refl),
      (plain_no "]"%char _ Hh eq_refl).
    rewrite (Hd "["%char eq_refl), (Hd "]"%char eq_refl). reflexivity. }
  destruct h as [|a h']; [exact Hrest|].
  destruct a as [[] [] [] [] [] [] [] []]; try exact Hrest. elim Hb.
Qed.

End GoStrLemmas.

(** ** Addresses *)

Module AddrLemmas.
Import GoStr GoStrFacts GoStrLemmas.

Lemma prefix_colon_slash x s :
  HasPrefix s (x ++ "://") = true -> colon_slash s = true.
Proof.
  revert s. induction x as [|a x IH]; intros s H.
  - destruct s as [|b [|c s]]; cbn [HasPrefix append] in H; try discriminate H.
    + now rewrite andb_false_r in H.
    + apply andb_true_iff in H as [Hb H]. apply andb_true_iff in H as [Hc _].
      apply Ascii.eqb_eq in Hb, Hc. subst. reflexivity.
  - destruct s as [|b s]; cbn [HasPrefix append] in H; [discriminate H|].
    apply andb_true_iff in H as [_ H].
    cbn [colon_slash]. rewrite (IH _ H). apply orb_true_r.
Qed.

Lemma colon_slash_digits port :
  all digit port = true -> colon_slash port = false.
Proof.
  induction port as [|a p IH]; simpl; [reflexivity|].
  intros H. apply andb_true_iff in H as [Ha Hp].
  rewrite (IH Hp), orb_false_r.
  destruct (Ascii.eqb_spec a ":") as [->|]; [discriminate Ha | reflexivity].
Qed.

Lemma colon_slash_hostport h port :
  plainHost h = true -> all digit port = true ->
  colon_slash (h ++ ":" ++ port) = false.
Proof.
  intros Hh Hp. change (colon_slash (h ++ String ":" port) = false).
  induction h as [|a h IH].
  - cbn [append colon_slash]. rewrite (colon_slash_digits _ Hp).
    destruct port as [|b p]; [reflexivity|].
    cbn [all] in Hp. apply andb_true_iff in Hp as [Hb _].
    destruct (Ascii.eqb_spec b "/") as [->|]; [discriminate Hb | reflexivity].
  - cbn [plainHost all] in Hh. apply andb_true_iff in Hh as [Ha Hh].
    cbn [append colon_slash]. rewrite (IH Hh), orb_false_r.
    destruct (Ascii.eqb_spec a ":") as [->|]; [discriminate Ha | reflexivity].
Qed.

(** A host:port pair is not taken for a URL, whatever the default scheme. *)
Lemma isURL_hostport a h port :
  plainHost h = true -> all digit port = true ->
  flagtypes.isURL a (h ++ ":" ++ port) = false.
Proof.
  intros Hh Hp. unfold flagtypes.isURL.
  pose proof (colon_slash_hostport _ _ Hh Hp) as Hcs.
  remember (h ++ ":" ++ port) as v eqn:Ev. clear Ev.
  assert (Hno : forall x, HasPrefix v (x ++ "://") = false).
  { intros x. destruct (HasPrefix v (x ++ "://")) eqn:E; [|reflexivity].
    apply prefix_colon_slash in E. now rewrite Hcs in E. }
  assert (Hk : existsb (HasPrefix v) flagtypes.urlPrefixes = false).
  { pose proof (Hno "http") as H1. pose proof (Hno "https") as H2.
    pose proof (Hno "tcp") as H3. cbn [append] in H1, H2, H3.
    unfold flagtypes.urlPrefixes. cbn [existsb].
    now rewrite H1, H2, H3. }
  destruct (String.eqb (flagtypes.DefaultScheme a) ""); [exact Hk|].
  rewrite existsb_app, Hk. cbn [existsb]. now rewrite Hno.
Qed.

(** What [Set] makes of every value it accepts. *)
Lemma Set_accepts a v a' :
  flagtypes.Set_ a v = Ok a' ->
  flagtypes.Provided a' = true /\ flagtypes.Value a' = v
  /\ flagtypes.DefaultScheme a' = flagtypes.DefaultScheme a
  /\ flagtypes.DefaultPort a' = flagtypes.DefaultPort a
  /\ flagtypes.AllowPrefix a' = flagtypes.AllowPrefix a.
Proof.
  unfold flagtypes.Set_. intros H.
  repeat match type of H with
         | Ok _ = Ok _ => injection H as <-; simpl; auto
         | Err _ = Ok _ => discriminate H
         | context [match ?x with _ => _ end] => destruct x
         end.
Qed.

(** [Set] on a host:port pair built by [net.JoinHostPort]. *)
Lemma Set_hostport a h p :
  plainHost h = true -> validPort p ->
  flagtypes.Set_ a (JoinHostPort h (Itoa p)) =
  Ok (flagtypes.mkAddr (flagtypes.DefaultScheme a) (flagtypes.DefaultPort a)
        (flagtypes.AllowPrefix a) true (h ++ ":" ++ Itoa p)
        (url.mkURL (fallbackScheme a) (h ++ ":" ++ Itoa p) "") h p).
Proof.
  intros Hh Hp.
  pose proof (Itoa_digits p (proj1 Hp)) as Hd.
  pose proof (SplitHostPort_Join h (Itoa p) Hh Hd) as Hs.
  rewrite (JoinHostPort_plain h (Itoa p) Hh) in *.
  unfold flagtypes.Set_.
  rewrite (isURL_hostport a h (Itoa p) Hh Hd).
  rewrite contains_app. simpl contains. rewrite orb_true_r.
  rewrite Hs, (ParseUint_Itoa p Hp), (int_of_uint64_small p Hp).
  reflexivity.
Qed.

Lemma HasPrefix_app p s : HasPrefix (p ++ s) p = true.
Proof.
  induction p as [|a p IH]; cbn [HasPrefix append]; [reflexivity|].
  now rewrite Ascii.eqb_refl, IH.
Qed.

Lemma isURL_known a scheme rest :
  In scheme knownSchemes -> flagtypes.isURL a (scheme ++ "://" ++ rest) = true.
Proof.
  intros Hin. unfold flagtypes.isURL.
  assert (Hk : existsb (HasPrefix (scheme ++ "://" ++ rest)) flagtypes.urlPrefixes = true).
  { apply existsb_exists. exists (scheme ++ "://"). split.
    - unfold knownSchemes in Hin. cbn [In] in Hin.
      destruct Hin as [<-|[<-|[<-|[]]]]; cbn; auto.
    - rewrite <- append_assoc. apply HasPrefix_app. }
  destruct (String.eqb (flagtypes.DefaultScheme a) ""); [exact Hk|].
  now rewrite existsb_app, Hk.
Qed.

Lemma authority_hostport h port :
  plainHost h = true -> all digit port = true ->
  all (fun a => negb (url.ends_authority a)) (h ++ ":" ++ port) = true.
Proof.
  intros Hh Hp. rewrite all_app. apply andb_true_iff. split.
  - revert Hh. apply all_impl. intros c.
    destruct c as [[] [] [] [] [] [] [] []]; cbn; congruence.
  - cbn [append all]. apply andb_true_iff. split; [reflexivity|].
    revert Hp. apply all_impl. intros c.
    destruct c as [[] [] [] [] [] [] [] []]; cbn; congruence.
Qed.

Lemma Parse_known scheme h port :
  In scheme knownSchemes -> plainHost h = true -> all digit port = true ->
  url.Parse (scheme ++ "://" ++ h ++ ":" ++ port) =
  Ok (url.mkURL scheme (h ++ ":" ++ port) "").
Proof.
  intros Hin Hh Hp. unfold url.Parse.
  change (scheme ++ "://" ++ h ++ ":" ++ port)
    with (scheme ++ String ":" ("//" ++ h ++ ":" ++ port)).
  rewrite split_first_app.
  - cbn [append]. change (h ++ String ":" port) with (h ++ ":" ++ port).
    rewrite (span_all _ _ (authority_hostport _ _ Hh Hp)). reflexivity.
  - unfold knownSchemes in Hin. cbn [In] in Hin.
    destruct Hin as [<-|[<-|[<-|[]]]]; reflexivity.
Qed.

(** [Set] on a URL put together from a known scheme, a plain host and a
    port. *)
Lemma Set_url a scheme h p :
  In scheme knownSchemes -> plainHost h = true -> validPort p ->
  flagtypes.Set_ a (scheme ++ "://" ++ JoinHostPort h (Itoa p)) =
  Ok (flagtypes.mkAddr (flagtypes.DefaultScheme a) (flagtypes.DefaultPort a)
        (flagtypes.AllowPrefix a) true (scheme ++ "://" ++ h ++ ":" ++ Itoa p)
        (url.mkURL scheme (h ++ ":" ++ Itoa p) "") h p).
Proof.
  intros Hin Hh Hp.
  pose proof (Itoa_digits p (proj1 Hp)) as Hd.
  pose proof (SplitHostPort_Join h (Itoa p) Hh Hd) as Hs.
  rewrite (JoinHostPort_plain h (Itoa p) Hh) in *.
  unfold flagtypes.Set_.
  rewrite (isURL_known a scheme _ Hin), (Parse_known _ _ _ Hin Hh Hd).
  assert (Hc : contains ":" (h ++ ":" ++ Itoa p) = true).
  { rewrite contains_app. cbn [append contains]. now rewrite orb_true_r. }
  destruct (flagtypes.AllowPrefix a); cbn [url.Host url.Scheme url.Path];
    rewrite Hc, Hs, (ParseUint_Itoa p Hp), (int_of_uint64_small p Hp);
    reflexivity.
Qed.

Lemma octet_plain b : plainHost (net.octet b) = true.
Proof.
  unfold net.octet, plainHost.
  eapply all_impl; [apply digit_hostChar | apply digits_uint0].
Qed.

(** A dotted IPv4 address is a plain host. *)
Lemma IP_plain ip : plainHost (net.String ip) = true.
Proof.
  unfold net.String, plainHost. rewrite !all_app.
  pose proof (octet_plain (net.b0 ip)). pose proof (octet_plain (net.b1 ip)).
  pose proof (octet_plain (net.b2 ip)). pose proof (octet_plain (net.b3 ip)).
  unfold plainHost in *. cbn [all].
  repeat (apply andb_true_iff; split); auto.
Qed.

End AddrLemmas.

(** ** [defaultMasterAddress] *)

Section DefaultMasterAddress.
Import GoStr GoStrFacts GoStrLemmas AddrLemmas.

Lemma NewCommandStartServer_initial hostname namespace :
  NewCommandStartServer hostname namespace = Ok (initialConfig hostname namespace).
Proof. reflexivity. Qed.

(** Without any flag the master's port and scheme are its defaults. *)
Lemma initial_master_defaults hostname namespace :
  let m := MasterAddr (initialConfig hostname namespace) in
  flagtypes.Provided m = false /\ flagtypes.Port m = flagtypes.DefaultPort m
  /\ url.Scheme (flagtypes.URL m) = flagtypes.DefaultScheme m.
Proof. cbn. auto. Qed.

Lemma defaultMasterAddress_provided env cfg :
  flagtypes.Provided (MasterAddr cfg) = true ->
  flagtypes.Provided (EtcdAddr cfg) = true ->
  defaultMasterAddress env cfg = (cfg, None).
Proof. intros Hm He. unfold defaultMasterAddress. now rewrite Hm, He. Qed.

(** A run without error leaves both addresses marked as provided. *)
Lemma defaultMasterAddress_marks env cfg cfg1 :
  defaultMasterAddress env cfg = (cfg1, None) ->
  flagtypes.Provided (MasterAddr cfg1) = true
  /\ flagtypes.Provided (EtcdAddr cfg1) = true.
Proof.
  unfold defaultMasterAddress.
  destruct (flagtypes.Provided (MasterAddr cfg)) eqn:Hm; cbn [negb].
  - destruct (flagtypes.Provided (EtcdAddr cfg)) eqn:He; cbn [negb].
    + intros [= <-]. auto.
    + destruct (flagtypes.Set_ (EtcdAddr cfg) _) as [e|err] eqn:Hs; intros [= <-].
      apply Set_accepts in Hs. cbn. tauto.
  - destruct (DefaultLocalIP4 env) as [addr|err]; [|discriminate].
    destruct (flagtypes.Set_ (MasterAddr cfg) _) as [m|err] eqn:Hsm; [|discriminate].
    apply Set_accepts in Hsm.
    cbn [EtcdAddr set_MasterAddr].
    destruct (flagtypes.Provided (EtcdAddr cfg)) eqn:He; cbn [negb].
    + intros [= <-]. cbn. tauto.
    + destruct (flagtypes.Set_ (EtcdAddr cfg) _) as [e|err] eqn:Hs; intros [= <-].
      apply Set_accepts in Hs. cbn. tauto.
Qed.

Lemma defaultMasterAddress_unset env cfg addr :
  flagtypes.Provided (MasterAddr cfg) = false ->
  DefaultLocalIP4 env = Ok addr ->
  In (chosenScheme cfg) knownSchemes -> validPort (chosenPort cfg) ->
  let m := flagtypes.mkAddr (flagtypes.DefaultScheme (MasterAddr cfg))
             (flagtypes.DefaultPort (MasterAddr cfg))
             (flagtypes.AllowPrefix (MasterAddr cfg)) true
             (chosenScheme cfg ++ "://" ++ net.String addr ++ ":" ++ Itoa (chosenPort cfg))
             (url.mkURL (chosenScheme cfg)
                (net.String addr ++ ":" ++ Itoa (chosenPort cfg)) "")
             (net.String addr) (chosenPort cfg) in
  defaultMasterAddress env cfg =
  if flagtypes.Provided (EtcdAddr cfg) then (set_MasterAddr m cfg, None)
  else match flagtypes.Set_ (EtcdAddr cfg)
               (JoinHostPort (net.String addr)
                  (Itoa (flagtypes.DefaultPort (EtcdAddr cfg)))) with
       | Ok e => (set_EtcdAddr e (set_MasterAddr m cfg), None)
       | Err err =>
           (set_MasterAddr m cfg, Some ("Unable to set public address of etcd: " ++ err))
       end.
Proof.
  intros Hm Hip Hs Hp m. unfold defaultMasterAddress.
  rewrite Hm, Hip. cbn [negb].
  fold (chosenPort cfg). fold (chosenScheme cfg).
  rewrite (Set_url (MasterAddr cfg) _ _ _ Hs (IP_plain addr) Hp).
  fold m. cbn [EtcdAddr set_MasterAddr].
  destruct (flagtypes.Provided (EtcdAddr cfg)); reflexivity.
Qed.

(** C2: when the master address was not provided, the port and the
    scheme are those of the listen address if the operator set it and
    the master's own otherwise; with a local IPv4 address found, the
    master address becomes scheme://host:port with that host and is
    marked as provided; with none found, the function returns an error
    and leaves the configuration as it was. *)
Theorem defaultMasterAddress_master_unset env cfg :
  flagtypes.Provided (MasterAddr cfg) = false ->
  (forall err, DefaultLocalIP4 env = Err err ->
     defaultMasterAddress env cfg =
     (cfg, Some ("Unable to find the public address of this master: " ++ err)))
  /\ (forall addr, DefaultLocalIP4 env = Ok addr ->
      In (chosenScheme cfg) knownSchemes -> validPort (chosenPort cfg) ->
      let m := MasterAddr (fst (defaultMasterAddress env cfg)) in
      flagtypes.Provided m = true
      /\ flagtypes.Host m = net.String addr
      /\ flagtypes.Port m = chosenPort cfg
      /\ url.Scheme (flagtypes.URL m) = chosenScheme cfg
      /\ flagtypes.String m =
         chosenScheme cfg ++ "://" ++ net.String addr ++ ":" ++ Itoa (chosenPort cfg)).
Proof.
  intros Hm. split.
  - intros err Hip. unfold defaultMasterAddress. now rewrite Hm, Hip.
  - intros addr Hip Hs Hp.
    rewrite (defaultMasterAddress_unset env cfg addr Hm Hip Hs Hp).
    destruct (flagtypes.Provided (EtcdAddr cfg));
      [|destruct (flagtypes.Set_ (EtcdAddr cfg) _)];
      cbn; rewrite append_nil_r; repeat split; reflexivity.
Qed.

Lemma defaultMasterAddress_master_unset_witness :
  flagtypes.String (MasterAddr (fst (defaultMasterAddress Scenario.env Scenario.cfgA)))
  = "https://10.0.0.5:8443".
Proof.
  destruct (defaultMasterAddress_master_unset Scenario.env Scenario.cfgA eq_refl)
    as [_ H].
  destruct (H Scenario.localIP eq_refl) as (_ & _ & _ & _ & Hstr).
  - cbn. auto.
  - unfold validPort. cbn. lia.
  - exact Hstr.
Defined.

(** C4: when the store address was not provided, it is derived with the
    store's default port from the host of an explicit master address,
    and otherwise, like the master address, from the discovered local
    IPv4 address. *)
Theorem defaultMasterAddress_store env cfg :
  flagtypes.Provided (EtcdAddr cfg) = false ->
  validPort (flagtypes.DefaultPort (EtcdAddr cfg)) ->
  let storePort := flagtypes.DefaultPort (EtcdAddr cfg) in
  (flagtypes.Provided (MasterAddr cfg) = true ->
   plainHost (flagtypes.Host (MasterAddr cfg)) = true ->
   exists cfg',
     defaultMasterAddress env cfg = (cfg', None)
     /\ MasterAddr cfg' = MasterAddr cfg
     /\ flagtypes.Provided (EtcdAddr cfg') = true
     /\ flagtypes.Host (EtcdAddr cfg') = flagtypes.Host (MasterAddr cfg)
     /\ flagtypes.Port (EtcdAddr cfg') = storePort
     /\ flagtypes.String (EtcdAddr cfg') =
        fallbackScheme (EtcdAddr cfg) ++ "://"
        ++ flagtypes.Host (MasterAddr cfg) ++ ":" ++ Itoa storePort)
  /\ (flagtypes.Provided (MasterAddr cfg) = false ->
      forall addr, DefaultLocalIP4 env = Ok addr ->
      In (chosenScheme cfg) knownSchemes -> validPort (chosenPort cfg) ->
      exists cfg',
        defaultMasterAddress env cfg = (cfg', None)
        /\ flagtypes.Host (MasterAddr cfg') = net.String addr
        /\ flagtypes.Provided (EtcdAddr cfg') = true
        /\ flagtypes.Host (EtcdAddr cfg') = net.String addr
        /\ flagtypes.Port (EtcdAddr cfg') = storePort
        /\ flagtypes.String (EtcdAddr cfg') =
           fallbackScheme (EtcdAddr cfg) ++ "://"
           ++ net.String addr ++ ":" ++ Itoa storePort).
Proof.
  intros He Hport storePort. split.
  - intros Hm Hplain. unfold defaultMasterAddress.
    rewrite Hm, He. cbn [negb].
    rewrite (Set_hostport (EtcdAddr cfg) _ _ Hplain Hport).
    eexists. split; [reflexivity|]. cbn. rewrite append_nil_r.
    repeat split; reflexivity.
  - intros Hm addr Hip Hs Hp.
    rewrite (defaultMasterAddress_unset env cfg addr Hm Hip Hs Hp), He.
    rewrite (Set_hostport (EtcdAddr cfg) _ _ (IP_plain addr) Hport).
    eexists. split; [reflexivity|]. cbn. rewrite append_nil_r.
    repeat split; reflexivity.
Qed.

Lemma defaultMasterAddress_store_witness :
  exists cfg',
    defaultMasterAddress Scenario.env Scenario.cfgB = (cfg', None)
    /\ flagtypes.Host (EtcdAddr cfg') = "203.0.113.9"
    /\ flagtypes.String (EtcdAddr cfg') = "http://203.0.113.9:4001".
Proof.
  assert (Hp : validPort (flagtypes.DefaultPort (EtcdAddr Scenario.cfgB)))
    by (unfold validPort; cbn; lia).
  destruct (defaultMasterAddress_store Scenario.env Scenario.cfgB eq_refl Hp)
    as [H _].
  destruct (H eq_refl eq_refl) as (cfg' & Hrun & _ & _ & Hhost & _ & Hstr).
  exists cfg'. repeat split; [exact Hrun | exact Hhost | exact Hstr].
Defined.

(** Scenario A: no arguments, no flags, one routable address 10.0.0.5. *)
Example scenario_A_addresses :
  let cfg' := fst (defaultMasterAddress Scenario.env Scenario.cfgA) in
  snd (defaultMasterAddress Scenario.env Scenario.cfgA) = None
  /\ flagtypes.String (MasterAddr cfg') = "https://10.0.0.5:8443"
  /\ flagtypes.String (EtcdAddr cfg') = "http://10.0.0.5:4001".
Proof. vm_compute. auto. Qed.

(** Scenario B: [--master=203.0.113.9:9443], store not provided. *)
Example scenario_B_addresses :
  let cfg' := fst (defaultMasterAddress Scenario.env Scenario.cfgB) in
  snd (defaultMasterAddress Scenario.env Scenario.cfgB) = None
  /\ flagtypes.String (MasterAddr cfg') = "https://203.0.113.9:9443"
  /\ flagtypes.String (EtcdAddr cfg') = "http://203.0.113.9:4001".
Proof. vm_compute. auto. Qed.

(** With a store port that can be written and read back, an error of
    the address defaulting leaves the configuration untouched. *)
Lemma defaultMasterAddress_error env cfg cfg1 err :
  validPort (flagtypes.DefaultPort (EtcdAddr cfg)) ->
  defaultMasterAddress env cfg = (cfg1, Some err) -> cfg1 = cfg.
Proof.
  intros Hport. unfold defaultMasterAddress.
  destruct (flagtypes.Provided (MasterAddr cfg)) eqn:Hm; cbn [negb].
  - destruct (flagtypes.Provided (EtcdAddr cfg)); cbn [negb]; [discriminate|].
    destruct (flagtypes.Set_ (EtcdAddr cfg) _); [discriminate|].
    now intros [= <- _].
  - destruct (DefaultLocalIP4 env) as [addr|e]; [|now intros [= <- _]].
    destruct (flagtypes.Set_ (MasterAddr cfg) _) as [m|e]; [|now intros [= <- _]].
    cbn [EtcdAddr set_MasterAddr].
    destruct (flagtypes.Provided (EtcdAddr cfg)); cbn [negb]; [discriminate|].
    rewrite (Set_hostport (EtcdAddr cfg) _ _ (IP_plain addr) Hport).
    discriminate.
Qed.

(** C8: a run of the address defaulting that returned no error has left
    both addresses marked as provided, so a second run on its output,
    in whatever environment, returns no error and the same
    configuration; and with a store port that can be written and read
    back, running it again on the output of any run, failed or not,
    gives the outcome of the first run. *)
Theorem defaultMasterAddress_idempotent env cfg :
  (forall cfg1 env', defaultMasterAddress env cfg = (cfg1, None) ->
     defaultMasterAddress env' cfg1 = (cfg1, None))
  /\ (validPort (flagtypes.DefaultPort (EtcdAddr cfg)) ->
      defaultMasterAddress env (fst (defaultMasterAddress env cfg))
      = defaultMasterAddress env cfg).
Proof.
  assert (Hok : forall cfg1 env', defaultMasterAddress env cfg = (cfg1, None) ->
                  defaultMasterAddress env' cfg1 = (cfg1, None)).
  { intros cfg1 env' H. apply defaultMasterAddress_marks in H as [Hm He].
    now apply defaultMasterAddress_provided. }
  split; [exact Hok|]. intros Hport.
  destruct (defaultMasterAddress env cfg) as [cfg1 [err|]] eqn:H; cbn [fst].
  - apply (defaultMasterAddress_error env cfg cfg1 err Hport) in H as Hsame.
    subst cfg1. exact H.
  - now apply Hok.
Qed.

Lemma defaultMasterAddress_idempotent_witness :
  let cfg1 := fst (defaultMasterAddress Scenario.env Scenario.cfgA) in
  defaultMasterAddress Scenario.envDown cfg1 = (cfg1, None)
  /\ defaultMasterAddress Scenario.env cfg1
     = defaultMasterAddress Scenario.env Scenario.cfgA.
Proof.
  assert (Hp : validPort (flagtypes.DefaultPort (EtcdAddr Scenario.cfgA)))
    by (unfold validPort; cbn; lia).
  destruct (defaultMasterAddress_idempotent Scenario.env Scenario.cfgA) as [H1 H2].
  split; [exact (H1 _ Scenario.envDown eq_refl) | exact (H2 Hp)].
Defined.

End DefaultMasterAddress.

(** ** The readiness loop *)

Section Gate.
Import GoStr GoStrLemmas.

Variable env : Env.
Variable server : string.

Lemma firstReady_Some n bound k :
  firstReady env server n bound = Some k ->
  (k < bound)%nat
  /\ (forall j, (j < k)%nat -> ready (etcd_Get env (n + j) server) = false)
  /\ ready (etcd_Get env (n + k) server) = true.
Proof.
  revert n k. induction bound as [|b IH]; intros n k; cbn [firstReady]; [discriminate|].
  destruct (ready (etcd_Get env n server)) eqn:Hr.
  - intros [= <-]. repeat split; [lia | intros j Hj; lia |].
    now rewrite Nat.add_0_r.
  - destruct (firstReady env server (S n) b) as [k'|] eqn:Hf; [|discriminate].
    intros [= <-]. destruct (IH _ _ Hf) as (Hlt & Hbefore & Hk).
    repeat split; [lia | |].
    + intros [|j] Hj; [now rewrite Nat.add_0_r|].
      replace (n + S j)%nat with (S n + j)%nat by lia. apply Hbefore. lia.
    + now replace (n + S k')%nat with (S n + k')%nat by lia.
Qed.

Lemma firstReady_None n bound :
  firstReady env server n bound = None <->
  (forall j, (j < bound)%nat -> ready (etcd_Get env (n + j) server) = false).
Proof.
  revert n. induction bound as [|b IH]; intros n; cbn [firstReady].
  - split; [intros _ j Hj; lia | reflexivity].
  - destruct (ready (etcd_Get env n server)) eqn:Hr.
    + split; [discriminate|]. intros H.
      specialize (H 0%nat ltac:(lia)). rewrite Nat.add_0_r in H. congruence.
    + destruct (firstReady env server (S n) b) as [k'|] eqn:Hf; cbn [option_map].
      * split; [discriminate|]. intros H.
        assert (Hn : firstReady env server (S n) b = None).
        { apply IH. intros j Hj.
          replace (S n + j)%nat with (n + S j)%nat by lia. apply H. lia. }
        congruence.
      * split; [|reflexivity]. intros _ [|j] Hj; [now rewrite Nat.add_0_r|].
        replace (n + S j)%nat with (S n + j)%nat by lia.
        apply (proj1 (IH (S n)) Hf). lia.
Qed.

(** The loop, [fuel] rounds before its bound: it leaves at the first
    ready answer, and with an error when the last round fails too. *)
Lemma poll_rounds fuel i n :
  (1 <= fuel <= 102)%nat -> i = 102 - Z.of_nat fuel ->
  poll env server fuel i n =
  match firstReady env server n fuel with
  | Some k =>
      (((rounds server k ++ [EtcdGet server])%list, (n + k + 1)%nat), Ok (Some server))
  | None =>
      (((rounds server (fuel - 1) ++ [EtcdGet server])%list, (n + fuel)%nat),
       Err ("Could not reach etcd: " ++ failure (etcd_Get env (n + fuel - 1) server)))
  end.
Proof.
  revert i n. induction fuel as [|f IH]; intros i n Hf Hi; [lia|].
  cbn [poll firstReady]. unfold bind, etcdGet.
  destruct (etcd_Get env n server) as [|msg|msg] eqn:Ha; cbn [ready].
  - cbn. do 2 f_equal. lia.
  - cbn. do 2 f_equal. lia.
  - destruct (Z.gtb_spec i 100) as [Hgt|Hle].
    + assert (f = 0%nat) by lia. subst f. cbn.
      replace (n + 1 - 1)%nat with n by lia. rewrite Ha. cbn.
      do 2 f_equal. lia.
    + assert (1 <= f <= 102)%nat by lia.
      rewrite int_add_counter by lia.
      unfold emit. rewrite (IH (i + 1) (S n)) by lia.
      destruct (firstReady env server (S n) f) as [k|];
        cbn -[Nat.sub Nat.add append].
      * do 2 f_equal. lia.
      * f_equal; [f_equal|].
        -- destruct f as [|f']; [lia|]. cbn [Nat.sub rounds List.app].
           now rewrite Nat.sub_0_r.
        -- lia.
        -- do 4 f_equal. lia.
Qed.

Lemma firstReady_first n bound k :
  (k < bound)%nat ->
  (forall j, (j < k)%nat -> ready (etcd_Get env (n + j) server) = false) ->
  ready (etcd_Get env (n + k) server) = true ->
  firstReady env server n bound = Some k.
Proof.
  intros Hk Hbefore Hready.
  destruct (firstReady env server n bound) as [k'|] eqn:Hf.
  - destruct (firstReady_Some _ _ _ Hf) as (Hk' & Hbefore' & Hready').
    destruct (Nat.lt_trichotomy k k') as [Hlt|[->|Hlt]]; [|reflexivity|].
    + rewrite (Hbefore' _ Hlt) in Hready. discriminate.
    + rewrite (Hbefore _ Hlt) in Hready'. discriminate.
  - rewrite (proj1 (firstReady_None n bound) Hf k Hk) in Hready. discriminate.
Qed.

End Gate.

(** [getEtcdClient] in closed form: the loop never runs out of fuel. *)
Lemma getEtcdClient_run env cfg n :
  let server := url.String (flagtypes.URL (EtcdAddr cfg)) in
  getEtcdClient env cfg n =
  match firstReady env server n pollBound with
  | Some k =>
      (((rounds server k ++ [EtcdGet server])%list, (n + k + 1)%nat), Ok server)
  | None =>
      (((rounds server 101 ++ [EtcdGet server])%list, (n + 102)%nat),
       Err ("Could not reach etcd: " ++ failure (etcd_Get env (n + 101) server)))
  end.
Proof.
  intros server. unfold getEtcdClient, bind. fold server.
  rewrite (poll_rounds env server pollBound 0 n) by (unfold pollBound; lia).
  destruct (firstReady env server n pollBound) as [k|].
  - cbn. now rewrite app_nil_r.
  - unfold pollBound. cbn [Nat.sub].
    now replace (n + 102 - 1)%nat with (n + 101)%nat by lia.
Qed.

(** C3: the readiness gate probes the root key of the store; it returns
    the client at the first probe answered without error or with "key not
    found", having slept 50 ms after each failed probe before it; when
    all 102 probes of the loop fail it returns the error "Could not reach
    etcd" with the last probe's error; it returns an error in no other
    case. *)
Theorem getEtcdClient_gate env cfg n :
  let server := url.String (flagtypes.URL (EtcdAddr cfg)) in
  (forall k, (k < pollBound)%nat ->
     (forall j, (j < k)%nat -> ready (etcd_Get env (n + j) server) = false) ->
     ready (etcd_Get env (n + k) server) = true ->
     getEtcdClient env cfg n =
     (((rounds server k ++ [EtcdGet server])%list, (n + k + 1)%nat), Ok server))
  /\ ((forall j, (j < pollBound)%nat -> ready (etcd_Get env (n + j) server) = false) ->
      getEtcdClient env cfg n =
      (((rounds server 101 ++ [EtcdGet server])%list, (n + 102)%nat),
       Err ("Could not reach etcd: " ++ failure (etcd_Get env (n + 101) server))))
  /\ ((exists msg, outcome (getEtcdClient env cfg n) = Err msg) <->
      (forall j, (j < pollBound)%nat -> ready (etcd_Get env (n + j) server) = false)).
Proof.
  intros server. pose proof (getEtcdClient_run env cfg n) as Hrun.
  cbv zeta in Hrun. fold server in Hrun. repeat split.
  - intros k Hk Hbefore Hready.
    now rewrite Hrun, (firstReady_first env server n pollBound k Hk Hbefore Hready).
  - intros Hall. apply firstReady_None in Hall. now rewrite Hrun, Hall.
  - intros [msg Hmsg]. apply firstReady_None.
    rewrite Hrun in Hmsg.
    destruct (firstReady env server n pollBound); [discriminate Hmsg | reflexivity].
  - intros Hall. apply firstReady_None in Hall. rewrite Hrun, Hall.
    eexists. reflexivity.
Qed.

Lemma getEtcdClient_gate_witness :
  getEtcdClient Scenario.env Scenario.cfgExternalStore 0%nat =
  (([EtcdGet "http://10.0.0.9:4001"; Sleep 50;
     EtcdGet "http://10.0.0.9:4001"; Sleep 50;
     EtcdGet "http://10.0.0.9:4001"], 3%nat), Ok "http://10.0.0.9:4001")
  /\ getEtcdClient Scenario.envDown Scenario.cfgExternalStore 0%nat =
     (((rounds "http://10.0.0.9:4001" 101 ++ [EtcdGet "http://10.0.0.9:4001"])%list,
       102%nat),
      Err "Could not reach etcd: connection refused").
Proof.
  split.
  - apply (proj1 (getEtcdClient_gate Scenario.env Scenario.cfgExternalStore 0%nat) 2%nat).
    + unfold pollBound. lia.
    + intros [|[|j]] Hj; [reflexivity | reflexivity | lia].
    + reflexivity.
  - apply (proj1 (proj2 (getEtcdClient_gate Scenario.envDown Scenario.cfgExternalStore 0%nat))).
    intros j _. reflexivity.
Defined.

(** ** Runs *)

Section Runs.

Lemma bind_Ok {A B} (m : M A) (f : A -> M B) n t n' b :
  bind m f n = ((t, n'), Ok b) ->
  exists t1 n1 a t2,
    m n = ((t1, n1), Ok a) /\ f a n1 = ((t2, n'), Ok b) /\ t = (t1 ++ t2)%list.
Proof.
  unfold bind. destruct (m n) as [[t1 n1] [a|e]]; [|discriminate].
  destruct (f a n1) as [[t2 n2] r] eqn:Hf. intros [= <- <- ->].
  now exists t1, n1, a, t2.
Qed.

Lemma select_app {A} (f : event -> option A) t1 t2 :
  select f (t1 ++ t2) = (select f t1 ++ select f t2)%list.
Proof. apply flat_map_app. Qed.

Lemma logNodes_run l n : logNodes l n = ((nodeLog l, n), Ok tt).
Proof.
  revert n. induction l as [|s l IH]; intros n; [reflexivity|].
  cbn [logNodes]. unfold bind, emit. now rewrite IH.
Qed.

Lemma launchAll_run l n : launchAll l n = ((map Launch l, n), Ok tt).
Proof.
  revert n. induction l as [|c l IH]; intros n; [reflexivity|].
  cbn [launchAll]. unfold bind, emit. now rewrite IH.
Qed.

Lemma check_Ok wrap e n t n' u :
  check wrap e n = ((t, n'), Ok u) -> e = None /\ t = [] /\ n' = n.
Proof. destruct e; cbn; [discriminate|]. now intros [= <- <-]. Qed.

(** A master that came up: its trace, piece by piece. *)
Lemma runMaster_Ok env se sk cfg n t n' cfg' :
  runMaster env se sk cfg n = ((t, n'), Ok cfg') ->
  let cfg1 := set_NodeList (masterNodeList cfg) cfg in
  let cfg2 := set_CORSAllowedOrigins (corsAllowedOrigins cfg1) cfg1 in
  exists tg n1 client tb m roots,
    getEtcdClient env cfg1 n = ((tg, n1), Ok client)
    /\ bootstrapTrust env sk cfg2 (newMasterConfig env sk cfg2) n1
       = ((tb, n'), Ok (m, roots))
    /\ cfg' = cfg2
    /\ t = (nodeLog (NodeList cfg1)
            ++ (if se then [EtcdRun (etcdConfig cfg1)] else [])
            ++ tg ++ tb ++ masterTail sk cfg2 m roots)%list.
Proof.
  intros H cfg1 cfg2. unfold runMaster in H. fold cfg1 in H. fold cfg2 in H.
  apply bind_Ok in H as (t1 & n1 & [] & t2 & H1 & H & ->).
  rewrite logNodes_run in H1. injection H1 as <- <-.
  apply bind_Ok in H as (t3 & n3 & [] & t4 & H3 & H & ->).
  assert (t3 = (if se then [EtcdRun (etcdConfig cfg1)] else []) /\ n3 = n) as [-> ->].
  { destruct se; cbn in H3; injection H3 as <- <-; auto. }
  apply bind_Ok in H as (tg & ng & client & t5 & Hg & H & ->).
  apply bind_Ok in H as (t6 & n6 & [] & t7 & H6 & H & ->).
  apply check_Ok in H6 as (_ & -> & ->).
  apply bind_Ok in H as (t8 & n8 & [] & t9 & H8 & H & ->).
  apply check_Ok in H8 as (_ & -> & ->).
  apply bind_Ok in H as (tb & nb & [m roots] & t10 & Hb & H & ->).
  assert (Htail : t10 = masterTail sk cfg2 m roots /\ n' = nb /\ cfg' = cfg2).
  { unfold bind, emit in H. destruct sk; cbn in H; injection H as <- <- <-;
      repeat split; reflexivity. }
  destruct Htail as (-> & -> & ->).
  exists tg, ng, client, tb, m, roots. repeat split; assumption || reflexivity.
Qed.

Lemma runNode_run env cfg n :
  runNode env cfg n =
  match getEtcdClient env cfg n with
  | ((tg, n1), Ok _) =>
      (((tg ++ NodeConfigured (nodeConfig env cfg) :: map Launch nodeLaunches)%list, n1),
       Ok tt)
  | ((tg, n1), Err e) => ((tg, n1), Err e)
  end.
Proof.
  unfold runNode, bind.
  destruct (getEtcdClient env cfg n) as [[tg n1] [client|e]]; reflexivity.
Qed.

Lemma bootstrapTrust_plain env sk cfg osmaster n :
  origin.TLS osmaster = false ->
  bootstrapTrust env sk cfg osmaster n =
  (([], n),
   Ok (with_clients (origin.KubeClientConfig osmaster) (osClientConfig env cfg)
         (osClientConfig env cfg) osmaster, None)).
Proof. intros H. unfold bootstrapTrust. now rewrite H. Qed.

(** With TLS, a bootstrap that went through has made exactly the calls
    of [trustCalls], each of them answered. *)
Lemma bootstrapTrust_tls env sk cfg osmaster n t n' m roots :
  origin.TLS osmaster = true ->
  bootstrapTrust env sk cfg osmaster n = ((t, n'), Ok (m, roots)) ->
  t = trustCalls env sk cfg osmaster /\ n' = n
  /\ exists ca cert os deployer admin,
      InitCA env (CertDir cfg) (caName env cfg) = Ok ca
      /\ MakeServerCert env ca "master" (serverHosts cfg) = Ok cert
      /\ MakeClientConfig env ca "openshift-client" (osClientConfig env cfg) = Ok os
      /\ MakeClientConfig env ca "openshift-deployer" (osClientConfig env cfg) = Ok deployer
      /\ MakeClientConfig env ca "admin" (osClientConfig env cfg) = Ok admin
      /\ roots = Some (crypto.Roots ca)
      /\ origin.OSClientConfig m = os
      /\ origin.DeployerOSClientConfig m = deployer
      /\ (if sk
          then MakeClientConfig env ca "kube-client" (origin.KubeClientConfig osmaster)
               = Ok (origin.KubeClientConfig m)
          else origin.KubeClientConfig m = origin.KubeClientConfig osmaster).
Proof.
  intros Htls H. unfold bootstrapTrust in H. rewrite Htls in H.
  fold (caName env cfg) in H. fold (serverHosts cfg) in H.
  fold (osClientConfig env cfg) in H.
  unfold makeClientConfig, bind, emit, lift, ret, fail in H.
  destruct (InitCA env (CertDir cfg) (caName env cfg)) as [ca|e] eqn:Hca;
    [|discriminate H].
  destruct (MakeServerCert env ca "master" (serverHosts cfg)) as [cert|e] eqn:Hcert;
    [|discriminate H].
  destruct (MakeClientConfig env ca "openshift-client" (osClientConfig env cfg))
    as [os|e] eqn:Hos; [|discriminate H].
  destruct (MakeClientConfig env ca "openshift-deployer" (osClientConfig env cfg))
    as [deployer|e] eqn:Hdep; [|discriminate H].
  destruct (MakeClientConfig env ca "admin" (osClientConfig env cfg))
    as [admin|e] eqn:Hadm; [|discriminate H].
  destruct sk.
  - cbn [origin.KubeClientConfig with_serverCert] in H.
    destruct (MakeClientConfig env ca "kube-client" (origin.KubeClientConfig osmaster))
      as [kube|e] eqn:Hkube; [|discriminate H].
    cbn in H. injection H as <- <- <- <-.
    repeat split. exists ca, cert, os, deployer, admin.
    repeat split; assumption || reflexivity.
  - cbn in H. injection H as <- <- <- <-.
    repeat split. exists ca, cert, os, deployer, admin.
    repeat split; assumption || reflexivity.
Qed.

(** X3: a TLS bootstrap, whatever comes of it, sets up one certificate
    authority.  When that fails it asks for no identity and returns
    "Unable to configure certificate authority".  Otherwise it asks the
    authority for the identities in their order and stops at the first
    call that fails: the identities asked for are those up to the first
    one refused, that one included, so a prefix of the expected ones;
    the bootstrap returns without error exactly when none is refused,
    and with the error of the refused call otherwise. *)
Theorem bootstrapTrust_prefix env sk cfg osmaster n :
  origin.TLS osmaster = true ->
  let run := bootstrapTrust env sk cfg osmaster n in
  caInits (trace run) = [(CertDir cfg, caName env cfg)]
  /\ (exists rest, expectedIdentities sk = (issued (trace run) ++ rest)%list)
  /\ match InitCA env (CertDir cfg) (caName env cfg) with
     | Err e =>
         issued (trace run) = []
         /\ outcome run = Err ("Unable to configure certificate authority: " ++ e)
     | Ok ca =>
         issued (trace run)
         = uptoFirstFailure (signs env ca cfg osmaster) (expectedIdentities sk)
         /\ ((exists r, outcome run = Ok r) <->
             forallb (signs env ca cfg osmaster) (expectedIdentities sk) = true)
         /\ (forall e, outcome run = Err e ->
               MakeServerCert env ca "master" (serverHosts cfg) = Err e
               \/ exists name template,
                    In name (issued (trace run))
                    /\ MakeClientConfig env ca name template = Err e)
     end.
Proof.
  intros Htls run. subst run. unfold bootstrapTrust. rewrite Htls.
  fold (caName env cfg). fold (serverHosts cfg). fold (osClientConfig env cfg).
  unfold makeClientConfig, bind, emit, lift, ret, fail, trace, outcome,
    expectedIdentities, signs.
  destruct (InitCA env (CertDir cfg) (caName env cfg)) as [ca|e].
  2:{ cbn. split; [reflexivity|]. split; [eexists; reflexivity|]. split; reflexivity. }
  destruct (MakeServerCert env ca "master" (serverHosts cfg)) as [cert|e] eqn:Hcert.
  2:{ cbn. split; [reflexivity|]. split; [eexists; reflexivity|].
      rewrite ?Hos, ?Hdep, ?Hadm, ?Hkube; cbn. split; [reflexivity|]. split.
      - split; [intros [r Hr]; discriminate Hr | discriminate].
      - intros e' [= <-]. now left. }
  destruct (MakeClientConfig env ca "openshift-client" (osClientConfig env cfg))
    as [os|e] eqn:Hos.
  2:{ cbn. split; [reflexivity|]. split; [eexists; reflexivity|].
      rewrite ?Hos, ?Hdep, ?Hadm, ?Hkube; cbn. split; [reflexivity|]. split.
      - split; [intros [r Hr]; discriminate Hr | discriminate].
      - intros e' [= <-]. right. exists "openshift-client", (osClientConfig env cfg).
        split; [cbn; tauto | exact Hos]. }
  destruct (MakeClientConfig env ca "openshift-deployer" (osClientConfig env cfg))
    as [deployer|e] eqn:Hdep.
  2:{ cbn. split; [reflexivity|]. split; [eexists; reflexivity|].
      rewrite ?Hos, ?Hdep, ?Hadm, ?Hkube; cbn. split; [reflexivity|]. split.
      - split; [intros [r Hr]; discriminate Hr | discriminate].
      - intros e' [= <-]. right. exists "openshift-deployer", (osClientConfig env cfg).
        split; [cbn; tauto | exact Hdep]. }
  destruct (MakeClientConfig env ca "admin" (osClientConfig env cfg))
    as [admin|e] eqn:Hadm.
  2:{ cbn. split; [reflexivity|]. split; [destruct sk; eexists; reflexivity|].
      rewrite ?Hos, ?Hdep, ?Hadm, ?Hkube; cbn. split; [reflexivity|]. split.
      - split; [intros [r Hr]; discriminate Hr | discriminate].
      - intros e' [= <-]. right. exists "admin", (osClientConfig env cfg).
        split; [cbn; tauto | exact Hadm]. }
  destruct sk.
  - cbn [origin.KubeClientConfig with_serverCert].
    destruct (MakeClientConfig env ca "kube-client" (origin.KubeClientConfig osmaster))
      as [kube|e] eqn:Hkube.
    + cbn. split; [reflexivity|]. split; [exists []; reflexivity|].
      rewrite ?Hos, ?Hdep, ?Hadm, ?Hkube; cbn. split; [reflexivity|]. split.
      * split; [reflexivity | eexists; reflexivity].
      * discriminate.
    + cbn. split; [reflexivity|]. split; [exists []; reflexivity|].
      rewrite ?Hos, ?Hdep, ?Hadm, ?Hkube; cbn. split; [reflexivity|]. split.
      * split; [intros [r Hr]; discriminate Hr | discriminate].
      * intros e' [= <-]. right.
        exists "kube-client", (origin.KubeClientConfig osmaster).
        split; [cbn; tauto | exact Hkube].
  - cbn. split; [reflexivity|]. split; [exists []; reflexivity|].
    rewrite ?Hos, ?Hdep, ?Hadm, ?Hkube; cbn. split; [reflexivity|]. split.
    + split; [reflexivity | eexists; reflexivity].
    + discriminate.
Qed.

(** [defaultMasterAddress] touches the master and store addresses only. *)
Lemma defaultMasterAddress_frame env cfg :
  let cfg' := fst (defaultMasterAddress env cfg) in
  BindAddr cfg' = BindAddr cfg /\ KubernetesAddr cfg' = KubernetesAddr cfg
  /\ Hostname cfg' = Hostname cfg /\ NodeList cfg' = NodeList cfg
  /\ CORSAllowedOrigins cfg' = CORSAllowedOrigins cfg
  /\ CertDir cfg' = CertDir cfg /\ EtcdDir cfg' = EtcdDir cfg.
Proof.
  unfold defaultMasterAddress.
  repeat match goal with
         | |- context [match ?x with _ => _ end] => destruct x
         end; cbn; repeat split; reflexivity.
Qed.

Lemma resolved_Ok env cfg what rl n t n' rl' cfg' :
  resolved env cfg what rl n = ((t, n'), Ok (rl', cfg')) ->
  defaultMasterAddress env cfg = (cfg', None)
  /\ t = [Infof (what ++ addresses cfg')] /\ n' = n /\ rl' = rl.
Proof.
  unfold resolved.
  destruct (defaultMasterAddress env cfg) as [c [e|]]; [discriminate|].
  intros [= <- <- <- <-]. auto.
Qed.

(** The first part of [start], case by case on the arguments. *)
Lemma resolveRoles_run env cfg args n :
  resolveRoles env cfg args n =
  match args with
  | [] =>
      resolved env cfg "Starting an OpenShift all-in-one, reachable at "
        (mkRoles (negb (flagtypes.Provided (EtcdAddr cfg))) true true) n
  | [arg] =>
      if String.eqb arg "master" then
        resolved env cfg "Starting an OpenShift master, reachable at "
          (mkRoles (negb (flagtypes.Provided (EtcdAddr cfg))) false true) n
      else if String.eqb arg "node" then
        resolved env cfg "Starting an OpenShift node, connecting to "
          (mkRoles false true false) n
      else (([], n), Err usage)
  | _ :: _ :: _ => (([], n), Err usage)
  end.
Proof.
  unfold resolveRoles, resolved, defaulted, bind, emit, ret, fail.
  destruct args as [|arg [|arg2 rest]]; cbn [length Nat.ltb Nat.leb Nat.eqb nth];
    [| |reflexivity].
  - destruct (defaultMasterAddress env cfg) as [c [e|]]; reflexivity.
  - destruct (String.eqb arg "master"); [|destruct (String.eqb arg "node")];
      try reflexivity;
      destruct (defaultMasterAddress env cfg) as [c [e|]]; reflexivity.
Qed.

(** Resolved roles come with a configuration whose addresses were
    defaulted and whose other fields are the operator's. *)
Lemma resolveRoles_Ok env cfg args n t n' rl cfg0 :
  resolveRoles env cfg args n = ((t, n'), Ok (rl, cfg0)) ->
  defaultMasterAddress env cfg = (cfg0, None) /\ n' = n
  /\ exists what, t = [Infof (what ++ addresses cfg0)].
Proof.
  rewrite resolveRoles_run. intros H.
  destruct args as [|arg [|arg2 rest]]; [| |discriminate H].
  - apply resolved_Ok in H as (Hd & -> & -> & _). eauto.
  - destruct (String.eqb arg "master");
      [|destruct (String.eqb arg "node"); [|discriminate H]];
      apply resolved_Ok in H as (Hd & -> & -> & _); eauto.
Qed.

(** A run of [start] that reached [select {}]: its trace is that of the
    first part, of the master block if the role has one, of the node
    block if the role has one, and the parking. *)
Lemma start_Ok env cfg args n t n' :
  start env cfg args n = ((t, n'), Ok tt) ->
  exists t0 rl cfg0 tm n1 cfgM tn,
    resolveRoles env cfg args n = ((t0, n), Ok (rl, cfg0))
    /\ (if startMaster rl
        then runMaster env (startEtcd rl) (embeddedKube cfg0) (withKube cfg0) n
             = ((tm, n1), Ok cfgM)
        else tm = [] /\ n1 = n /\ cfgM = withKube cfg0)
    /\ (if startNode rl
        then runNode env cfgM n1 = ((tn, n'), Ok tt)
        else tn = [] /\ n' = n1)
    /\ t = (t0 ++ tm ++ tn ++ [Park])%list.
Proof.
  intros H. unfold start in H.
  apply bind_Ok in H as (t0 & n0 & [rl cfg0] & t1 & Hr & H & ->).
  destruct (resolveRoles_Ok _ _ _ _ _ _ _ _ Hr) as (_ & -> & _).
  fold (embeddedKube cfg0) in H. fold (withKube cfg0) in H.
  apply bind_Ok in H as (tm & n1 & cfgM & t2 & Hm & H & ->).
  apply bind_Ok in H as (tn & n2 & [] & t3 & Hn & H & ->).
  injection H as <- <-.
  exists t0, rl, cfg0, tm, n1, cfgM, tn. repeat split.
  - exact Hr.
  - destruct (startMaster rl); [exact Hm|]. injection Hm as <- <- <-. auto.
  - destruct (startNode rl); [exact Hn|]. injection Hn as <- <-. auto.
Qed.

Lemma select_nil {A} (f : event -> option A) t :
  (forall e, In e t -> f e = None) -> select f t = [].
Proof.
  induction t as [|e t IH]; intros H; [reflexivity|].
  cbn [select flat_map]. rewrite (H e (or_introl eq_refl)).
  apply IH. intros e' He'. apply H. now right.
Qed.

Lemma rounds_events server k e :
  In e (rounds server k ++ [EtcdGet server])%list ->
  e = EtcdGet server \/ e = Sleep 50.
Proof.
  induction k as [|k IH]; cbn [rounds List.app In].
  - intros [<-|[]]. now left.
  - intros [<-|[<-|H]]; auto.
Qed.

Lemma select_cons {A} (f : event -> option A) e t :
  select f (e :: t) =
  match f e with Some a => a :: select f t | None => select f t end.
Proof. unfold select. cbn [flat_map]. now destruct (f e). Qed.

Lemma probed_rounds server k :
  select (fun e => match e with EtcdGet server => Some server | _ => None end)
    (rounds server k ++ [EtcdGet server])%list = repeat server (S k).
Proof.
  induction k as [|k IH]; [reflexivity|].
  cbn [rounds List.app]. rewrite !select_cons, IH. reflexivity.
Qed.

(** The gate's own trace: probes and sleeps, at least one probe, and at
    most [pollBound] of them. *)
Lemma getEtcdClient_trace env cfg n :
  exists k, (k < pollBound)%nat /\
    trace (getEtcdClient env cfg n) =
    (rounds (url.String (flagtypes.URL (EtcdAddr cfg))) k
     ++ [EtcdGet (url.String (flagtypes.URL (EtcdAddr cfg)))])%list.
Proof.
  rewrite getEtcdClient_run.
  destruct (firstReady env _ n pollBound) as [k|] eqn:Hf.
  - exists k. split; [|reflexivity]. now apply firstReady_Some in Hf.
  - exists 101%nat. split; [unfold pollBound; lia | reflexivity].
Qed.

Lemma nodeLog_events l e : In e (nodeLog l) -> exists msg, e = Infof msg.
Proof. unfold nodeLog. rewrite in_map_iff. intros (s & <- & _). eauto. Qed.

Lemma launches_map l :
  select (fun e => match e with Launch c => Some c | _ => None end)
    (map Launch l) = l.
Proof.
  induction l as [|c l IH]; [reflexivity|].
  cbn [map]. now rewrite select_cons, IH.
Qed.

Lemma logged_nodeLog l :
  select (fun e => match e with Infof msg => Some msg | _ => None end)
    (nodeLog l) = map (fun s => "  Node: " ++ s) l.
Proof.
  unfold nodeLog. induction l as [|c l IH]; [reflexivity|].
  cbn [map]. now rewrite select_cons, IH.
Qed.

Lemma select_rounds {A} (f : event -> option A) server k :
  f (EtcdGet server) = None -> f (Sleep 50) = None ->
  select f (rounds server k ++ [EtcdGet server])%list = [].
Proof.
  intros Hg Hs. apply select_nil.
  intros e He. apply rounds_events in He as [->| ->]; assumption.
Qed.

Lemma select_launches {A} (f : event -> option A) l :
  (forall c, f (Launch c) = None) -> select f (map Launch l) = [].
Proof.
  intros H. apply select_nil. intros e He.
  apply in_map_iff in He as (c & <- & _). apply H.
Qed.

Lemma select_nodeLog {A} (f : event -> option A) l :
  (forall msg, f (Infof msg) = None) -> select f (nodeLog l) = [].
Proof.
  intros H. apply select_nil. intros e He.
  apply nodeLog_events in He as (msg & ->). apply H.
Qed.

End Runs.

(** Reads a projection off a trace given as a concatenation of pieces. *)
Ltac read_trace :=
  repeat first
    [ rewrite probed_rounds
    | rewrite launches_map
    | rewrite logged_nodeLog
    | rewrite select_rounds by reflexivity
    | rewrite select_launches by reflexivity
    | rewrite select_nodeLog by reflexivity
    | rewrite select_app
    | rewrite select_cons ];
  cbn beta iota; rewrite ?app_nil_r; cbn [List.app].

(** ** Roles *)

(** C6, the store being selected only when its address was not given:
    no argument selects master and node, and the store
    unless its address was given; "master" selects the master, and the
    store on the same condition; "node" selects the node alone; the role
    comes with the defaulted addresses and one log line.  Any other
    single argument and any two or more arguments end [start] with the
    usage error before anything is done, and so does an error of the
    address defaulting, with its own message. *)
Theorem resolveRoles_roles env cfg args n :
  let storeLocal := negb (flagtypes.Provided (EtcdAddr cfg)) in
  (forall cfg', defaultMasterAddress env cfg = (cfg', None) ->
     (args = [] ->
      resolveRoles env cfg args n =
      (([Infof ("Starting an OpenShift all-in-one, reachable at " ++ addresses cfg')], n),
       Ok (mkRoles storeLocal true true, cfg')))
     /\ (args = ["master"] ->
         resolveRoles env cfg args n =
         (([Infof ("Starting an OpenShift master, reachable at " ++ addresses cfg')], n),
          Ok (mkRoles storeLocal false true, cfg')))
     /\ (args = ["node"] ->
         resolveRoles env cfg args n =
         (([Infof ("Starting an OpenShift node, connecting to " ++ addresses cfg')], n),
          Ok (mkRoles false true false, cfg'))))
  /\ (forall cfg' err, defaultMasterAddress env cfg = (cfg', Some err) ->
      args = [] \/ args = ["master"] \/ args = ["node"] ->
      start env cfg args n = (([], n), Err err))
  /\ (forall arg, args = [arg] -> arg <> "master" -> arg <> "node" ->
      start env cfg args n = (([], n), Err usage))
  /\ ((2 <= length args)%nat -> start env cfg args n = (([], n), Err usage)).
Proof.
  intros storeLocal. repeat split.
  - intros ->. rewrite resolveRoles_run. unfold resolved. now rewrite H.
  - intros ->. rewrite resolveRoles_run. unfold resolved. now rewrite H.
  - intros ->. rewrite resolveRoles_run. unfold resolved. now rewrite H.
  - intros cfg' err Hd Hargs. unfold start, bind. rewrite resolveRoles_run.
    destruct Hargs as [ -> | [ -> | -> ] ]; cbn [String.eqb Ascii.eqb Bool.eqb];
      unfold resolved; now rewrite Hd.
  - intros arg -> Hm Hn. unfold start, bind. rewrite resolveRoles_run.
    apply String.eqb_neq in Hm, Hn. now rewrite Hm, Hn.
  - intros Hlen. unfold start, bind. rewrite resolveRoles_run.
    destruct args as [|a [|b l]]; cbn in Hlen; try lia. reflexivity.
Qed.

Lemma resolveRoles_roles_witness :
  exists t cfg',
    resolveRoles Scenario.env Scenario.cfgExternalStore [] 0%nat
    = ((t, 0%nat), Ok (mkRoles false true true, cfg')).
Proof.
  destruct (resolveRoles_roles Scenario.env Scenario.cfgExternalStore [] 0%nat)
    as [H _].
  destruct (H _ eq_refl) as (Hall & _ & _).
  eexists _, _. exact (Hall eq_refl).
Defined.

Lemma zero_args_store_not_selected :
  ~ (exists t n cfg',
       resolveRoles Scenario.env Scenario.cfgExternalStore [] 0%nat
       = ((t, n), Ok (mkRoles true true true, cfg'))).
Proof.
  intros (t & n & cfg' & H). vm_compute in H. discriminate H.
Qed.

(** ** A node on its own *)

Section NodeOnly.
Import GoStr GoStrFacts GoStrLemmas AddrLemmas.

Lemma getEtcdClient_withKube env cfg n :
  getEtcdClient env (withKube cfg) n = getEtcdClient env cfg n.
Proof. unfold getEtcdClient, withKube. now destruct (embeddedKube cfg). Qed.

(** [start node] in closed form. *)
Lemma start_node_run env cfg n cfg0 :
  defaultMasterAddress env cfg = (cfg0, None) ->
  start env cfg ["node"] n =
  let line := Infof ("Starting an OpenShift node, connecting to " ++ addresses cfg0) in
  match getEtcdClient env cfg0 n with
  | ((tg, n1), Ok _) =>
      (((line :: tg ++ NodeConfigured (nodeConfig env (withKube cfg0))
              :: map Launch nodeLaunches ++ [Park])%list, n1), Ok tt)
  | ((tg, n1), Err e) => (((line :: tg)%list, n1), Err e)
  end.
Proof.
  intros Hd. unfold start. unfold bind at 1. rewrite resolveRoles_run.
  cbn [String.eqb Ascii.eqb Bool.eqb]. unfold resolved. rewrite Hd.
  fold (embeddedKube cfg0). fold (withKube cfg0).
  cbn [startMaster startNode]. unfold bind, ret, emit.
  rewrite runNode_run, getEtcdClient_withKube.
  destruct (getEtcdClient env cfg0 n) as [[tg n1] [client|e]]; cbn.
  - now rewrite <- !app_assoc.
  - reflexivity.
Qed.

(** With an explicit master address and no store address, the store is
    looked for on the master's host. *)
Lemma defaultMasterAddress_explicit_master env cfg :
  flagtypes.Provided (MasterAddr cfg) = true ->
  flagtypes.Provided (EtcdAddr cfg) = false ->
  plainHost (flagtypes.Host (MasterAddr cfg)) = true ->
  validPort (flagtypes.DefaultPort (EtcdAddr cfg)) ->
  exists cfg0,
    defaultMasterAddress env cfg = (cfg0, None)
    /\ url.String (flagtypes.URL (EtcdAddr cfg0)) =
       fallbackScheme (EtcdAddr cfg) ++ "://" ++ flagtypes.Host (MasterAddr cfg)
       ++ ":" ++ Itoa (flagtypes.DefaultPort (EtcdAddr cfg)).
Proof.
  intros Hm He Hplain Hport. unfold defaultMasterAddress.
  rewrite Hm, He. cbn [negb].
  rewrite (Set_hostport (EtcdAddr cfg) _ _ Hplain Hport).
  eexists. split; [reflexivity|]. cbn. now rewrite append_nil_r.
Qed.

(** C5, the readiness gate being passed by a node too: [start node]
    with an explicit master address and
    no store address never starts a store of its own and launches no
    component of a master, but it does pass the readiness gate: it
    probes the store on the master's host, at the store's default port,
    at least once and at most 102 times, and launches the node's
    components exactly when the gate lets it through. *)
Theorem start_node_only env cfg n :
  flagtypes.Provided (MasterAddr cfg) = true ->
  flagtypes.Provided (EtcdAddr cfg) = false ->
  plainHost (flagtypes.Host (MasterAddr cfg)) = true ->
  validPort (flagtypes.DefaultPort (EtcdAddr cfg)) ->
  let out := start env cfg ["node"] n in
  let store :=
    fallbackScheme (EtcdAddr cfg) ++ "://" ++ flagtypes.Host (MasterAddr cfg)
    ++ ":" ++ Itoa (flagtypes.DefaultPort (EtcdAddr cfg)) in
  storesRun (trace out) = []
  /\ (exists k, (k < pollBound)%nat /\ probed (trace out) = repeat store (S k))
  /\ launches (trace out) =
     match outcome out with Ok _ => nodeLaunches | Err _ => [] end.
Proof.
  intros Hm He Hplain Hport out store.
  destruct (defaultMasterAddress_explicit_master env cfg Hm He Hplain Hport)
    as (cfg0 & Hd & Hstore).
  fold store in Hstore. subst out.
  rewrite (start_node_run env cfg n cfg0 Hd). cbv zeta.
  destruct (getEtcdClient_trace env cfg0 n) as (k & Hk & Htg).
  rewrite Hstore in Htg.
  destruct (getEtcdClient env cfg0 n) as [[tg n1] [client|e]];
    unfold trace, outcome in *; cbn [fst snd] in *; subst tg.
  - repeat split.
    + unfold storesRun. read_trace. reflexivity.
    + exists k. split; [exact Hk|]. unfold probed. read_trace. reflexivity.
    + unfold launches. read_trace. reflexivity.
  - repeat split.
    + unfold storesRun. read_trace. reflexivity.
    + exists k. split; [exact Hk|]. unfold probed. read_trace. reflexivity.
    + unfold launches. read_trace. reflexivity.
Qed.

Lemma start_node_only_witness :
  exists k,
    (k < pollBound)%nat /\
    probed (trace (start Scenario.env Scenario.cfgC ["node"] 0%nat))
    = repeat "http://10.0.0.5:4001" (S k).
Proof.
  assert (Hp : validPort (flagtypes.DefaultPort (EtcdAddr Scenario.cfgC)))
    by (unfold validPort; cbn; lia).
  exact (proj1 (proj2 (start_node_only Scenario.env Scenario.cfgC 0%nat
                         eq_refl eq_refl eq_refl Hp))).
Defined.

Lemma node_passes_gate :
  ~ (probed (trace (start Scenario.env Scenario.cfgC ["node"] 0%nat)) = []).
Proof. vm_compute. discriminate. Qed.

End NodeOnly.

(** ** A master *)

Section Master.
Import GoStr GoStrFacts GoStrLemmas AddrLemmas.

Lemma frame_of env cfg cfg0 e :
  defaultMasterAddress env cfg = (cfg0, e) ->
  BindAddr cfg0 = BindAddr cfg /\ KubernetesAddr cfg0 = KubernetesAddr cfg
  /\ Hostname cfg0 = Hostname cfg /\ NodeList cfg0 = NodeList cfg
  /\ CORSAllowedOrigins cfg0 = CORSAllowedOrigins cfg
  /\ CertDir cfg0 = CertDir cfg /\ EtcdDir cfg0 = EtcdDir cfg.
Proof.
  intros H. pose proof (defaultMasterAddress_frame env cfg) as F.
  now rewrite H in F.
Qed.

Lemma getEtcdClient_Ok env cfg n tg n1 client :
  getEtcdClient env cfg n = ((tg, n1), Ok client) ->
  exists k, (k < pollBound)%nat /\
    tg = (rounds (url.String (flagtypes.URL (EtcdAddr cfg))) k
          ++ [EtcdGet (url.String (flagtypes.URL (EtcdAddr cfg)))])%list.
Proof.
  intros H. destruct (getEtcdClient_trace env cfg n) as (k & Hk & Ht).
  rewrite H in Ht. eauto.
Qed.

(** A run with a master that reached [select {}]: the whole trace. *)
Lemma start_master_Ok env cfg args n t n' :
  start env cfg args n = ((t, n'), Ok tt) ->
  args = [] \/ args = ["master"] ->
  exists cfg0 line k tb n1 n2 m roots tn,
    defaultMasterAddress env cfg = (cfg0, None)
    /\ (k < pollBound)%nat
    /\ bootstrapTrust env (embeddedKube cfg) (settled cfg cfg0)
         (newMasterConfig env (embeddedKube cfg) (settled cfg cfg0)) n1
       = ((tb, n2), Ok (m, roots))
    /\ (args = ["master"] -> tn = [])
    /\ (args = [] ->
        exists k', (k' < pollBound)%nat /\
          tn = ((rounds (url.String (flagtypes.URL (EtcdAddr cfg0))) k'
                 ++ [EtcdGet (url.String (flagtypes.URL (EtcdAddr cfg0)))])
                ++ NodeConfigured (nodeConfig env (settled cfg cfg0))
                :: map Launch nodeLaunches)%list)
    /\ t = (Infof line
            :: (nodeLog (masterNodeList cfg)
                ++ (if negb (flagtypes.Provided (EtcdAddr cfg))
                    then [EtcdRun (etcdConfig (withKube cfg0))] else [])
                ++ (rounds (url.String (flagtypes.URL (EtcdAddr cfg0))) k
                    ++ [EtcdGet (url.String (flagtypes.URL (EtcdAddr cfg0)))])
                ++ tb
                ++ masterTail (embeddedKube cfg) (settled cfg cfg0) m roots)
            ++ tn ++ [Park])%list.
Proof.
  intros H Hargs.
  apply start_Ok in H as (t0 & rl & cfg0 & tm & n1 & cfgM & tn & Hr & Hm & Hn & ->).
  assert (Hrl : exists line,
             defaultMasterAddress env cfg = (cfg0, None)
             /\ t0 = [Infof line]
             /\ startMaster rl = true
             /\ startEtcd rl = negb (flagtypes.Provided (EtcdAddr cfg))
             /\ startNode rl = match args with [] => true | _ => false end).
  { rewrite resolveRoles_run in Hr.
    destruct Hargs as [ -> | -> ]; cbn [String.eqb Ascii.eqb Bool.eqb] in Hr;
      apply resolved_Ok in Hr as (Hd & -> & _ & ->); eexists; repeat split; eauto. }
  destruct Hrl as (line & Hd & -> & HM & HE & HN).
  destruct (frame_of _ _ _ _ Hd) as (Fb & Fk & Fh & Fn & Fc & _).
  assert (Hemb : embeddedKube cfg0 = embeddedKube cfg)
    by (unfold embeddedKube; now rewrite Fk).
  assert (Hnl : masterNodeList (withKube cfg0) = masterNodeList cfg).
  { unfold masterNodeList, withKube.
    destruct (embeddedKube cfg0); cbn [NodeList Hostname set_KubernetesAddr];
      now rewrite Fn, Fh. }
  rewrite HM, HE, Hemb in Hm. rewrite HN in Hn.
  apply runMaster_Ok in Hm as (tg & ng & client & tb & m & roots & Hg & Hb & -> & ->).
  rewrite Hnl in *. fold (settled cfg cfg0) in *.
  apply getEtcdClient_Ok in Hg as (k & Hk & ->).
  assert (He1 : EtcdAddr (set_NodeList (masterNodeList cfg) (withKube cfg0)) = EtcdAddr cfg0)
    by (unfold withKube; now destruct (embeddedKube cfg0)).
  rewrite He1.
  exists cfg0, line, k, tb, ng, n1, m, roots, tn.
  repeat split; try assumption.
  - intros ->. now destruct Hn.
  - intros ->. rewrite runNode_run in Hn.
    destruct (getEtcdClient env (settled cfg cfg0) n1) as [[tg' n3] [c|e]] eqn:Hg';
      [|discriminate Hn].
    apply getEtcdClient_Ok in Hg' as (k' & Hk' & ->).
    assert (He2 : EtcdAddr (settled cfg cfg0) = EtcdAddr cfg0)
      by (unfold settled, withKube; now destruct (embeddedKube cfg0)).
    rewrite He2 in Hn. injection Hn as <- _. eauto.
Qed.

Lemma bootstrapTrust_Ok_trace env sk cfg om n tb n2 m roots :
  bootstrapTrust env sk cfg om n = ((tb, n2), Ok (m, roots)) ->
  tb = if origin.TLS om then trustCalls env sk cfg om else [].
Proof.
  intros H. destruct (origin.TLS om) eqn:Htls.
  - now apply bootstrapTrust_tls in H as (-> & _).
  - rewrite bootstrapTrust_plain in H by assumption. now injection H as <- _.
Qed.

Lemma select_trustCalls {A} (f : event -> option A) env sk cfg om :
  (forall d nm, f (CallInitCA d nm) = None) ->
  (forall nm h, f (CallMakeServerCert nm h) = None) ->
  (forall nm c, f (CallMakeClientConfig nm c) = None) ->
  select f (if origin.TLS om then trustCalls env sk cfg om else []) = [].
Proof.
  intros H1 H2 H3. apply select_nil. intros e He.
  destruct (origin.TLS om); [|destruct He].
  unfold trustCalls in He. apply in_app_or in He as [He|He].
  - cbn [In] in He. destruct He as [<-|[<-|[<-|[<-|[<-|[]]]]]]; auto.
  - destruct sk; cbn [In] in He; [destruct He as [<-|[]]; auto | destruct He].
Qed.

(** A node on its own that reached [select {}]. *)
Lemma start_node_Ok env cfg n t n' :
  start env cfg ["node"] n = ((t, n'), Ok tt) ->
  exists cfg0 line k,
    defaultMasterAddress env cfg = (cfg0, None) /\ (k < pollBound)%nat
    /\ t = (Infof line
            :: (rounds (url.String (flagtypes.URL (EtcdAddr cfg0))) k
                ++ [EtcdGet (url.String (flagtypes.URL (EtcdAddr cfg0)))])
            ++ NodeConfigured (nodeConfig env (withKube cfg0))
            :: map Launch nodeLaunches ++ [Park])%list.
Proof.
  intros H.
  destruct (defaultMasterAddress env cfg) as [cfg0 [e|]] eqn:Hd.
  - unfold start, bind in H. rewrite resolveRoles_run in H.
    cbn [String.eqb Ascii.eqb Bool.eqb] in H. unfold resolved in H.
    rewrite Hd in H. discriminate H.
  - rewrite (start_node_run env cfg n cfg0 Hd) in H. cbv zeta in H.
    destruct (getEtcdClient env cfg0 n) as [[tg n1] [c|e]] eqn:Hg; [|discriminate H].
    apply getEtcdClient_Ok in Hg as (k & Hk & ->).
    injection H as <- _. eauto 6.
Qed.

(** C7: a run that has come up has launched, for a master, the API
    server first, then the Kubernetes control loops if Kubernetes runs
    in this process, then event recording, the asset server and the six
    controllers; for a node, the volume directory and the Docker handle
    are ensured, then the proxy is started, then the kubelet; an
    all-in-one run does the master's launches and then the node's. *)
Theorem start_launch_order env cfg args n t n' :
  start env cfg args n = ((t, n'), Ok tt) ->
  let api :=
    RunAPI (if embeddedKube cfg then ["kmaster"; "auth"; "osmaster"; "swagger"]
            else ["auth"; "osmaster"; "swagger"]) in
  let loops :=
    if embeddedKube cfg
    then [RunScheduler; RunReplicationController;
          RunEndpointController; RunMinionController]
    else [] in
  let master :=
    (api :: loops
     ++ [StartRecording; RunAssetServer;
         RunBuildController; RunBuildImageChangeTriggerController;
         RunDeploymentController; RunDeploymentConfigController;
         RunDeploymentConfigChangeController;
         RunDeploymentImageChangeTriggerController])%list in
  let node := [EnsureVolumeDir; EnsureDocker; RunProxy; RunKubelet] in
  (args = ["master"] -> launches t = master)
  /\ (args = ["node"] -> launches t = node)
  /\ (args = [] -> launches t = (master ++ node)%list).
Proof.
  intros H api loops master node.
  assert (Hmaster : args = [] \/ args = ["master"] ->
            exists tn, launches t = (master ++ launches tn)%list
              /\ (args = ["master"] -> tn = [])
              /\ (args = [] -> launches tn = node)).
  { intros Hargs.
    destruct (start_master_Ok _ _ _ _ _ _ H Hargs)
      as (cfg0 & line & k & tb & n1 & n2 & m & roots & tn & Hd & Hk & Hb & Hm & Ha & ->).
    apply bootstrapTrust_Ok_trace in Hb. subst tb.
    exists tn. repeat split.
    - unfold launches, masterTail. read_trace.
      rewrite select_trustCalls by reflexivity.
      subst master api loops. unfold masterLaunches, apiLaunches.
      destruct (embeddedKube cfg), (negb (flagtypes.Provided (EtcdAddr cfg)));
        read_trace; reflexivity.
    - exact Hm.
    - intros Hn. destruct (Ha Hn) as (k' & _ & ->).
      unfold launches. read_trace. reflexivity. }
  repeat split.
  - intros Hargs. destruct (Hmaster (or_intror Hargs)) as (tn & -> & Hn & _).
    rewrite (Hn Hargs). now rewrite app_nil_r.
  - intros ->. apply start_node_Ok in H as (cfg0 & line & k & _ & _ & ->).
    unfold launches. read_trace. reflexivity.
  - intros Hargs. destruct (Hmaster (or_introl Hargs)) as (tn & -> & _ & Hn).
    now rewrite (Hn Hargs).
Qed.

Lemma start_launch_order_witness :
  launches (trace (start Scenario.env Scenario.cfgA [] 0%nat)) =
  [RunAPI ["kmaster"; "auth"; "osmaster"; "swagger"];
   RunScheduler; RunReplicationController; RunEndpointController;
   RunMinionController; StartRecording; RunAssetServer;
   RunBuildController; RunBuildImageChangeTriggerController;
   RunDeploymentController; RunDeploymentConfigController;
   RunDeploymentConfigChangeController;
   RunDeploymentImageChangeTriggerController;
   EnsureVolumeDir; EnsureDocker; RunProxy; RunKubelet].
Proof.
  assert (Hrun : start Scenario.env Scenario.cfgA [] 0%nat
                 = ((trace (start Scenario.env Scenario.cfgA [] 0%nat), 4%nat), Ok tt))
    by (vm_compute; reflexivity).
  exact (proj2 (proj2 (start_launch_order Scenario.env Scenario.cfgA [] 0%nat
                         _ _ Hrun)) eq_refl).
Defined.

Lemma settled_fields cfg cfg0 :
  MasterAddr (settled cfg cfg0) = MasterAddr cfg0
  /\ BindAddr (settled cfg cfg0) = BindAddr cfg0
  /\ NodeList (settled cfg cfg0) = masterNodeList cfg
  /\ CORSAllowedOrigins (settled cfg cfg0)
     = (CORSAllowedOrigins cfg0 ++ [assetAddr cfg0; "localhost"; "127.0.0.1"])%list
  /\ KubernetesAddr (settled cfg cfg0)
     = (if embeddedKube cfg0 then MasterAddr cfg0 else KubernetesAddr cfg0)
  /\ CertDir (settled cfg cfg0) = CertDir cfg0.
Proof.
  unfold settled, withKube, corsAllowedOrigins, assetAddr.
  destruct (embeddedKube cfg0); cbn; repeat split; reflexivity.
Qed.

(** C9: the CORS list a master hands on is the operator's list followed
    by the asset server's address, "localhost" and "127.0.0.1"; it is
    handed on once, before any component is launched. *)
Theorem cors_allowed_origins env cfg args n t n' :
  start env cfg args n = ((t, n'), Ok tt) ->
  args = [] \/ args = ["master"] ->
  exists cfg0 before after,
    defaultMasterAddress env cfg = (cfg0, None)
    /\ let origins :=
         (CORSAllowedOrigins cfg
          ++ [JoinHostPort (flagtypes.Host (MasterAddr cfg0))
                (Itoa (int_add (flagtypes.Port (BindAddr cfg)) 1));
              "localhost"; "127.0.0.1"])%list in
       corsHanded t = [origins]
       /\ t = (before ++ EnsureCORSAllowedOrigins origins :: after)%list
       /\ launches before = [].
Proof.
  intros H Hargs.
  destruct (start_master_Ok _ _ _ _ _ _ H Hargs)
    as (cfg0 & line & k & tb & n1 & n2 & m & roots & tn & Hd & Hk & Hb & Hm & Ha & ->).
  apply bootstrapTrust_Ok_trace in Hb. subst tb.
  destruct (frame_of _ _ _ _ Hd) as (Fb & _ & _ & _ & Fc & _).
  destruct (settled_fields cfg cfg0) as (_ & _ & _ & Sc & _).
  unfold assetAddr in Sc. rewrite Fb, Fc in Sc.
  assert (Htn : corsHanded tn = []).
  { destruct Hargs as [Hn|Hn]; [|now rewrite (Hm Hn)].
    destruct (Ha Hn) as (k' & _ & ->). unfold corsHanded. read_trace. reflexivity. }
  set (tb := if origin.TLS (newMasterConfig env (embeddedKube cfg) (settled cfg cfg0))
            then trustCalls env (embeddedKube cfg) (settled cfg cfg0)
                   (newMasterConfig env (embeddedKube cfg) (settled cfg cfg0))
            else []) in *.
set (store := url.String (flagtypes.URL (EtcdAddr cfg0))) in *.
set (run := if negb (flagtypes.Provided (EtcdAddr cfg))
            then [EtcdRun (etcdConfig (withKube cfg0))] else []) in *.
exists cfg0.
exists (Infof line
        :: nodeLog (masterNodeList cfg) ++ run
           ++ (rounds store k ++ [EtcdGet store]) ++ tb ++ [BuildClients m])%list.
exists (AuthConfigured
          (origin.mkAuthConfig
             (url.String (flagtypes.URL (MasterAddr (settled cfg cfg0)))) roots ["secret"])
        :: (if embeddedKube cfg
            then [EnsurePortalFlags (kubeMasterConfig (settled cfg cfg0))] else [])
           ++ map Launch (masterLaunches (embeddedKube cfg)) ++ tn ++ [Park])%list.
split; [exact Hd|]. cbv zeta. rewrite <- Sc. repeat split.
- unfold masterTail. unfold corsHanded in *. subst tb run store. read_trace.
  rewrite select_trustCalls by reflexivity. rewrite Htn.
  destruct (embeddedKube cfg), (negb (flagtypes.Provided (EtcdAddr cfg)));
    read_trace; reflexivity.
- unfold masterTail. cbn [List.app].
  repeat (rewrite <- app_assoc; cbn [List.app]). reflexivity.
- unfold launches. subst tb run store. read_trace.
  rewrite select_trustCalls by reflexivity.
  destruct (negb (flagtypes.Provided (EtcdAddr cfg))); read_trace; reflexivity.
Qed.

Lemma cors_allowed_origins_witness :
  corsHanded (trace (start Scenario.env Scenario.cfgCors ["master"] 0%nat))
  = [["https://console.example.com"; "example.org";
      "10.0.0.5:8444"; "localhost"; "127.0.0.1"]].
Proof.
  assert (Hrun : start Scenario.env Scenario.cfgCors ["master"] 0%nat
                 = ((trace (start Scenario.env Scenario.cfgCors ["master"] 0%nat), 3%nat),
                    Ok tt))
    by (vm_compute; reflexivity).
  destruct (cors_allowed_origins Scenario.env Scenario.cfgCors ["master"] 0%nat
              _ _ Hrun (or_intror eq_refl))
    as (cfg0 & before & after & Hd & Hcors & _).
  vm_compute in Hd. injection Hd as <-. exact Hcors.
Defined.

Lemma masterNodeList_default cfg :
  NodeList cfg = ["127.0.0.1"] -> masterNodeList cfg = [Hostname cfg].
Proof. unfold masterNodeList. now intros ->. Qed.

Lemma masterNodeList_other cfg :
  NodeList cfg <> ["127.0.0.1"] -> masterNodeList cfg = NodeList cfg.
Proof.
  unfold masterNodeList. intros H.
  destruct (NodeList cfg) as [|a [|b l]]; cbn [length Nat.eqb andb nth];
    try reflexivity.
  destruct (String.eqb_spec a "127.0.0.1") as [->|]; [now elim H | reflexivity].
Qed.

(** C10: a master whose node list is the single entry "127.0.0.1" uses
    the one-entry list of its host name instead; any other node list is
    used as it is.  The list in use is the one logged, node by node,
    and the one given to the embedded Kubernetes master. *)
Theorem master_node_list env cfg args n t n' :
  (NodeList cfg = ["127.0.0.1"] -> masterNodeList cfg = [Hostname cfg])
  /\ (NodeList cfg <> ["127.0.0.1"] -> masterNodeList cfg = NodeList cfg)
  /\ (start env cfg args n = ((t, n'), Ok tt) ->
      args = [] \/ args = ["master"] ->
      (exists line,
         logged t = line :: map (fun s => "  Node: " ++ s) (masterNodeList cfg))
      /\ map kubernetes.NodeHosts (kubeMasters t)
         = if embeddedKube cfg then [masterNodeList cfg] else []).
Proof.
  split; [apply masterNodeList_default|].
  split; [apply masterNodeList_other|].
  intros H Hargs.
  destruct (start_master_Ok _ _ _ _ _ _ H Hargs)
    as (cfg0 & line & k & tb & n1 & n2 & m & roots & tn & Hd & Hk & Hb & Hm & Ha & ->).
  apply bootstrapTrust_Ok_trace in Hb. subst tb.
  destruct (settled_fields cfg cfg0) as (_ & _ & Sn & _).
  assert (Htn : logged tn = [] /\ kubeMasters tn = []).
  { destruct Hargs as [Hn|Hn]; [|now rewrite (Hm Hn)].
    destruct (Ha Hn) as (k' & _ & ->). unfold logged, kubeMasters.
    split; read_trace; reflexivity. }
  destruct Htn as (Hl & Hk').
  split.
  - exists line. unfold masterTail. unfold logged in *. read_trace.
    rewrite select_trustCalls by reflexivity. rewrite Hl.
    destruct (embeddedKube cfg), (negb (flagtypes.Provided (EtcdAddr cfg)));
      read_trace; now rewrite ?app_nil_r.
  - unfold masterTail. unfold kubeMasters in *. read_trace.
    rewrite select_trustCalls by reflexivity. rewrite Hk'.
    destruct (embeddedKube cfg), (negb (flagtypes.Provided (EtcdAddr cfg)));
      read_trace; cbn [map kubernetes.NodeHosts kubeMasterConfig];
      rewrite ?Sn; reflexivity.
Qed.

Lemma master_node_list_witness :
  masterNodeList Scenario.cfgA = ["node1.example.com"]
  /\ map kubernetes.NodeHosts
       (kubeMasters (trace (start Scenario.env Scenario.cfgA ["master"] 0%nat)))
     = [["node1.example.com"]].
Proof.
  assert (Hrun : start Scenario.env Scenario.cfgA ["master"] 0%nat
                 = ((trace (start Scenario.env Scenario.cfgA ["master"] 0%nat), 3%nat),
                    Ok tt))
    by (vm_compute; reflexivity).
  destruct (master_node_list Scenario.env Scenario.cfgA ["master"] 0%nat
              (trace (start Scenario.env Scenario.cfgA ["master"] 0%nat)) 3%nat)
    as (Hdefault & _ & Hused).
  split; [exact (Hdefault eq_refl)|].
  exact (proj2 (Hused Hrun (or_intror eq_refl))).
Defined.

Lemma select_masterTail_none {A} (f : event -> option A) sk cfg m roots :
  (forall x, f (BuildClients x) = None) ->
  (forall x, f (EnsureCORSAllowedOrigins x) = None) ->
  (forall x, f (AuthConfigured x) = None) ->
  (forall x, f (EnsurePortalFlags x) = None) ->
  (forall x, f (Launch x) = None) ->
  select f (masterTail sk cfg m roots) = [].
Proof.
  intros H1 H2 H3 H4 H5. unfold masterTail.
  rewrite !select_app, select_launches by assumption.
  rewrite !select_cons, H1, H2, H3.
  destruct sk; [rewrite select_cons, H4|]; reflexivity.
Qed.

(** C1: a master that has come up under "https" has set up one
    certificate authority and asked it for the identities "master",
    "openshift-client", "openshift-deployer" and "admin", and for
    "kube-client" exactly when no Kubernetes address was given
    (Kubernetes runs in this process); under any other scheme it has set
    up no authority and asked for no identity, and every internal client
    (the OpenShift client, the deployer client and, when Kubernetes runs
    in this process, the Kubernetes client) has the configuration without
    credentials at the master address, the first two sharing one and the
    same.  The client of a Kubernetes that runs elsewhere is pointed at
    the given address. *)
Theorem trust_bootstrap_identities env cfg args n t n' :
  start env cfg args n = ((t, n'), Ok tt) ->
  args = [] \/ args = ["master"] ->
  exists cfg0,
    defaultMasterAddress env cfg = (cfg0, None)
    /\ let masterURL := url.String (flagtypes.URL (MasterAddr cfg0)) in
       if String.eqb (url.Scheme (flagtypes.URL (MasterAddr cfg0))) "https" then
         caInits t =
         [(CertDir cfg,
           flagtypes.Host (MasterAddr cfg0) ++ "@" ++ Itoa (time_Now_Unix env))]
         /\ issued t =
            (["master"; "openshift-client"; "openshift-deployer"; "admin"]
             ++ (if embeddedKube cfg then ["kube-client"] else []))%list
       else
         caInits t = [] /\ issued t = []
         /\ exists m,
             clientsBuilt t = [m]
             /\ origin.OSClientConfig m
                = kclient.mkConfig masterURL (latest_Version env) None
             /\ origin.DeployerOSClientConfig m = origin.OSClientConfig m
             /\ origin.KubeClientConfig m
                = kclient.mkConfig
                    (if embeddedKube cfg then masterURL
                     else url.String (flagtypes.URL (KubernetesAddr cfg)))
                    (klatest_Version env) None
             /\ (flagtypes.Provided (KubernetesAddr cfg) = false ->
                 allClientsAt masterURL m).
Proof.
  intros H Hargs.
  destruct (start_master_Ok _ _ _ _ _ _ H Hargs)
    as (cfg0 & line & k & tb & n1 & n2 & m & roots & tn & Hd & Hk & Hb & Hm & Ha & ->).
  exists cfg0. split; [exact Hd|]. cbv zeta.
  destruct (frame_of _ _ _ _ Hd) as (_ & Fk & _ & _ & _ & Fd & _).
  destruct (settled_fields cfg cfg0) as (Sm & _ & _ & _ & Sk & Sd).
  assert (Hemb : embeddedKube cfg0 = embeddedKube cfg)
    by (unfold embeddedKube; now rewrite Fk).
  assert (Htn : caInits tn = [] /\ issued tn = [] /\ clientsBuilt tn = []).
  { destruct Hargs as [Hn|Hn]; [|now rewrite (Hm Hn)].
    destruct (Ha Hn) as (k' & _ & ->). unfold caInits, issued, clientsBuilt.
    repeat split; read_trace; reflexivity. }
  destruct Htn as (Hc & Hi & Hcb).
  assert (Htls : origin.TLS (newMasterConfig env (embeddedKube cfg) (settled cfg cfg0))
                 = String.eqb (url.Scheme (flagtypes.URL (MasterAddr cfg0))) "https")
    by (cbn [origin.TLS newMasterConfig]; now rewrite Sm).
  destruct (String.eqb (url.Scheme (flagtypes.URL (MasterAddr cfg0))) "https").
  - apply bootstrapTrust_tls in Hb as (-> & _); [|exact Htls].
    split.
    + unfold caInits in *. read_trace.
      rewrite select_masterTail_none by reflexivity. rewrite Hc.
      unfold trustCalls, caName. rewrite Sm, Sd, Fd.
      destruct (embeddedKube cfg), (negb (flagtypes.Provided (EtcdAddr cfg)));
        read_trace; reflexivity.
    + unfold issued in *. read_trace.
      rewrite select_masterTail_none by reflexivity. rewrite Hi.
      unfold trustCalls.
      destruct (embeddedKube cfg), (negb (flagtypes.Provided (EtcdAddr cfg)));
        read_trace; reflexivity.
  - rewrite bootstrapTrust_plain in Hb by exact Htls.
    injection Hb as <- _ Hmm _.
    repeat split.
    + unfold caInits in *. read_trace.
      rewrite select_masterTail_none by reflexivity. rewrite Hc.
      destruct (negb (flagtypes.Provided (EtcdAddr cfg))); read_trace; reflexivity.
    + unfold issued in *. read_trace.
      rewrite select_masterTail_none by reflexivity. rewrite Hi.
      destruct (negb (flagtypes.Provided (EtcdAddr cfg))); read_trace; reflexivity.
    + exists m. split; [|split; [|split; [|split]]].
      * unfold clientsBuilt in *. unfold masterTail. read_trace. rewrite Hcb.
        destruct (embeddedKube cfg), (negb (flagtypes.Provided (EtcdAddr cfg)));
          read_trace; reflexivity.
      * rewrite <- Hmm. cbn [origin.OSClientConfig with_clients].
        unfold osClientConfig. now rewrite Sm.
      * now rewrite <- Hmm.
      * rewrite <- Hmm.
        cbn [origin.KubeClientConfig with_clients newMasterConfig].
        unfold kubeClientConfig. rewrite Sm, Sk, Hemb.
        destruct (embeddedKube cfg); [reflexivity | now rewrite Fk].
      * intros Hp.
        assert (He : embeddedKube cfg = true)
          by (unfold embeddedKube; now rewrite Hp).
        rewrite <- Hmm. unfold allClientsAt, plainClientAt.
        cbn [origin.OSClientConfig origin.DeployerOSClientConfig
             origin.KubeClientConfig with_clients newMasterConfig].
        unfold osClientConfig, kubeClientConfig. rewrite He, Sm.
        cbn [kclient.Host kclient.Credentials]. auto.
Qed.

Lemma trust_bootstrap_identities_witness :
  issued (trace (start Scenario.env Scenario.cfgA ["master"] 0%nat))
  = ["master"; "openshift-client"; "openshift-deployer"; "admin"; "kube-client"]
  /\ caInits (trace (start Scenario.env Scenario.cfgPlain ["master"] 0%nat)) = []
  /\ issued (trace (start Scenario.env Scenario.cfgPlain ["master"] 0%nat)) = []
  /\ exists m,
      clientsBuilt (trace (start Scenario.env Scenario.cfgPlain ["master"] 0%nat)) = [m]
      /\ allClientsAt "http://10.0.0.5:8080" m.
Proof.
  assert (Hrun : start Scenario.env Scenario.cfgA ["master"] 0%nat
                 = ((trace (start Scenario.env Scenario.cfgA ["master"] 0%nat), 3%nat),
                    Ok tt))
    by (vm_compute; reflexivity).
  assert (Hplain : start Scenario.env Scenario.cfgPlain ["master"] 0%nat
                   = ((trace (start Scenario.env Scenario.cfgPlain ["master"] 0%nat),
                       3%nat), Ok tt))
    by (vm_compute; reflexivity).
  destruct (trust_bootstrap_identities Scenario.env Scenario.cfgA ["master"] 0%nat
              _ _ Hrun (or_intror eq_refl))
    as (cfg0 & Hd & Hid).
  destruct (trust_bootstrap_identities Scenario.env Scenario.cfgPlain ["master"] 0%nat
              _ _ Hplain (or_intror eq_refl))
    as (cfg1 & Hd1 & Hid1).
  vm_compute in Hd. injection Hd as <-.
  vm_compute in Hd1. injection Hd1 as <-.
  destruct Hid1 as (Hc & Hi & m & Hm & _ & _ & _ & Hall).
  split; [exact (proj2 Hid)|]. split; [exact Hc|]. split; [exact Hi|].
  exists m. split; [exact Hm | exact (Hall eq_refl)].
Defined.

End Master.

(** * Further properties of the code *)

(** ** Address defaulting *)

Lemma defaultMasterAddress_rest env cfg :
  StorageVersion (fst (defaultMasterAddress env cfg)) = StorageVersion cfg.
Proof.
  unfold defaultMasterAddress.
  repeat match goal with
         | |- context [match ?x with _ => _ end] => destruct x
         end; reflexivity.
Qed.

Lemma defaultMasterAddress_master_fields env cfg :
  BindAddr (fst (defaultMasterAddress env cfg)) = BindAddr cfg
  /\ KubernetesAddr (fst (defaultMasterAddress env cfg)) = KubernetesAddr cfg
  /\ PortalNet (fst (defaultMasterAddress env cfg)) = PortalNet cfg
  /\ RequireAuthentication (fst (defaultMasterAddress env cfg))
     = RequireAuthentication cfg.
Proof.
  unfold defaultMasterAddress.
  repeat match goal with
         | |- context [match ?x with _ => _ end] => destruct x
         end; cbn; repeat split; reflexivity.
Qed.

Lemma defaultMasterAddress_node_fields env cfg :
  BindAddr (fst (defaultMasterAddress env cfg)) = BindAddr cfg
  /\ Hostname (fst (defaultMasterAddress env cfg)) = Hostname cfg
  /\ VolumeDir (fst (defaultMasterAddress env cfg)) = VolumeDir cfg
  /\ MasterServiceNamespace (fst (defaultMasterAddress env cfg))
     = MasterServiceNamespace cfg.
Proof.
  unfold defaultMasterAddress.
  repeat match goal with
         | |- context [match ?x with _ => _ end] => destruct x
         end; cbn; repeat split; reflexivity.
Qed.

(** X1: [defaultMasterAddress] changes nothing but the master and store
    addresses, whatever it returns, and it never replaces an address that
    was provided. *)
Theorem defaultMasterAddress_touches_only_unset env cfg :
  let cfg' := fst (defaultMasterAddress env cfg) in
  (Docker cfg' = Docker cfg /\ BindAddr cfg' = BindAddr cfg
   /\ KubernetesAddr cfg' = KubernetesAddr cfg /\ PortalNet cfg' = PortalNet cfg
   /\ Hostname cfg' = Hostname cfg /\ VolumeDir cfg' = VolumeDir cfg
   /\ EtcdDir cfg' = EtcdDir cfg /\ CertDir cfg' = CertDir cfg
   /\ StorageVersion cfg' = StorageVersion cfg /\ NodeList cfg' = NodeList cfg
   /\ CORSAllowedOrigins cfg' = CORSAllowedOrigins cfg
   /\ RequireAuthentication cfg' = RequireAuthentication cfg
   /\ MasterServiceNamespace cfg' = MasterServiceNamespace cfg)
  /\ (flagtypes.Provided (MasterAddr cfg) = true -> MasterAddr cfg' = MasterAddr cfg)
  /\ (flagtypes.Provided (EtcdAddr cfg) = true -> EtcdAddr cfg' = EtcdAddr cfg).
Proof.
  unfold defaultMasterAddress.
  destruct (flagtypes.Provided (MasterAddr cfg)) eqn:Hm;
    destruct (flagtypes.Provided (EtcdAddr cfg)) eqn:He; cbn [negb].
  - cbn. repeat split; reflexivity.
  - destruct (flagtypes.Set_ (EtcdAddr cfg) _); cbn;
      repeat split; reflexivity || discriminate.
  - destruct (DefaultLocalIP4 env); [|cbn; repeat split; reflexivity || discriminate].
    destruct (flagtypes.Set_ (MasterAddr cfg) _);
      [|cbn; repeat split; reflexivity || discriminate].
    cbn [EtcdAddr set_MasterAddr]. rewrite He.
    cbn. repeat split; reflexivity || discriminate.
  - destruct (DefaultLocalIP4 env); [|cbn; repeat split; reflexivity || discriminate].
    destruct (flagtypes.Set_ (MasterAddr cfg) _);
      [|cbn; repeat split; reflexivity || discriminate].
    cbn [EtcdAddr set_MasterAddr]. rewrite He. cbn [negb].
    destruct (flagtypes.Set_ (EtcdAddr cfg) _); cbn;
      repeat split; reflexivity || discriminate.
Qed.

Lemma defaultMasterAddress_touches_only_unset_witness :
  MasterAddr (fst (defaultMasterAddress Scenario.env Scenario.cfgB))
  = MasterAddr Scenario.cfgB.
Proof.
  exact (proj1 (proj2 (defaultMasterAddress_touches_only_unset
                         Scenario.env Scenario.cfgB)) eq_refl).
Defined.

(** ** The readiness gate *)






(** ** Certificates *)

Lemma bootstrapTrust_prefix_witness :
  issued (trace (bootstrapTrust Failing.envNoDeployer true Scenario.cfgA
                   (newMasterConfig Failing.envNoDeployer true Scenario.cfgA) 0%nat))
  = ["master"; "openshift-client"; "openshift-deployer"]
  /\ outcome (bootstrapTrust Failing.envNoDeployer true Scenario.cfgA
                (newMasterConfig Failing.envNoDeployer true Scenario.cfgA) 0%nat)
     = Err "x509: signing failed".
Proof.
  pose proof (bootstrapTrust_prefix Failing.envNoDeployer true Scenario.cfgA
                (newMasterConfig Failing.envNoDeployer true Scenario.cfgA) 0%nat
                eq_refl) as H.
  cbv zeta in H. destruct H as (_ & _ & H).
  change (InitCA Failing.envNoDeployer (CertDir Scenario.cfgA)
            (caName Failing.envNoDeployer Scenario.cfgA))
    with (@Ok crypto.CA (crypto.mkCA ["ca.crt"])) in H.
  cbv beta iota in H. destruct H as (Hissued & _ & _).
  split; [exact Hissued | reflexivity].
Defined.

(** ** Runs, whatever their outcome *)

(** The certificate bootstrap does nothing but call the certificate
    authority. *)
Lemma bootstrapTrust_events env sk cfg osmaster n e :
  In e (trace (bootstrapTrust env sk cfg osmaster n)) ->
  (exists dir name, e = CallInitCA dir name)
  \/ (exists name hosts, e = CallMakeServerCert name hosts)
  \/ (exists name template, e = CallMakeClientConfig name template).
Proof.
  unfold bootstrapTrust.
  destruct (origin.TLS osmaster); [|intros []].
  unfold makeClientConfig, bind, emit, lift, ret, fail, trace.
  destruct (InitCA env (CertDir cfg) _) as [ca|err]; cbn [fst List.app].
  2:{ intros [<-|[]]. left. eauto. }
  destruct (MakeServerCert env ca "master" _) as [cert|err]; cbn [fst List.app].
  2:{ intros [<-|[<-|[]]]; [left|right; left]; eauto. }
  destruct (MakeClientConfig env ca "openshift-client" _) as [os|err];
    cbn [fst List.app].
  2:{ intros [<-|[<-|[<-|[]]]]; [left|right; left|right; right]; eauto. }
  destruct (MakeClientConfig env ca "openshift-deployer" _) as [dep|err];
    cbn [fst List.app].
  2:{ intros [<-|[<-|[<-|[<-|[]]]]]; [left|right; left|right; right|right; right]; eauto. }
  destruct (MakeClientConfig env ca "admin" _) as [adm|err]; cbn [fst List.app].
  2:{ intros [<-|[<-|[<-|[<-|[<-|[]]]]]];
        [left|right; left|right; right|right; right|right; right]; eauto. }
  destruct sk.
  - cbn [origin.KubeClientConfig with_serverCert].
    destruct (MakeClientConfig env ca "kube-client" _) as [kube|err];
      cbn [fst List.app];
      intros [<-|[<-|[<-|[<-|[<-|[<-|[]]]]]]];
      [left|right; left|right; right|right; right|right; right|right; right
      |left|right; left|right; right|right; right|right; right|right; right]; eauto.
  - cbn [fst List.app].
    intros [<-|[<-|[<-|[<-|[<-|[]]]]]];
      [left|right; left|right; right|right; right|right; right]; eauto.
Qed.

Lemma select_bootstrapTrust {A} (f : event -> option A) env sk cfg osmaster n :
  (forall d nm, f (CallInitCA d nm) = None) ->
  (forall nm h, f (CallMakeServerCert nm h) = None) ->
  (forall nm c, f (CallMakeClientConfig nm c) = None) ->
  select f (trace (bootstrapTrust env sk cfg osmaster n)) = [].
Proof.
  intros H1 H2 H3. apply select_nil. intros e He.
  apply bootstrapTrust_events in He
    as [(d & nm & ->)|[(nm & h & ->)|(nm & c & ->)]]; auto.
Qed.

(** The master block in closed form: where it can fail, and what it has
    done by then. *)
Lemma runMaster_run (env : Env) (se sk : bool) (cfg : config) (n : nat) :
  let cfg1 := set_NodeList (masterNodeList cfg) cfg in
  let cfg2 := set_CORSAllowedOrigins (corsAllowedOrigins cfg1) cfg1 in
  let head :=
    (nodeLog (NodeList cfg1) ++ (if se then [EtcdRun (etcdConfig cfg1)] else []))%list in
  runMaster env se sk cfg n =
  match getEtcdClient env cfg1 n with
  | ((tg, n1), Err e) => (((head ++ tg)%list, n1), Err e)
  | ((tg, n1), Ok _) =>
      match origin_NewEtcdHelper env (StorageVersion cfg1) with
      | Some e =>
          (((head ++ tg)%list, n1), Err ("Error setting up server storage: " ++ e))
      | None =>
          match kmaster_NewEtcdHelper env with
          | Some e =>
              (((head ++ tg)%list, n1),
               Err ("Error setting up Kubernetes server storage: " ++ e))
          | None =>
              match bootstrapTrust env sk cfg2 (newMasterConfig env sk cfg2) n1 with
              | ((tb, n2), Err e) => (((head ++ tg ++ tb)%list, n2), Err e)
              | ((tb, n2), Ok (m, roots)) =>
                  (((head ++ tg ++ tb ++ masterTail sk cfg2 m roots)%list, n2), Ok cfg2)
              end
          end
      end
  end.
Proof.
  intros cfg1 cfg2 head. unfold runMaster. fold cfg1. fold cfg2.
  unfold bind at 1. rewrite logNodes_run.
  unfold bind at 1.
  assert (Hrun : (if se then emit (EtcdRun (etcdConfig cfg1)) else ret tt) n
                 = ((if se then [EtcdRun (etcdConfig cfg1)] else @nil event, n), Ok tt))
    by (now destruct se).
  rewrite Hrun. unfold bind at 1.
  destruct (getEtcdClient env cfg1 n) as [[tg n1] [client|e]].
  2:{ subst head. now rewrite app_assoc. }
  unfold bind at 1. unfold check at 1.
  destruct (origin_NewEtcdHelper env (StorageVersion cfg1)) as [e|].
  { unfold fail. subst head. rewrite app_nil_r. now rewrite app_assoc. }
  unfold ret at 1. unfold bind at 1. unfold check at 1.
  destruct (kmaster_NewEtcdHelper env) as [e|].
  { unfold fail. subst head. rewrite !app_nil_r. now rewrite app_assoc. }
  unfold ret at 1. unfold bind at 1.
  destruct (bootstrapTrust env sk cfg2 (newMasterConfig env sk cfg2) n1)
    as [[tb n2] [[m roots]|e]].
  2:{ subst head. cbn [List.app]. now rewrite <- !app_assoc. }
  assert (Htail :
    (emit (BuildClients m);;
     emit (EnsureCORSAllowedOrigins (CORSAllowedOrigins cfg2));;
     emit (AuthConfigured
             (origin.mkAuthConfig (url.String (flagtypes.URL (MasterAddr cfg2)))
                roots ["secret"]));;
     (if sk then emit (EnsurePortalFlags (kubeMasterConfig cfg2)) else ret tt);;
     launchAll (apiLaunches sk);;
     launchAll (StartRecording :: RunAssetServer :: controllers);;
     ret cfg2) n2 = ((masterTail sk cfg2 m roots, n2), Ok cfg2)).
  { unfold bind, emit. destruct sk; reflexivity. }
  rewrite Htail. subst head. cbn [List.app]. now rewrite <- !app_assoc.
Qed.

Lemma getEtcdClient_select {A} (f : event -> option A) env cfg n :
  (forall s, f (EtcdGet s) = None) -> (forall ms, f (Sleep ms) = None) ->
  select f (trace (getEtcdClient env cfg n)) = [].
Proof.
  intros Hg Hs. destruct (getEtcdClient_trace env cfg n) as (k & _ & ->).
  now apply select_rounds.
Qed.

(** A master block that fails has launched nothing; one that comes up has
    launched the master's components. *)
Lemma runMaster_launches (env : Env) (se sk : bool) (cfg : config) (n : nat) :
  launches (trace (runMaster env se sk cfg n)) =
  match outcome (runMaster env se sk cfg n) with
  | Ok _ => masterLaunches sk
  | Err _ => []
  end.
Proof.
  rewrite runMaster_run. cbv zeta.
  set (cfg1 := set_NodeList (masterNodeList cfg) cfg).
  set (cfg2 := set_CORSAllowedOrigins (corsAllowedOrigins cfg1) cfg1).
  pose proof (getEtcdClient_select
                (fun e => match e with Launch c => Some c | _ => None end)
                env cfg1 n (fun _ => eq_refl) (fun _ => eq_refl)) as Hg.
  destruct (getEtcdClient env cfg1 n) as [[tg n1] [client|e]];
    unfold trace in Hg; cbn [fst] in Hg.
  2:{ unfold trace, outcome, launches. cbn [fst snd]. read_trace. rewrite Hg.
      destruct se; read_trace; reflexivity. }
  destruct (origin_NewEtcdHelper env (StorageVersion cfg1)) as [e|].
  { unfold trace, outcome, launches. cbn [fst snd]. read_trace. rewrite Hg.
    destruct se; read_trace; reflexivity. }
  destruct (kmaster_NewEtcdHelper env) as [e|].
  { unfold trace, outcome, launches. cbn [fst snd]. read_trace. rewrite Hg.
    destruct se; read_trace; reflexivity. }
  pose proof (select_bootstrapTrust
                (fun e => match e with Launch c => Some c | _ => None end)
                env sk cfg2 (newMasterConfig env sk cfg2) n1
                (fun _ _ => eq_refl) (fun _ _ => eq_refl) (fun _ _ => eq_refl)) as Hb.
  destruct (bootstrapTrust env sk cfg2 (newMasterConfig env sk cfg2) n1)
    as [[tb n2] [[m roots]|e]]; unfold trace in Hb; cbn [fst] in Hb;
    unfold trace, outcome, launches; cbn [fst snd].
  - unfold masterTail. read_trace. rewrite Hg, Hb.
    destruct se, sk; read_trace; reflexivity.
  - read_trace. rewrite Hg, Hb. destruct se; read_trace; reflexivity.
Qed.

Lemma runNode_launches env cfg n :
  launches (trace (runNode env cfg n)) =
  match outcome (runNode env cfg n) with
  | Ok _ => nodeLaunches
  | Err _ => []
  end.
Proof.
  rewrite runNode_run.
  pose proof (getEtcdClient_select
                (fun e => match e with Launch c => Some c | _ => None end)
                env cfg n (fun _ => eq_refl) (fun _ => eq_refl)) as Hg.
  destruct (getEtcdClient env cfg n) as [[tg n1] [client|e]];
    unfold trace in Hg; cbn [fst] in Hg;
    unfold trace, outcome, launches; cbn [fst snd].
  - read_trace. now rewrite Hg.
  - exact Hg.
Qed.

Lemma start_defaulting_error env cfg args n cfg' err :
  defaultMasterAddress env cfg = (cfg', Some err) ->
  args = [] \/ args = ["master"] \/ args = ["node"] ->
  start env cfg args n = (([], n), Err err).
Proof.
  intros Hd Hargs. unfold start, bind. rewrite resolveRoles_run.
  destruct Hargs as [ -> | [ -> | -> ] ]; cbn [String.eqb Ascii.eqb Bool.eqb];
    unfold resolved; now rewrite Hd.
Qed.

(** [start master] in closed form. *)
Lemma start_master_run env cfg n cfg0 :
  defaultMasterAddress env cfg = (cfg0, None) ->
  start env cfg ["master"] n =
  let line := Infof ("Starting an OpenShift master, reachable at " ++ addresses cfg0) in
  match runMaster env (negb (flagtypes.Provided (EtcdAddr cfg)))
          (embeddedKube cfg0) (withKube cfg0) n with
  | ((tm, n1), Ok _) => (((line :: tm ++ [Park])%list, n1), Ok tt)
  | ((tm, n1), Err e) => (((line :: tm)%list, n1), Err e)
  end.
Proof.
  intros Hd. unfold start. unfold bind at 1. rewrite resolveRoles_run.
  cbn [String.eqb Ascii.eqb Bool.eqb]. unfold resolved. rewrite Hd.
  fold (embeddedKube cfg0). fold (withKube cfg0).
  cbn [startMaster startNode startEtcd]. unfold bind, ret, emit.
  destruct (runMaster env _ (embeddedKube cfg0) (withKube cfg0) n)
    as [[tm n1] [cfgM|e]]; reflexivity.
Qed.

(** [start] without arguments in closed form. *)
Lemma start_all_run env cfg n cfg0 :
  defaultMasterAddress env cfg = (cfg0, None) ->
  start env cfg [] n =
  let line :=
    Infof ("Starting an OpenShift all-in-one, reachable at " ++ addresses cfg0) in
  match runMaster env (negb (flagtypes.Provided (EtcdAddr cfg)))
          (embeddedKube cfg0) (withKube cfg0) n with
  | ((tm, n1), Ok cfgM) =>
      match runNode env cfgM n1 with
      | ((tn, n2), Ok _) => (((line :: tm ++ tn ++ [Park])%list, n2), Ok tt)
      | ((tn, n2), Err e) => (((line :: tm ++ tn)%list, n2), Err e)
      end
  | ((tm, n1), Err e) => (((line :: tm)%list, n1), Err e)
  end.
Proof.
  intros Hd. unfold start. unfold bind at 1. rewrite resolveRoles_run.
  unfold resolved. rewrite Hd.
  fold (embeddedKube cfg0). fold (withKube cfg0).
  cbn [startMaster startNode startEtcd]. unfold bind, ret, emit.
  destruct (runMaster env _ (embeddedKube cfg0) (withKube cfg0) n)
    as [[tm n1] [cfgM|e]]; [|reflexivity].
  destruct (runNode env cfgM n1) as [[tn n2] [[]|e]]; reflexivity.
Qed.

Lemma embeddedKube_defaulted env cfg cfg0 e :
  defaultMasterAddress env cfg = (cfg0, e) -> embeddedKube cfg0 = embeddedKube cfg.
Proof.
  intros Hd. destruct (frame_of _ _ _ _ Hd) as (_ & Fk & _).
  unfold embeddedKube. now rewrite Fk.
Qed.

Lemma runMaster_store (env : Env) (se sk : bool) (cfg : config) (n : nat) :
  exists rest,
    trace (runMaster env se sk cfg n) =
    (nodeLog (masterNodeList cfg)
     ++ (if se then [EtcdRun (etcdConfig (set_NodeList (masterNodeList cfg) cfg))]
         else [])
     ++ rest)%list
    /\ storesRun rest = [].
Proof.
  rewrite runMaster_run. cbv zeta.
  set (cfg1 := set_NodeList (masterNodeList cfg) cfg).
  set (cfg2 := set_CORSAllowedOrigins (corsAllowedOrigins cfg1) cfg1).
  pose proof (getEtcdClient_select
                (fun e => match e with EtcdRun c => Some c | _ => None end)
                env cfg1 n (fun _ => eq_refl) (fun _ => eq_refl)) as Hg.
  destruct (getEtcdClient env cfg1 n) as [[tg n1] [client|e]];
    unfold trace in Hg; cbn [fst] in Hg.
  2:{ exists tg. unfold trace. cbn [fst NodeList set_NodeList cfg1].
      now rewrite <- app_assoc. }
  destruct (origin_NewEtcdHelper env (StorageVersion cfg1)) as [e|].
  { exists tg. unfold trace. cbn [fst NodeList set_NodeList cfg1].
    now rewrite <- app_assoc. }
  destruct (kmaster_NewEtcdHelper env) as [e|].
  { exists tg. unfold trace. cbn [fst NodeList set_NodeList cfg1].
    now rewrite <- app_assoc. }
  pose proof (select_bootstrapTrust
                (fun e => match e with EtcdRun c => Some c | _ => None end)
                env sk cfg2 (newMasterConfig env sk cfg2) n1
                (fun _ _ => eq_refl) (fun _ _ => eq_refl) (fun _ _ => eq_refl)) as Hb.
  destruct (bootstrapTrust env sk cfg2 (newMasterConfig env sk cfg2) n1)
    as [[tb n2] [[m roots]|e]]; unfold trace in Hb; cbn [fst] in Hb.
  - exists (tg ++ tb ++ masterTail sk cfg2 m roots)%list.
    unfold trace. cbn [fst NodeList set_NodeList cfg1].
    split; [now rewrite <- app_assoc|].
    unfold storesRun, masterTail in *. read_trace. rewrite Hg, Hb.
    destruct sk; read_trace; reflexivity.
  - exists (tg ++ tb)%list. unfold trace. cbn [fst NodeList set_NodeList cfg1].
    split; [now rewrite <- app_assoc|].
    unfold storesRun in *. read_trace. now rewrite Hg, Hb.
Qed.

Lemma runNode_storesRun env cfg n : storesRun (trace (runNode env cfg n)) = [].
Proof.
  rewrite runNode_run.
  pose proof (getEtcdClient_select
                (fun e => match e with EtcdRun c => Some c | _ => None end)
                env cfg n (fun _ => eq_refl) (fun _ => eq_refl)) as Hg.
  destruct (getEtcdClient env cfg n) as [[tg n1] [client|e]];
    unfold trace in *; cbn [fst] in *; unfold storesRun in *.
  - read_trace. now rewrite Hg.
  - exact Hg.
Qed.

(** The defaulting leaves the master's node list and the configuration of
    its own store as the operator's configuration gives them. *)
Lemma masterNodeList_defaulted env cfg cfg0 e :
  defaultMasterAddress env cfg = (cfg0, e) ->
  masterNodeList (withKube cfg0) = masterNodeList cfg.
Proof.
  intros Hd. destruct (frame_of _ _ _ _ Hd) as (_ & _ & Fh & Fn & _).
  unfold masterNodeList, withKube.
  destruct (embeddedKube cfg0); cbn [NodeList Hostname set_KubernetesAddr];
    now rewrite Fn, Fh.
Qed.

Lemma etcdConfig_defaulted env cfg cfg0 e :
  defaultMasterAddress env cfg = (cfg0, e) ->
  etcdConfig (set_NodeList (masterNodeList (withKube cfg0)) (withKube cfg0))
  = ownStore cfg cfg0.
Proof.
  intros Hd. destruct (frame_of _ _ _ _ Hd) as (Fb & _ & _ & _ & _ & _ & Fe).
  unfold etcdConfig, withKube, ownStore.
  destruct (embeddedKube cfg0); cbn; now rewrite Fb, Fe.
Qed.

(** A run with a master, whatever comes of it: the log lines, then the
    start of its own store if it runs one, and no other store after. *)
Lemma start_master_head env cfg args n cfg0 :
  args = [] \/ args = ["master"] ->
  defaultMasterAddress env cfg = (cfg0, None) ->
  exists line rest,
    trace (start env cfg args n)
    = (Infof line
       :: nodeLog (masterNodeList cfg)
       ++ (if flagtypes.Provided (EtcdAddr cfg) then []
           else [EtcdRun (ownStore cfg cfg0)])
       ++ rest)%list
    /\ storesRun rest = [].
Proof.
  intros Hargs Hd.
  destruct (runMaster_store env (negb (flagtypes.Provided (EtcdAddr cfg)))
              (embeddedKube cfg0) (withKube cfg0) n) as (rest & Hm & Hrest).
  rewrite (etcdConfig_defaulted _ _ _ _ Hd), (masterNodeList_defaulted _ _ _ _ Hd) in Hm.
  assert (Hif : (if negb (flagtypes.Provided (EtcdAddr cfg))
                 then [EtcdRun (ownStore cfg cfg0)] else [])
                = (if flagtypes.Provided (EtcdAddr cfg) then []
                   else [EtcdRun (ownStore cfg cfg0)]))
    by now destruct (flagtypes.Provided (EtcdAddr cfg)).
  rewrite Hif in Hm. clear Hif.
  destruct Hargs as [ -> | -> ].
  - rewrite (start_all_run env cfg n cfg0 Hd). cbv zeta.
    destruct (runMaster env _ (embeddedKube cfg0) (withKube cfg0) n)
      as [[tm n1] [cfgM|e]]; unfold trace in Hm; cbn [fst] in Hm; subst tm.
    + pose proof (runNode_storesRun env cfgM n1) as Hn.
      destruct (runNode env cfgM n1) as [[tn n2] [[]|e]];
        unfold trace in *; cbn [fst] in *.
      * eexists _, (rest ++ tn ++ [Park])%list. split.
        -- rewrite <- !app_assoc. reflexivity.
        -- unfold storesRun in *. read_trace. now rewrite Hrest, Hn.
      * eexists _, (rest ++ tn)%list. split.
        -- rewrite <- !app_assoc. reflexivity.
        -- unfold storesRun in *. read_trace. now rewrite Hrest, Hn.
    + eexists _, rest. split; [reflexivity | exact Hrest].
  - rewrite (start_master_run env cfg n cfg0 Hd). cbv zeta.
    destruct (runMaster env _ (embeddedKube cfg0) (withKube cfg0) n)
      as [[tm n1] [cfgM|e]]; unfold trace in *; cbn [fst] in *; subst tm.
    + eexists _, (rest ++ [Park])%list. split.
      * rewrite <- !app_assoc. reflexivity.
      * unfold storesRun in *. read_trace. now rewrite Hrest.
    + eexists _, rest. split; [reflexivity | exact Hrest].
Qed.

Lemma start_master_storesRun env cfg args n cfg0 :
  args = [] \/ args = ["master"] ->
  defaultMasterAddress env cfg = (cfg0, None) ->
  storesRun (trace (start env cfg args n))
  = if flagtypes.Provided (EtcdAddr cfg) then [] else [ownStore cfg cfg0].
Proof.
  intros Hargs Hd.
  destruct (start_master_head env cfg args n cfg0 Hargs Hd)
    as (line & rest & -> & Hrest).
  unfold storesRun in *. read_trace. rewrite Hrest.
  destruct (flagtypes.Provided (EtcdAddr cfg)); read_trace; reflexivity.
Qed.

(** X4: [start] fails fast.  Take a run with a master that returns an
    error.  When the addresses cannot be defaulted it has done nothing.  When the master block fails, the run returns
    that block's error and has launched none of the master's or node's
    components.  When the master block comes through, the run is an
    all-in-one run that failed in its node block: it has launched the
    master's components and none of the node's.  In either case the
    store of its own, which a master without a store address starts
    ahead of the readiness gate, has been started. *)
Theorem start_fail_fast env cfg args n err :
  args = [] \/ args = ["master"] ->
  outcome (start env cfg args n) = Err err ->
  let t := trace (start env cfg args n) in
  match defaultMasterAddress env cfg with
  | (_, Some e) => err = e /\ t = []
  | (cfg0, None) =>
      storesRun t
      = (if flagtypes.Provided (EtcdAddr cfg) then [] else [ownStore cfg cfg0])
      /\ match runMaster env (negb (flagtypes.Provided (EtcdAddr cfg)))
                 (embeddedKube cfg) (withKube cfg0) n with
         | ((_, _), Err e) => err = e /\ launches t = []
         | ((_, n1), Ok cfgM) =>
             args = [] /\ outcome (runNode env cfgM n1) = Err err
             /\ launches t = masterLaunches (embeddedKube cfg)
         end
  end.
Proof.
  intros Hargs Hout t. subst t.
  destruct (defaultMasterAddress env cfg) as [cfg0 [e|]] eqn:Hd.
  { rewrite (start_defaulting_error env cfg args n cfg0 e Hd) in * by tauto.
    injection Hout as <-. split; reflexivity. }
  split; [apply start_master_storesRun; assumption|].
  rewrite <- (embeddedKube_defaulted _ _ _ _ Hd).
  pose proof (runMaster_launches env (negb (flagtypes.Provided (EtcdAddr cfg)))
                (embeddedKube cfg0) (withKube cfg0) n) as Hm.
  destruct Hargs as [ -> | -> ].
  - rewrite (start_all_run env cfg n cfg0 Hd) in *. cbv zeta in *.
    destruct (runMaster env _ (embeddedKube cfg0) (withKube cfg0) n)
      as [[tm n1] [cfgM|e]]; unfold trace, outcome in Hm; cbn [fst snd] in Hm.
    + pose proof (runNode_launches env cfgM n1) as Hn.
      destruct (runNode env cfgM n1) as [[tn n2] [[]|e]];
        unfold trace, outcome in *; cbn [fst snd] in *; [discriminate|].
      injection Hout as <-. split; [reflexivity|]. split; [reflexivity|].
      unfold launches in *. read_trace. rewrite Hm, Hn. now rewrite app_nil_r.
    + unfold trace, outcome in *; cbn [fst snd] in *. injection Hout as <-.
      split; [reflexivity|]. unfold launches in *. read_trace. exact Hm.
  - rewrite (start_master_run env cfg n cfg0 Hd) in *. cbv zeta in *.
    destruct (runMaster env _ (embeddedKube cfg0) (withKube cfg0) n)
      as [[tm n1] [cfgM|e]]; unfold trace, outcome in *; cbn [fst snd] in *;
      [discriminate|].
    injection Hout as <-.
    split; [reflexivity|]. unfold launches in *. read_trace. exact Hm.
Qed.

Lemma start_fail_fast_witness :
  launches (trace (start Failing.envNoStorage Scenario.cfgA [] 0%nat)) = []
  /\ storesRun (trace (start Failing.envNoStorage Scenario.cfgA [] 0%nat))
     = [etcd.mkConfig "0.0.0.0" "0.0.0.0" "10.0.0.5:4001" "openshift.local.etcd"]
  /\ launches (trace (start Failing.envStoreLost Scenario.cfgA [] 0%nat))
     = masterLaunches true.
Proof.
  pose proof (start_fail_fast Failing.envNoStorage Scenario.cfgA [] 0%nat
                "Error setting up server storage: unsupported storage version"
                (or_introl eq_refl) eq_refl) as H1.
  pose proof (start_fail_fast Failing.envStoreLost Scenario.cfgA [] 0%nat
                "Could not reach etcd: connection reset"
                (or_introl eq_refl) eq_refl) as H2.
  vm_compute in H1. vm_compute in H2.
  destruct H1 as (Hs1 & _ & Hl1). destruct H2 as (_ & _ & _ & Hl2).
  split; [exact Hl1|]. split; [exact Hs1 | exact Hl2].
Defined.

Lemma getEtcdClient_settled env cfg cfg0 n :
  getEtcdClient env (set_NodeList (masterNodeList (withKube cfg0)) (withKube cfg0)) n
  = getEtcdClient env cfg0 n
  /\ getEtcdClient env (settled cfg cfg0) n = getEtcdClient env cfg0 n.
Proof.
  unfold getEtcdClient, settled, withKube.
  destruct (embeddedKube cfg0); split; reflexivity.
Qed.

(** X5: when the store answers none of the 102 probes of the gate, every
    role ends with the error "Could not reach etcd" carrying the last
    probe's error.  By then the run has logged its lines, a master
    without a store address has started the store of its own (that
    happens ahead of the gate), and the gate has probed 102 times with a
    sleep after each probe but the last: the run has done nothing else,
    so no certificate authority was set up, no client was built and none
    of the components of [masterLaunches] and [nodeLaunches] was
    launched. *)
Theorem start_store_unreachable env cfg args n cfg0 :
  args = [] \/ args = ["master"] \/ args = ["node"] ->
  defaultMasterAddress env cfg = (cfg0, None) ->
  let store := url.String (flagtypes.URL (EtcdAddr cfg0)) in
  (forall j, (j < pollBound)%nat -> ready (etcd_Get env (n + j) store) = false) ->
  let t := trace (start env cfg args n) in
  outcome (start env cfg args n)
  = Err ("Could not reach etcd: " ++ failure (etcd_Get env (n + 101) store))
  /\ launches t = []
  /\ caInits t = []
  /\ probed t = repeat store 102
  /\ clientsBuilt t = []
  /\ nodeConfigs t = []
  /\ (args = ["node"] ->
      storesRun t = []
      /\ exists line, t = (Infof line :: gatePass store 101)%list)
  /\ (args <> ["node"] ->
      storesRun t
      = (if flagtypes.Provided (EtcdAddr cfg) then [] else [ownStore cfg cfg0])
      /\ exists line,
          t = (Infof line
               :: nodeLog (masterNodeList cfg)
               ++ (if flagtypes.Provided (EtcdAddr cfg) then []
                   else [EtcdRun (ownStore cfg cfg0)])
               ++ gatePass store 101)%list).
Proof.
  intros Hargs Hd store Hdown t. subst t. unfold gatePass.
  assert (Hg : getEtcdClient env cfg0 n =
               (((rounds store 101 ++ [EtcdGet store])%list, (n + 102)%nat),
                Err ("Could not reach etcd: " ++ failure (etcd_Get env (n + 101) store)))).
  { rewrite getEtcdClient_run. cbv zeta. fold store.
    now rewrite (proj2 (firstReady_None env store n pollBound) Hdown). }
  assert (Hm : runMaster env (negb (flagtypes.Provided (EtcdAddr cfg)))
                 (embeddedKube cfg0) (withKube cfg0) n
               = (((nodeLog (masterNodeList cfg)
                    ++ (if flagtypes.Provided (EtcdAddr cfg) then []
                        else [EtcdRun (ownStore cfg cfg0)])
                    ++ rounds store 101 ++ [EtcdGet store])%list, (n + 102)%nat),
                  Err ("Could not reach etcd: "
                       ++ failure (etcd_Get env (n + 101) store)))).
  { rewrite runMaster_run. cbv zeta.
    rewrite (proj1 (getEtcdClient_settled env cfg cfg0 n)), Hg.
    cbn [NodeList set_NodeList].
    rewrite (etcdConfig_defaulted _ _ _ _ Hd), (masterNodeList_defaulted _ _ _ _ Hd).
    rewrite <- app_assoc.
    now destruct (flagtypes.Provided (EtcdAddr cfg)). }
  destruct Hargs as [ -> | [ -> | -> ] ].
  - rewrite (start_all_run env cfg n cfg0 Hd). cbv zeta. rewrite Hm.
    unfold trace, outcome, launches, caInits, probed, clientsBuilt, nodeConfigs,
      storesRun. cbn [fst snd].
    split; [reflexivity|].
    split; [read_trace; destruct (flagtypes.Provided (EtcdAddr cfg)); reflexivity|].
    split; [read_trace; destruct (flagtypes.Provided (EtcdAddr cfg)); reflexivity|].
    split; [read_trace; destruct (flagtypes.Provided (EtcdAddr cfg)); reflexivity|].
    split; [read_trace; destruct (flagtypes.Provided (EtcdAddr cfg)); reflexivity|].
    split; [read_trace; destruct (flagtypes.Provided (EtcdAddr cfg)); reflexivity|].
    split; [discriminate|]. intros _.
    split; [read_trace; destruct (flagtypes.Provided (EtcdAddr cfg)); reflexivity|].
    eexists. reflexivity.
  - rewrite (start_master_run env cfg n cfg0 Hd). cbv zeta. rewrite Hm.
    unfold trace, outcome, launches, caInits, probed, clientsBuilt, nodeConfigs,
      storesRun. cbn [fst snd].
    split; [reflexivity|].
    split; [read_trace; destruct (flagtypes.Provided (EtcdAddr cfg)); reflexivity|].
    split; [read_trace; destruct (flagtypes.Provided (EtcdAddr cfg)); reflexivity|].
    split; [read_trace; destruct (flagtypes.Provided (EtcdAddr cfg)); reflexivity|].
    split; [read_trace; destruct (flagtypes.Provided (EtcdAddr cfg)); reflexivity|].
    split; [read_trace; destruct (flagtypes.Provided (EtcdAddr cfg)); reflexivity|].
    split; [discriminate|]. intros _.
    split; [read_trace; destruct (flagtypes.Provided (EtcdAddr cfg)); reflexivity|].
    eexists. reflexivity.
  - rewrite (start_node_run env cfg n cfg0 Hd). cbv zeta. rewrite Hg.
    unfold trace, outcome, launches, caInits, probed, clientsBuilt, nodeConfigs,
      storesRun. cbn [fst snd].
    split; [reflexivity|].
    split; [read_trace; reflexivity|].
    split; [read_trace; reflexivity|].
    split; [read_trace; reflexivity|].
    split; [read_trace; reflexivity|].
    split; [read_trace; reflexivity|].
    split; [|intros Hn; now elim Hn]. intros _.
    split; [read_trace; reflexivity|].
    eexists. reflexivity.
Qed.

Lemma start_store_unreachable_witness :
  outcome (start Scenario.envDown Scenario.cfgA ["master"] 0%nat)
  = Err "Could not reach etcd: connection refused"
  /\ storesRun (trace (start Scenario.envDown Scenario.cfgA ["master"] 0%nat))
     = [etcd.mkConfig "0.0.0.0" "0.0.0.0" "10.0.0.5:4001" "openshift.local.etcd"]
  /\ launches (trace (start Scenario.envDown Scenario.cfgA ["master"] 0%nat)) = []
  /\ length (probed (trace (start Scenario.envDown Scenario.cfgA ["master"] 0%nat)))
     = 102%nat.
Proof.
  destruct (start_store_unreachable Scenario.envDown Scenario.cfgA ["master"] 0%nat
              (fst (defaultMasterAddress Scenario.envDown Scenario.cfgA)))
    as (Hout & Hl & _ & Hprobed & _ & _ & _ & Hs).
  - right. left. reflexivity.
  - reflexivity.
  - intros j _. reflexivity.
  - split; [exact Hout|]. split; [exact (proj1 (Hs ltac:(discriminate)))|].
    split; [exact Hl|]. rewrite Hprobed. apply repeat_length.
Defined.

(** X6: when the store answers but the server storage cannot be set up,
    a run with a master ends with the error "Error setting up server
    storage" (or "Error setting up Kubernetes server storage" when only
    the Kubernetes helper fails).  By then a master without a store
    address has started the store of its own, which happens ahead of the
    gate; no certificate authority has been set up and none of the
    components of [masterLaunches] and [nodeLaunches] has been
    launched. *)
Theorem start_storage_error env cfg args n cfg0 client :
  args = [] \/ args = ["master"] ->
  defaultMasterAddress env cfg = (cfg0, None) ->
  outcome (getEtcdClient env cfg0 n) = Ok client ->
  (forall err, origin_NewEtcdHelper env (StorageVersion cfg) = Some err ->
     outcome (start env cfg args n) = Err ("Error setting up server storage: " ++ err))
  /\ (forall err, origin_NewEtcdHelper env (StorageVersion cfg) = None ->
      kmaster_NewEtcdHelper env = Some err ->
      outcome (start env cfg args n)
      = Err ("Error setting up Kubernetes server storage: " ++ err))
  /\ (origin_NewEtcdHelper env (StorageVersion cfg) <> None
      \/ kmaster_NewEtcdHelper env <> None ->
      launches (trace (start env cfg args n)) = []
      /\ caInits (trace (start env cfg args n)) = []
      /\ storesRun (trace (start env cfg args n))
         = (if flagtypes.Provided (EtcdAddr cfg) then [] else [ownStore cfg cfg0])).
Proof.
  intros Hargs Hd Hgate.
  pose proof (start_master_storesRun env cfg args n cfg0 Hargs Hd) as Hstore.
  assert (Hsv : StorageVersion (set_NodeList (masterNodeList (withKube cfg0)) (withKube cfg0))
                = StorageVersion cfg).
  { pose proof (defaultMasterAddress_rest env cfg) as F.
    rewrite Hd in F. cbn [fst] in F. unfold withKube.
    destruct (embeddedKube cfg0); cbn; apply F. }
  pose proof (getEtcdClient_select
                (fun e => match e with Launch c => Some c | _ => None end)
                env cfg0 n (fun _ => eq_refl) (fun _ => eq_refl)) as Hl.
  pose proof (getEtcdClient_select
                (fun e => match e with CallInitCA d nm => Some (d, nm) | _ => None end)
                env cfg0 n (fun _ => eq_refl) (fun _ => eq_refl)) as Hc.
  assert (Hrun : forall tm n1 e,
            runMaster env (negb (flagtypes.Provided (EtcdAddr cfg)))
              (embeddedKube cfg0) (withKube cfg0) n = ((tm, n1), Err e) ->
            outcome (start env cfg args n) = Err e
            /\ trace (start env cfg args n) =
               Infof ((if match args with [] => true | _ => false end
                       then "Starting an OpenShift all-in-one, reachable at "
                       else "Starting an OpenShift master, reachable at ")
                      ++ addresses cfg0) :: tm).
  { intros tm n1 e Hm. destruct Hargs as [ -> | -> ].
    - rewrite (start_all_run env cfg n cfg0 Hd). cbv zeta. rewrite Hm. auto.
    - rewrite (start_master_run env cfg n cfg0 Hd). cbv zeta. rewrite Hm. auto. }
  pose proof (runMaster_run env (negb (flagtypes.Provided (EtcdAddr cfg)))
                (embeddedKube cfg0) (withKube cfg0) n) as Hm.
  cbv zeta in Hm.
  rewrite (proj1 (getEtcdClient_settled env cfg cfg0 n)), Hsv in Hm.
  destruct (getEtcdClient env cfg0 n) as [[tg n1] [c|e]];
    unfold outcome, trace in Hgate, Hl, Hc; cbn [fst snd] in Hgate, Hl, Hc;
    [|discriminate].
  split; [|split; [|intros Hfail; split; [|split]]].
  - intros err He. rewrite He in Hm. now apply Hrun in Hm.
  - intros err He Hk. rewrite He, Hk in Hm. now apply Hrun in Hm.
  - destruct (origin_NewEtcdHelper env (StorageVersion cfg)) as [e|];
      [|destruct (kmaster_NewEtcdHelper env) as [e|]; [|tauto]];
      apply Hrun in Hm as [_ ->]; unfold launches in *; read_trace; rewrite Hl;
      destruct (negb (flagtypes.Provided (EtcdAddr cfg))); read_trace; reflexivity.
  - destruct (origin_NewEtcdHelper env (StorageVersion cfg)) as [e|];
      [|destruct (kmaster_NewEtcdHelper env) as [e|]; [|tauto]];
      apply Hrun in Hm as [_ ->]; unfold caInits in *; read_trace; rewrite Hc;
      destruct (negb (flagtypes.Provided (EtcdAddr cfg))); read_trace; reflexivity.
  - exact Hstore.
Qed.

Lemma start_storage_error_witness :
  outcome (start Failing.envNoStorage Scenario.cfgA ["master"] 0%nat)
  = Err "Error setting up server storage: unsupported storage version"
  /\ launches (trace (start Failing.envNoStorage Scenario.cfgA ["master"] 0%nat)) = []
  /\ storesRun (trace (start Failing.envNoStorage Scenario.cfgA ["master"] 0%nat))
     = [etcd.mkConfig "0.0.0.0" "0.0.0.0" "10.0.0.5:4001" "openshift.local.etcd"].
Proof.
  destruct (start_storage_error Failing.envNoStorage Scenario.cfgA ["master"] 0%nat
              (fst (defaultMasterAddress Failing.envNoStorage Scenario.cfgA))
              "http://10.0.0.5:4001" (or_intror eq_refl) eq_refl eq_refl)
    as (Hout & _ & Hrest).
  destruct Hrest as (Hl & _ & Hs); [left; discriminate|].
  split; [exact (Hout "unsupported storage version" eq_refl)|].
  split; [exact Hl | exact Hs].
Defined.

(** ** What a role leaves alone *)

(** X7: [start node] does nothing of what a master does, whatever comes
    of it: no certificate authority, no identity, no embedded store, no
    CORS list, no master or Kubernetes master configuration; it launches
    none but the node's components and passes the readiness gate at most
    once. *)
Theorem start_node_never_masters env cfg n :
  let t := trace (start env cfg ["node"] n) in
  caInits t = [] /\ issued t = [] /\ storesRun t = [] /\ corsHanded t = []
  /\ clientsBuilt t = [] /\ kubeMasters t = [] /\ authConfigs t = []
  /\ (launches t = [] \/ launches t = nodeLaunches)
  /\ (length (probed t) <= 102)%nat.
Proof.
  intros t. subst t.
  destruct (defaultMasterAddress env cfg) as [cfg0 [e|]] eqn:Hd.
  { rewrite (start_defaulting_error env cfg ["node"] n cfg0 e Hd) by tauto.
    cbn. repeat split; auto. lia. }
  rewrite (start_node_run env cfg n cfg0 Hd). cbv zeta.
  destruct (getEtcdClient_trace env cfg0 n) as (k & Hk & Htg).
  destruct (getEtcdClient env cfg0 n) as [[tg n1] [client|e]];
    unfold trace in *; cbn [fst] in *; subst tg;
    unfold caInits, issued, storesRun, corsHanded, clientsBuilt, kubeMasters,
      authConfigs, launches, probed;
    repeat split; read_trace; try reflexivity; auto;
    rewrite repeat_length; unfold pollBound in Hk; lia.
Qed.

(** ** The node's configuration *)

Lemma env_default env key defaultValue :
  (Getenv env key = "" -> env_ env key defaultValue = defaultValue)
  /\ (Getenv env key <> "" -> env_ env key defaultValue = Getenv env key).
Proof.
  unfold env_. destruct (Getenv env key) as [|a s]; split; auto; congruence.
Qed.

(** X8: a run with a node that has come up has built one node
    configuration: it names the node by the configured host name, binds
    to the listen address's host, points to the master's defaulted
    address, and takes the network container image from the environment
    variable KUBERNETES_NETWORK_CONTAINER_IMAGE when that is set and not
    empty, and the kubelet's default otherwise. *)
Theorem start_node_config env cfg args n t n' :
  start env cfg args n = ((t, n'), Ok tt) ->
  args = [] \/ args = ["node"] ->
  exists cfg0 c,
    defaultMasterAddress env cfg = (cfg0, None)
    /\ nodeConfigs t = [c]
    /\ kubernetes.NodeHost c = Hostname cfg
    /\ kubernetes.BindHost c = flagtypes.Host (BindAddr cfg)
    /\ kubernetes.NodeMasterHost c = url.String (flagtypes.URL (MasterAddr cfg0))
    /\ kubernetes.VolumeDir c = VolumeDir cfg
    /\ kubernetes.MasterServiceNamespace c = MasterServiceNamespace cfg
    /\ (Getenv env "KUBERNETES_NETWORK_CONTAINER_IMAGE" = "" ->
        kubernetes.NetworkContainerImage c = kubelet_NetworkContainerImage env)
    /\ (Getenv env "KUBERNETES_NETWORK_CONTAINER_IMAGE" <> "" ->
        kubernetes.NetworkContainerImage c
        = Getenv env "KUBERNETES_NETWORK_CONTAINER_IMAGE").
Proof.
  intros H Hargs.
  assert (Hshape : exists cfg0 cfgN,
             defaultMasterAddress env cfg = (cfg0, None)
             /\ nodeConfigs t = [nodeConfig env cfgN]
             /\ (cfgN = withKube cfg0 \/ cfgN = settled cfg cfg0)).
  { destruct Hargs as [ -> | -> ].
    - destruct (start_master_Ok _ _ _ _ _ _ H (or_introl eq_refl))
        as (cfg0 & line & k & tb & n1 & n2 & m & roots & tn
            & Hd & Hk & Hb & _ & Ha & ->).
      destruct (Ha eq_refl) as (k' & _ & ->).
      apply bootstrapTrust_Ok_trace in Hb. subst tb.
      exists cfg0, (settled cfg cfg0). repeat split; auto.
      unfold nodeConfigs, masterTail. read_trace.
      rewrite select_trustCalls by reflexivity.
      destruct (embeddedKube cfg), (negb (flagtypes.Provided (EtcdAddr cfg)));
        read_trace; reflexivity.
    - apply start_node_Ok in H as (cfg0 & line & k & Hd & _ & ->).
      exists cfg0, (withKube cfg0). repeat split; auto.
      unfold nodeConfigs. read_trace. reflexivity. }
  destruct Hshape as (cfg0 & cfgN & Hd & Hc & HN).
  pose proof (defaultMasterAddress_node_fields env cfg) as F.
  rewrite Hd in F. cbn [fst] in F. destruct F as (Fb & Fh & Fv & Fs).
  exists cfg0, (nodeConfig env cfgN). split; [exact Hd|]. split; [exact Hc|].
  assert (Hfields : Hostname cfgN = Hostname cfg /\ BindAddr cfgN = BindAddr cfg
                    /\ MasterAddr cfgN = MasterAddr cfg0
                    /\ VolumeDir cfgN = VolumeDir cfg
                    /\ MasterServiceNamespace cfgN = MasterServiceNamespace cfg).
  { destruct HN as [ -> | -> ]; unfold settled, withKube;
      destruct (embeddedKube cfg0); cbn; repeat split; assumption. }
  destruct Hfields as (Hh & Hb' & Hm & Hv & Hs).
  unfold nodeConfig. cbn [kubernetes.NodeHost kubernetes.BindHost
    kubernetes.NodeMasterHost kubernetes.VolumeDir
    kubernetes.MasterServiceNamespace kubernetes.NetworkContainerImage].
  rewrite Hh, Hb', Hm, Hv, Hs.
  repeat split; apply env_default.
Qed.

Lemma start_node_config_witness :
  exists c,
    nodeConfigs (trace (start Scenario.env Scenario.cfgC ["node"] 0%nat)) = [c]
    /\ kubernetes.NodeHost c = "node1.example.com"
    /\ kubernetes.NetworkContainerImage c = "kubernetes/pause:latest".
Proof.
  assert (Hrun : start Scenario.env Scenario.cfgC ["node"] 0%nat
                 = ((trace (start Scenario.env Scenario.cfgC ["node"] 0%nat), 3%nat),
                    Ok tt))
    by (vm_compute; reflexivity).
  destruct (start_node_config Scenario.env Scenario.cfgC ["node"] 0%nat _ _ Hrun
              (or_intror eq_refl))
    as (cfg0 & c & _ & Hc & Hh & _ & _ & _ & _ & Himg & _).
  exists c. repeat split; [exact Hc | exact Hh | exact (Himg eq_refl)].
Defined.

(** ** Defaults and discovery *)

(** X9: started without any address flag on a host whose routable
    address is [ip], the defaulting gives the master address
    https://ip:8443 and the store address http://ip:4001, whatever the
    address. *)
Theorem default_addresses env hostname namespace ip :
  DefaultLocalIP4 env = Ok ip ->
  exists cfg',
    defaultMasterAddress env (initialConfig hostname namespace) = (cfg', None)
    /\ flagtypes.Host (MasterAddr cfg') = net.String ip
    /\ flagtypes.Port (MasterAddr cfg') = 8443
    /\ flagtypes.String (MasterAddr cfg') = "https://" ++ net.String ip ++ ":8443"
    /\ flagtypes.Host (EtcdAddr cfg') = net.String ip
    /\ flagtypes.Port (EtcdAddr cfg') = 4001
    /\ flagtypes.String (EtcdAddr cfg') = "http://" ++ net.String ip ++ ":4001".
Proof.
  intros Hip.
  assert (Hp1 : validPort 8443) by (unfold validPort; lia).
  assert (Hp2 : validPort 4001) by (unfold validPort; lia).
  rewrite (defaultMasterAddress_unset env (initialConfig hostname namespace) ip
             eq_refl Hip (or_intror (or_introl eq_refl)) Hp1).
  cbn [initialConfig EtcdAddr flagtypes.Provided flagtypes.DefaultPort].
  rewrite (AddrLemmas.Set_hostport _ _ _ (AddrLemmas.IP_plain ip) Hp2).
  eexists. split; [reflexivity|].
  cbn. rewrite !GoStrLemmas.append_nil_r. repeat split; reflexivity.
Qed.

Lemma default_addresses_witness :
  exists cfg',
    defaultMasterAddress Scenario.env (initialConfig "node1.example.com" "default")
    = (cfg', None)
    /\ flagtypes.String (MasterAddr cfg') = "https://10.0.0.5:8443"
    /\ flagtypes.String (EtcdAddr cfg') = "http://10.0.0.5:4001".
Proof.
  destruct (default_addresses Scenario.env "node1.example.com" "default"
              Scenario.localIP eq_refl)
    as (cfg' & Hd & _ & _ & Hm & _ & _ & He).
  exists cfg'. repeat split; [exact Hd | exact Hm | exact He].
Defined.

Lemma bind_ext {A B} (m1 m2 : M A) (f1 f2 : A -> M B) n :
  m1 n = m2 n -> (forall a k, f1 a k = f2 a k) -> bind m1 f1 n = bind m2 f2 n.
Proof.
  intros Hm Hf. unfold bind. rewrite Hm.
  destruct (m2 n) as [[t1 n1] [a|e]]; [|reflexivity]. now rewrite Hf.
Qed.

Lemma poll_withLocalIP r env server fuel i n :
  poll (withLocalIP r env) server fuel i n = poll env server fuel i n.
Proof.
  revert i n. induction fuel as [|fuel IH]; intros i n; [reflexivity|].
  cbn [poll]. unfold bind, etcdGet. cbn [etcd_Get withLocalIP].
  destruct (etcd_Get env n server); try reflexivity.
  destruct (i >? 100); [reflexivity|].
  unfold emit. now rewrite IH.
Qed.

Lemma getEtcdClient_withLocalIP r env cfg n :
  getEtcdClient (withLocalIP r env) cfg n = getEtcdClient env cfg n.
Proof. unfold getEtcdClient, bind. now rewrite poll_withLocalIP. Qed.

(** X10: with an explicit master address the address discovery plays no
    part: a run of [start] goes the same way whatever the discovery would
    have found, or failed to find. *)
Theorem start_ignores_discovery r env cfg args n :
  flagtypes.Provided (MasterAddr cfg) = true ->
  start (withLocalIP r env) cfg args n = start env cfg args n.
Proof.
  intros Hm.
  assert (Hd : defaultMasterAddress (withLocalIP r env) cfg
               = defaultMasterAddress env cfg)
    by (unfold defaultMasterAddress; now rewrite Hm).
  assert (Hr : resolveRoles (withLocalIP r env) cfg args n
               = resolveRoles env cfg args n)
    by (rewrite !resolveRoles_run; unfold resolved; now rewrite Hd).
  assert (Hmaster : forall se sk c k,
            runMaster (withLocalIP r env) se sk c k = runMaster env se sk c k).
  { intros se sk c k. rewrite !runMaster_run. cbv zeta.
    now rewrite getEtcdClient_withLocalIP. }
  assert (Hnode : forall c k, runNode (withLocalIP r env) c k = runNode env c k).
  { intros c k. rewrite !runNode_run. now rewrite getEtcdClient_withLocalIP. }
  unfold start. apply bind_ext; [exact Hr|]. intros [rl cfg0] k.
  apply bind_ext; [destruct (startMaster rl); [apply Hmaster | reflexivity]|].
  intros cfgM k'.
  apply bind_ext; [destruct (startNode rl); [apply Hnode | reflexivity]|].
  reflexivity.
Qed.

Lemma start_ignores_discovery_witness :
  start Failing.envNoAddress Scenario.cfgC ["node"] 0%nat
  = start Scenario.env Scenario.cfgC ["node"] 0%nat.
Proof.
  exact (start_ignores_discovery (Err "no suitable address found") Scenario.env
           Scenario.cfgC ["node"] 0%nat eq_refl).
Defined.

(** ** The embedded store *)

(** X11: a run with a master whose addresses cannot be defaulted does
    nothing at all.  Otherwise it starts a store of its own exactly when
    no store address was given, whatever comes of the run afterwards: it
    starts it once, bound to the listen address's host, advertised under
    the defaulted store address and kept in the configured directory, and
    it does so before the store is probed and before anything is
    launched. *)
Theorem start_embedded_store env cfg args n :
  args = [] \/ args = ["master"] ->
  let t := trace (start env cfg args n) in
  match defaultMasterAddress env cfg with
  | (_, Some err) => t = [] /\ outcome (start env cfg args n) = Err err
  | (cfg0, None) =>
      let store :=
        etcd.mkConfig (flagtypes.Host (BindAddr cfg)) (flagtypes.Host (BindAddr cfg))
          (url.Host (flagtypes.URL (EtcdAddr cfg0))) (EtcdDir cfg) in
      (flagtypes.Provided (EtcdAddr cfg) = true -> storesRun t = [])
      /\ (flagtypes.Provided (EtcdAddr cfg) = false ->
          storesRun t = [store]
          /\ exists before after,
              t = (before ++ EtcdRun store :: after)%list
              /\ probed before = [] /\ launches before = [] /\ caInits before = []
              /\ storesRun after = [])
  end.
Proof.
  intros Hargs t. subst t.
  destruct (defaultMasterAddress env cfg) as [cfg0 [e|]] eqn:Hd.
  { rewrite (start_defaulting_error env cfg args n cfg0 e Hd) by tauto.
    split; reflexivity. }
  cbv zeta. fold (ownStore cfg cfg0).
  destruct (start_master_head env cfg args n cfg0 Hargs Hd)
    as (line & rest & -> & Hrest).
  split; intros Hp; rewrite Hp.
  - unfold storesRun in *. read_trace. exact Hrest.
  - split.
    + unfold storesRun in *. read_trace. now rewrite Hrest.
    + exists (Infof line :: nodeLog (masterNodeList cfg))%list, rest.
      split; [|split; [|split; [|split]]].
      * reflexivity.
      * unfold probed. read_trace. reflexivity.
      * unfold launches. read_trace. reflexivity.
      * unfold caInits. read_trace. reflexivity.
      * exact Hrest.
Qed.

Lemma start_embedded_store_witness :
  storesRun (trace (start Scenario.envDown Scenario.cfgA ["master"] 0%nat))
  = [etcd.mkConfig "0.0.0.0" "0.0.0.0" "10.0.0.5:4001" "openshift.local.etcd"]
  /\ storesRun (trace (start Scenario.env Scenario.cfgExternalStore ["master"] 0%nat))
     = []
  /\ trace (start Failing.envNoAddress Scenario.cfgA ["master"] 0%nat) = [].
Proof.
  pose proof (start_embedded_store Scenario.envDown Scenario.cfgA ["master"] 0%nat
                (or_intror eq_refl)) as H1.
  pose proof (start_embedded_store Scenario.env Scenario.cfgExternalStore ["master"]
                0%nat (or_intror eq_refl)) as H2.
  pose proof (start_embedded_store Failing.envNoAddress Scenario.cfgA ["master"] 0%nat
                (or_intror eq_refl)) as H3.
  vm_compute in H1. vm_compute in H2. vm_compute in H3.
  split; [exact (proj1 (proj2 H1 eq_refl))|].
  split; [exact (proj1 H2 eq_refl) | exact (proj1 H3)].
Defined.

(** ** What a master is given *)

(** With TLS, the master configuration after a bootstrap that went
    through carries the one server certificate twice. *)
Lemma bootstrapTrust_tls_config env sk cfg osmaster n t n' m roots :
  origin.TLS osmaster = true ->
  bootstrapTrust env sk cfg osmaster n = ((t, n'), Ok (m, roots)) ->
  exists ca cert,
    InitCA env (CertDir cfg) (caName env cfg) = Ok ca
    /\ MakeServerCert env ca "master" (serverHosts cfg) = Ok cert
    /\ roots = Some (crypto.Roots ca)
    /\ origin.MasterCertFile m = crypto.CertFile cert
    /\ origin.MasterKeyFile m = crypto.KeyFile cert
    /\ origin.AssetCertFile m = crypto.CertFile cert
    /\ origin.AssetKeyFile m = crypto.KeyFile cert.
Proof.
  intros Htls H. unfold bootstrapTrust in H. rewrite Htls in H.
  fold (caName env cfg) in H. fold (serverHosts cfg) in H.
  unfold makeClientConfig, bind, emit, lift, ret, fail in H.
  destruct (InitCA env (CertDir cfg) (caName env cfg)) as [ca|e] eqn:Hca;
    [|discriminate H].
  destruct (MakeServerCert env ca "master" (serverHosts cfg)) as [cert|e] eqn:Hcert;
    [|discriminate H].
  destruct (MakeClientConfig env ca "openshift-client" _) as [os|e]; [|discriminate H].
  destruct (MakeClientConfig env ca "openshift-deployer" _) as [dep|e];
    [|discriminate H].
  destruct (MakeClientConfig env ca "admin" _) as [adm|e]; [|discriminate H].
  exists ca, cert.
  destruct sk.
  - cbn [origin.KubeClientConfig with_serverCert] in H.
    destruct (MakeClientConfig env ca "kube-client" _) as [kube|e]; [|discriminate H].
    cbn in H. injection H as _ _ <- <-. repeat split; reflexivity || assumption.
  - cbn in H. injection H as _ _ <- <-. repeat split; reflexivity || assumption.
Qed.

(** A master that has come up: the configurations it was given. *)
Lemma start_master_built env cfg args n t n' :
  start env cfg args n = ((t, n'), Ok tt) ->
  args = [] \/ args = ["master"] ->
  exists cfg0 tb n1 n2 m roots,
    defaultMasterAddress env cfg = (cfg0, None)
    /\ bootstrapTrust env (embeddedKube cfg) (settled cfg cfg0)
         (newMasterConfig env (embeddedKube cfg) (settled cfg cfg0)) n1
       = ((tb, n2), Ok (m, roots))
    /\ clientsBuilt t = [m]
    /\ authConfigs t
       = [origin.mkAuthConfig (url.String (flagtypes.URL (MasterAddr cfg0)))
            roots ["secret"]]
    /\ serverCerts t
       = if String.eqb (url.Scheme (flagtypes.URL (MasterAddr cfg0))) "https"
         then [("master",
                [flagtypes.Host (MasterAddr cfg0); "localhost"; "127.0.0.1";
                 "172.17.42.1"])]
         else [].
Proof.
  intros H Hargs.
  destruct (start_master_Ok _ _ _ _ _ _ H Hargs)
    as (cfg0 & line & k & tb & n1 & n2 & m & roots & tn & Hd & Hk & Hb & Hm & Ha & ->).
  destruct (settled_fields cfg cfg0) as (Sm & _).
  assert (Htn : clientsBuilt tn = [] /\ authConfigs tn = [] /\ serverCerts tn = []).
  { destruct Hargs as [Hn|Hn]; [|now rewrite (Hm Hn)].
    destruct (Ha Hn) as (k' & _ & ->). unfold clientsBuilt, authConfigs, serverCerts.
    repeat split; read_trace; reflexivity. }
  destruct Htn as (H1 & H2 & H3).
  exists cfg0, tb, n1, n2, m, roots. split; [exact Hd|]. split; [exact Hb|].
  apply bootstrapTrust_Ok_trace in Hb. subst tb.
  repeat split.
  - unfold clientsBuilt, masterTail in *. read_trace.
    rewrite select_trustCalls by reflexivity. rewrite H1.
    destruct (embeddedKube cfg), (negb (flagtypes.Provided (EtcdAddr cfg)));
      read_trace; reflexivity.
  - unfold authConfigs, masterTail in *. read_trace.
    rewrite select_trustCalls by reflexivity. rewrite H2, Sm.
    destruct (embeddedKube cfg), (negb (flagtypes.Provided (EtcdAddr cfg)));
      read_trace; reflexivity.
  - unfold serverCerts in *. read_trace.
    rewrite select_masterTail_none by reflexivity. rewrite H3.
    cbn [origin.TLS newMasterConfig]. rewrite Sm.
    destruct (String.eqb (url.Scheme (flagtypes.URL (MasterAddr cfg0))) "https");
      unfold trustCalls, serverHosts; rewrite ?Sm;
      destruct (embeddedKube cfg), (negb (flagtypes.Provided (EtcdAddr cfg)));
      read_trace; reflexivity.
Qed.

(** X12: a master that has come up under "https" serves the API and the
    assets with one and the same certificate, made out under the name
    "master" for the master's host, "localhost", "127.0.0.1" and
    "172.17.42.1", and trusts the roots of the certificate authority it
    set up; under any other scheme it has no certificate, no key and no
    roots. *)
Theorem start_master_certificates env cfg args n t n' :
  start env cfg args n = ((t, n'), Ok tt) ->
  args = [] \/ args = ["master"] ->
  exists cfg0 m auth,
    defaultMasterAddress env cfg = (cfg0, None)
    /\ clientsBuilt t = [m] /\ authConfigs t = [auth]
    /\ origin.AssetCertFile m = origin.MasterCertFile m
    /\ origin.AssetKeyFile m = origin.MasterKeyFile m
    /\ let hosts :=
         [flagtypes.Host (MasterAddr cfg0); "localhost"; "127.0.0.1"; "172.17.42.1"] in
       if String.eqb (url.Scheme (flagtypes.URL (MasterAddr cfg0))) "https" then
         serverCerts t = [("master", hosts)]
         /\ exists ca cert,
             InitCA env (CertDir cfg)
               (flagtypes.Host (MasterAddr cfg0) ++ "@" ++ GoStr.Itoa (time_Now_Unix env))
             = Ok ca
             /\ MakeServerCert env ca "master" hosts = Ok cert
             /\ origin.MasterCertFile m = crypto.CertFile cert
             /\ origin.MasterKeyFile m = crypto.KeyFile cert
             /\ origin.MasterRoots auth = Some (crypto.Roots ca)
       else
         serverCerts t = []
         /\ origin.MasterCertFile m = "" /\ origin.MasterKeyFile m = ""
         /\ origin.MasterRoots auth = None.
Proof.
  intros H Hargs.
  destruct (start_master_built _ _ _ _ _ _ H Hargs)
    as (cfg0 & tb & n1 & n2 & m & roots & Hd & Hb & Hm & Ha & Hs).
  destruct (frame_of _ _ _ _ Hd) as (_ & _ & _ & _ & _ & Fd & _).
  destruct (settled_fields cfg cfg0) as (Sm & _ & _ & _ & _ & Sd).
  assert (Htls : origin.TLS (newMasterConfig env (embeddedKube cfg) (settled cfg cfg0))
                 = String.eqb (url.Scheme (flagtypes.URL (MasterAddr cfg0))) "https")
    by (cbn [origin.TLS newMasterConfig]; now rewrite Sm).
  exists cfg0, m, (origin.mkAuthConfig (url.String (flagtypes.URL (MasterAddr cfg0)))
                     roots ["secret"]).
  split; [exact Hd|]. split; [exact Hm|]. split; [exact Ha|]. cbv zeta.
  destruct (String.eqb (url.Scheme (flagtypes.URL (MasterAddr cfg0))) "https").
  - apply bootstrapTrust_tls_config in Hb
      as (ca & cert & Hca & Hcert & -> & Hc1 & Hk1 & Hc2 & Hk2); [|exact Htls].
    unfold caName, serverHosts in *. rewrite Sm, Sd, Fd in *.
    repeat split; try congruence.
    exists ca, cert. repeat split; assumption.
  - rewrite bootstrapTrust_plain in Hb by exact Htls.
    injection Hb as _ _ <- <-. repeat split; reflexivity || assumption.
Qed.

Lemma start_master_certificates_witness :
  exists m,
    clientsBuilt (trace (start Scenario.env Scenario.cfgA ["master"] 0%nat)) = [m]
    /\ origin.AssetCertFile m = origin.MasterCertFile m
    /\ origin.AssetKeyFile m = origin.MasterKeyFile m.
Proof.
  assert (Hrun : start Scenario.env Scenario.cfgA ["master"] 0%nat
                 = ((trace (start Scenario.env Scenario.cfgA ["master"] 0%nat), 3%nat),
                    Ok tt))
    by (vm_compute; reflexivity).
  destruct (start_master_certificates Scenario.env Scenario.cfgA ["master"] 0%nat
              _ _ Hrun (or_intror eq_refl))
    as (cfg0 & m & auth & _ & Hm & _ & Hc & Hk & _).
  exists m. repeat split; assumption.
Defined.

(** X13: a master that has come up under "https" uses for the OpenShift
    client and for the deployer the configurations that the certificate
    authority it has set up (the result of [InitCA] for this run's
    certificate directory and name) made from one template (the master
    address, no credentials); for Kubernetes it uses a configuration made
    by that same authority under the name "kube-client" when Kubernetes
    runs in this process, and a configuration without credentials at the
    given Kubernetes address when it does not. *)
Theorem start_tls_clients env cfg args n t n' :
  start env cfg args n = ((t, n'), Ok tt) ->
  args = [] \/ args = ["master"] ->
  exists cfg0 m,
    defaultMasterAddress env cfg = (cfg0, None)
    /\ clientsBuilt t = [m]
    /\ let masterURL := url.String (flagtypes.URL (MasterAddr cfg0)) in
       let template := kclient.mkConfig masterURL (latest_Version env) None in
       (url.Scheme (flagtypes.URL (MasterAddr cfg0)) = "https" ->
        caInits t
        = [(CertDir cfg,
            flagtypes.Host (MasterAddr cfg0) ++ "@" ++ GoStr.Itoa (time_Now_Unix env))]
        /\ exists ca,
            InitCA env (CertDir cfg)
              (flagtypes.Host (MasterAddr cfg0) ++ "@" ++ GoStr.Itoa (time_Now_Unix env))
            = Ok ca
            /\ MakeClientConfig env ca "openshift-client" template
               = Ok (origin.OSClientConfig m)
            /\ MakeClientConfig env ca "openshift-deployer" template
               = Ok (origin.DeployerOSClientConfig m)
            /\ (flagtypes.Provided (KubernetesAddr cfg) = false ->
                MakeClientConfig env ca "kube-client"
                  (kclient.mkConfig masterURL (klatest_Version env) None)
                = Ok (origin.KubeClientConfig m))
            /\ (flagtypes.Provided (KubernetesAddr cfg) = true ->
                origin.KubeClientConfig m
                = kclient.mkConfig (url.String (flagtypes.URL (KubernetesAddr cfg)))
                    (klatest_Version env) None)).
Proof.
  intros H Hargs.
  destruct (start_master_Ok _ _ _ _ _ _ H Hargs)
    as (cfg0' & line & k & tb' & n1' & n2' & m' & roots' & tn & Hd' & Hk & Hb' & Hm'
        & Ha' & Ht).
  destruct (start_master_built _ _ _ _ _ _ H Hargs)
    as (cfg0 & tb & n1 & n2 & m & roots & Hd & Hb & Hm & _ & _).
  destruct (frame_of _ _ _ _ Hd) as (_ & Fk & _ & _ & _ & Fd & _).
  destruct (settled_fields cfg cfg0) as (Sm & _ & _ & _ & Sk & Sd).
  pose proof (embeddedKube_defaulted _ _ _ _ Hd) as Hemb.
  assert (Htls : origin.TLS (newMasterConfig env (embeddedKube cfg) (settled cfg cfg0))
                 = String.eqb (url.Scheme (flagtypes.URL (MasterAddr cfg0))) "https")
    by (cbn [origin.TLS newMasterConfig]; now rewrite Sm).
  exists cfg0, m. split; [exact Hd|]. split; [exact Hm|]. cbv zeta.
  intros Hs. rewrite Hs in Htls. cbn [String.eqb Ascii.eqb Bool.eqb] in Htls.
  split.
  { rewrite Hd in Hd'. injection Hd' as <-.
    assert (Htb : tb' = trustCalls env (embeddedKube cfg) (settled cfg cfg0)
                          (newMasterConfig env (embeddedKube cfg) (settled cfg cfg0))).
    { apply bootstrapTrust_Ok_trace in Hb'. now rewrite Htls in Hb'. }
    assert (Htn : caInits tn = []).
    { destruct Hargs as [ -> | -> ].
      - destruct (Ha' eq_refl) as (k' & _ & ->). unfold caInits. read_trace.
        reflexivity.
      - now rewrite (Hm' eq_refl). }
    rewrite Ht, Htb. unfold caInits in *. unfold trustCalls. read_trace.
    rewrite select_masterTail_none by reflexivity. rewrite Htn.
    unfold caName. rewrite Sm, Sd, Fd.
    destruct (negb (flagtypes.Provided (EtcdAddr cfg))), (embeddedKube cfg);
      read_trace; reflexivity. }
  apply bootstrapTrust_tls in Hb as (_ & _ & ca & cert & os & dep & adm
      & Hca & _ & Hos & Hdep & _ & _ & <- & <- & Hkube); [|exact Htls].
  exists ca. unfold osClientConfig, caName in *. rewrite Sm in *.
  rewrite Sd, Fd in Hca.
  split; [exact Hca|]. split; [exact Hos|]. split; [exact Hdep|]. split.
  - intros Hp. unfold embeddedKube in Hkube. rewrite Hp in Hkube. cbn [negb] in Hkube.
    cbn [origin.KubeClientConfig newMasterConfig kubeClientConfig] in Hkube.
    now rewrite Sm in Hkube.
  - intros Hp. unfold embeddedKube in Hkube. rewrite Hp in Hkube. cbn [negb] in Hkube.
    rewrite Hkube. cbn [origin.KubeClientConfig newMasterConfig kubeClientConfig].
    rewrite Sk. unfold embeddedKube. rewrite Fk, Hp. reflexivity.
Qed.

Lemma start_tls_clients_witness :
  exists m,
    clientsBuilt (trace (start Scenario.env Scenario.cfgA ["master"] 0%nat)) = [m]
    /\ MakeClientConfig Scenario.env (crypto.mkCA ["ca.crt"]) "kube-client"
         (kclient.mkConfig "https://10.0.0.5:8443" "v1beta1" None)
       = Ok (origin.KubeClientConfig m)
    /\ MakeClientConfig Scenario.env (crypto.mkCA ["ca.crt"]) "openshift-deployer"
         (kclient.mkConfig "https://10.0.0.5:8443" "v1beta1" None)
       = Ok (origin.DeployerOSClientConfig m).
Proof.
  assert (Hrun : start Scenario.env Scenario.cfgA ["master"] 0%nat
                 = ((trace (start Scenario.env Scenario.cfgA ["master"] 0%nat), 3%nat),
                    Ok tt))
    by (vm_compute; reflexivity).
  destruct (start_tls_clients Scenario.env Scenario.cfgA ["master"] 0%nat
              _ _ Hrun (or_intror eq_refl))
    as (cfg0 & m & Hd & Hm & Hcl).
  exists m. split; [exact Hm|].
  vm_compute in Hd. injection Hd as <-.
  destruct (Hcl eq_refl) as (_ & ca & Hca & _ & Hdep & Hk & _).
  injection Hca as <-.
  split; [exact (Hk eq_refl) | exact Hdep].
Defined.

(** A gate that lets the run through has stopped at the first ready
    answer. *)
Lemma getEtcdClient_Ok_first env cfg n tg n1 client :
  getEtcdClient env cfg n = ((tg, n1), Ok client) ->
  let store := url.String (flagtypes.URL (EtcdAddr cfg)) in
  exists k,
    firstReady env store n pollBound = Some k
    /\ tg = gatePass store k /\ n1 = (n + k + 1)%nat.
Proof.
  intros H store. rewrite getEtcdClient_run in H. cbv zeta in H. fold store in H.
  destruct (firstReady env store n pollBound) as [k|]; [|discriminate H].
  injection H as <- <- _. now exists k.
Qed.

Lemma getEtcdClient_store env c1 c2 n :
  EtcdAddr c1 = EtcdAddr c2 -> getEtcdClient env c1 n = getEtcdClient env c2 n.
Proof. intros H. unfold getEtcdClient. now rewrite H. Qed.

(** The certificate bootstrap probes nothing. *)
Lemma bootstrapTrust_counter env sk cfg om n tb n2 m roots :
  bootstrapTrust env sk cfg om n = ((tb, n2), Ok (m, roots)) -> n2 = n.
Proof.
  intros H. destruct (origin.TLS om) eqn:Htls.
  - now apply bootstrapTrust_tls in H as (_ & -> & _).
  - rewrite bootstrapTrust_plain in H by assumption. now injection H as _ <- _.
Qed.

(** X14: an all-in-one run that has come up has passed the readiness
    gate twice, each time against the one defaulted store address and
    each time up to the first probe answered: once in the master block,
    ahead of the certificate bootstrap and of every launch, and once in
    the node block, after the last of the master's launches and ahead of
    the node's configuration and launches.  Nothing else in the run
    probes the store. *)
Theorem start_all_in_one_gates env cfg n t n' :
  start env cfg [] n = ((t, n'), Ok tt) ->
  exists cfg0 k k' before middle after,
    defaultMasterAddress env cfg = (cfg0, None)
    /\ let store := url.String (flagtypes.URL (EtcdAddr cfg0)) in
       t = (before ++ gatePass store k ++ middle ++ gatePass store k' ++ after)%list
       /\ firstReady env store n pollBound = Some k
       /\ firstReady env store (n + k + 1) pollBound = Some k'
       /\ n' = (n + k + 1 + k' + 1)%nat
       /\ probed before = [] /\ launches before = [] /\ caInits before = []
       /\ probed middle = []
       /\ launches middle = masterLaunches (embeddedKube cfg)
       /\ nodeConfigs (before ++ gatePass store k ++ middle) = []
       /\ probed after = []
       /\ launches after = nodeLaunches
       /\ probed t = (repeat store (S k) ++ repeat store (S k'))%list.
Proof.
  intros H.
  apply start_Ok in H as (t0 & rl & cfg0 & tm & n1 & cfgM & tn & Hr & Hm & Hn & ->).
  rewrite resolveRoles_run in Hr.
  apply resolved_Ok in Hr as (Hd & -> & _ & ->).
  cbn [startMaster startNode startEtcd] in Hm, Hn.
  pose proof (embeddedKube_defaulted _ _ _ _ Hd) as Hemb.
  apply runMaster_Ok in Hm as (tg & ng & client & tb & m & roots & Hg & Hb & -> & ->).
  pose proof (bootstrapTrust_counter _ _ _ _ _ _ _ _ _ Hb) as ->.
  pose proof (bootstrapTrust_Ok_trace _ _ _ _ _ _ _ _ _ Hb) as Htb.
  set (cfg1 := set_NodeList (masterNodeList (withKube cfg0)) (withKube cfg0)) in *.
  set (cfg2 := set_CORSAllowedOrigins (corsAllowedOrigins cfg1) cfg1) in *.
  assert (He1 : EtcdAddr cfg1 = EtcdAddr cfg0)
    by (unfold cfg1, withKube; now destruct (embeddedKube cfg0)).
  assert (He2 : EtcdAddr cfg2 = EtcdAddr cfg0) by exact He1.
  apply getEtcdClient_Ok_first in Hg as (k & Hk & -> & ->).
  rewrite He1 in Hk |- *.
  rewrite runNode_run in Hn.
  destruct (getEtcdClient env cfg2 (n + k + 1)%nat) as [[tg' n3] [c|e]] eqn:Hg';
    [|discriminate Hn].
  apply getEtcdClient_Ok_first in Hg' as (k' & Hk' & -> & ->).
  rewrite He2 in Hk', Hn. injection Hn as <- <-.
  set (store := url.String (flagtypes.URL (EtcdAddr cfg0))) in *.
  exists cfg0, k, k',
    (Infof ("Starting an OpenShift all-in-one, reachable at " ++ addresses cfg0)
     :: nodeLog (NodeList cfg1)
     ++ (if negb (flagtypes.Provided (EtcdAddr cfg))
         then [EtcdRun (etcdConfig cfg1)] else []))%list,
    (tb ++ masterTail (embeddedKube cfg0) cfg2 m roots)%list,
    (NodeConfigured (nodeConfig env cfg2) :: map Launch nodeLaunches ++ [Park])%list.
  split; [exact Hd|]. cbv zeta. fold store.
  split.
  { cbn [List.app]. f_equal.
    repeat (rewrite <- app_assoc; cbn [List.app]). reflexivity. }
  split; [exact Hk|]. split; [exact Hk'|]. split; [reflexivity|].
  subst tb. unfold gatePass.
  split; [unfold probed; read_trace;
          destruct (negb (flagtypes.Provided (EtcdAddr cfg))); reflexivity|].
  split; [unfold launches; read_trace;
          destruct (negb (flagtypes.Provided (EtcdAddr cfg))); reflexivity|].
  split; [unfold caInits; read_trace;
          destruct (negb (flagtypes.Provided (EtcdAddr cfg))); reflexivity|].
  split.
  { unfold probed. read_trace. rewrite select_trustCalls by reflexivity.
    now rewrite select_masterTail_none by reflexivity. }
  split.
  { unfold launches. read_trace. rewrite select_trustCalls by reflexivity.
    unfold masterTail. read_trace. rewrite Hemb.
    destruct (embeddedKube cfg); read_trace; reflexivity. }
  split.
  { unfold nodeConfigs. read_trace. rewrite select_trustCalls by reflexivity.
    rewrite select_masterTail_none by reflexivity.
    destruct (negb (flagtypes.Provided (EtcdAddr cfg))); reflexivity. }
  split; [unfold probed; read_trace; reflexivity|].
  split; [unfold launches; read_trace; reflexivity|].
  unfold probed. read_trace. rewrite select_trustCalls by reflexivity.
  rewrite select_masterTail_none by reflexivity.
  destruct (negb (flagtypes.Provided (EtcdAddr cfg))); read_trace; reflexivity.
Qed.

Lemma start_all_in_one_gates_witness :
  exists before middle after,
    trace (start Scenario.env Scenario.cfgA [] 0%nat)
    = (before ++ gatePass "http://10.0.0.5:4001" 2 ++ middle
       ++ gatePass "http://10.0.0.5:4001" 0 ++ after)%list
    /\ launches before = []
    /\ launches middle = masterLaunches true
    /\ launches after = nodeLaunches.
Proof.
  assert (Hrun : start Scenario.env Scenario.cfgA [] 0%nat
                 = ((trace (start Scenario.env Scenario.cfgA [] 0%nat), 4%nat), Ok tt))
    by (vm_compute; reflexivity).
  destruct (start_all_in_one_gates Scenario.env Scenario.cfgA 0%nat _ _ Hrun)
    as (cfg0 & k & k' & before & middle & after & Hd & Ht & Hk & Hk' & _ & _ & Hb & _
        & _ & Hm & _ & _ & Ha & _).
  vm_compute in Hd. injection Hd as <-.
  vm_compute in Hk. injection Hk as <-.
  vm_compute in Hk'. injection Hk' as <-.
  exists before, middle, after.
  split; [exact Ht|]. split; [exact Hb|]. split; [exact Hm | exact Ha].
Defined.

(** The certificate bootstrap leaves the addresses in the master
    configuration as they were. *)
Lemma bootstrapTrust_addresses env sk cfg osmaster n t n' m roots :
  bootstrapTrust env sk cfg osmaster n = ((t, n'), Ok (m, roots)) ->
  origin.TLS m = origin.TLS osmaster
  /\ origin.BindAddr m = origin.BindAddr osmaster
  /\ origin.MasterAddr m = origin.MasterAddr osmaster
  /\ origin.AssetAddr m = origin.AssetAddr osmaster
  /\ origin.KubernetesAddr m = origin.KubernetesAddr osmaster
  /\ origin.RequireAuthentication m = origin.RequireAuthentication osmaster.
Proof.
  intros H. unfold bootstrapTrust in H.
  destruct (origin.TLS osmaster) eqn:Htls.
  - unfold makeClientConfig, bind, emit, lift, ret, fail in H.
    destruct (InitCA env (CertDir cfg) _) as [ca|e]; [|discriminate H].
    destruct (MakeServerCert env ca "master" _) as [cert|e]; [|discriminate H].
    destruct (MakeClientConfig env ca "openshift-client" _) as [os|e];
      [|discriminate H].
    destruct (MakeClientConfig env ca "openshift-deployer" _) as [dep|e];
      [|discriminate H].
    destruct (MakeClientConfig env ca "admin" _) as [adm|e]; [|discriminate H].
    destruct sk.
    + cbn [origin.KubeClientConfig with_serverCert] in H.
      destruct (MakeClientConfig env ca "kube-client" _) as [kube|e];
        [|discriminate H].
      cbn in H. injection H as _ _ <- _. cbn. now rewrite Htls.
    + cbn in H. injection H as _ _ <- _. cbn. now rewrite Htls.
  - cbn in H. injection H as _ _ <- _. cbn. now rewrite Htls.
Qed.

(** X15: a master that has come up was configured with the defaulted
    master address, the listen address, the asset address on the master's
    host one port above the listen port, and as Kubernetes address the
    given one, or the master address when none was given; TLS is on
    exactly when the master's scheme is "https".  Kubernetes runs in this
    process exactly when no Kubernetes address was given, and then under
    the master's host and port, with the master's node list and the
    portal network. *)
Theorem start_master_config env cfg args n t n' :
  start env cfg args n = ((t, n'), Ok tt) ->
  args = [] \/ args = ["master"] ->
  exists cfg0 m,
    defaultMasterAddress env cfg = (cfg0, None)
    /\ clientsBuilt t = [m]
    /\ origin.TLS m = String.eqb (url.Scheme (flagtypes.URL (MasterAddr cfg0))) "https"
    /\ origin.MasterAddr m = url.String (flagtypes.URL (MasterAddr cfg0))
    /\ origin.BindAddr m = url.Host (flagtypes.URL (BindAddr cfg))
    /\ origin.AssetAddr m
       = GoStr.JoinHostPort (flagtypes.Host (MasterAddr cfg0))
           (GoStr.Itoa (GoStr.int_add (flagtypes.Port (BindAddr cfg)) 1))
    /\ origin.KubernetesAddr m
       = (if flagtypes.Provided (KubernetesAddr cfg)
          then url.String (flagtypes.URL (KubernetesAddr cfg))
          else url.String (flagtypes.URL (MasterAddr cfg0)))
    /\ origin.RequireAuthentication m = RequireAuthentication cfg
    /\ kubeMasters t
       = (if flagtypes.Provided (KubernetesAddr cfg) then []
          else [kubernetes.mkMasterConfig (flagtypes.Host (MasterAddr cfg0))
                  (flagtypes.Port (MasterAddr cfg0)) (masterNodeList cfg)
                  (PortalNet cfg)]).
Proof.
  intros H Hargs.
  destruct (start_master_built _ _ _ _ _ _ H Hargs)
    as (cfg0 & tb & n1 & n2 & m & roots & Hd & Hb & Hm & _ & _).
  pose proof (defaultMasterAddress_master_fields env cfg) as F.
  rewrite Hd in F. cbn [fst] in F. destruct F as (Fb & Fk & Fp & Fr).
  destruct (settled_fields cfg cfg0) as (Sm & Sb & Sn & _ & Sk & _).
  pose proof (embeddedKube_defaulted _ _ _ _ Hd) as Hemb.
  apply bootstrapTrust_addresses in Hb as (Ht & Hbind & Hma & Has & Hku & Hra).
  cbn [origin.TLS origin.BindAddr origin.MasterAddr origin.AssetAddr
       origin.KubernetesAddr origin.RequireAuthentication newMasterConfig]
    in Ht, Hbind, Hma, Has, Hku, Hra.
  unfold assetAddr in Has. rewrite Sm, ?Sb, ?Fb in *. rewrite Sk, Hemb in Hku.
  assert (Hreq : RequireAuthentication (settled cfg cfg0) = RequireAuthentication cfg
                 /\ PortalNet (settled cfg cfg0) = PortalNet cfg).
  { unfold settled, withKube. destruct (embeddedKube cfg0); cbn; auto. }
  destruct Hreq as (Hreq & Hportal).
  exists cfg0, m. repeat split; try assumption.
  - rewrite Hku. unfold embeddedKube.
    destruct (flagtypes.Provided (KubernetesAddr cfg)); cbn [negb];
      [now rewrite Fk | reflexivity].
  - now rewrite Hra, Hreq.
  - destruct (start_master_Ok _ _ _ _ _ _ H Hargs)
      as (cfg0' & line & k & tb' & n3 & n4 & m' & roots' & tn & Hd' & _ & Hb' & Hmo & Ha
          & ->).
    rewrite Hd in Hd'. injection Hd' as <-.
    apply bootstrapTrust_Ok_trace in Hb'. subst tb'.
    assert (Htn : kubeMasters tn = []).
    { destruct Hargs as [Hn|Hn]; [|now rewrite (Hmo Hn)].
      destruct (Ha Hn) as (k' & _ & ->). unfold kubeMasters. read_trace. reflexivity. }
    unfold kubeMasters, masterTail in *. read_trace.
    rewrite select_trustCalls by reflexivity. rewrite Htn.
    unfold embeddedKube, kubeMasterConfig. rewrite Sm, Sn, Hportal.
    destruct (flagtypes.Provided (KubernetesAddr cfg)),
      (negb (flagtypes.Provided (EtcdAddr cfg))); cbn [negb]; read_trace; reflexivity.
Qed.

Lemma start_master_config_witness :
  exists m,
    clientsBuilt (trace (start Scenario.env Scenario.cfgPlainExternalKube ["master"]
                           0%nat)) = [m]
    /\ origin.TLS m = false
    /\ origin.MasterAddr m = "http://10.0.0.5:8080"
    /\ origin.AssetAddr m = "10.0.0.5:8444"
    /\ origin.KubernetesAddr m = "https://10.0.0.7:8443".
Proof.
  assert (Hrun : start Scenario.env Scenario.cfgPlainExternalKube ["master"] 0%nat
                 = ((trace (start Scenario.env Scenario.cfgPlainExternalKube ["master"]
                              0%nat), 3%nat), Ok tt))
    by (vm_compute; reflexivity).
  destruct (start_master_config Scenario.env Scenario.cfgPlainExternalKube ["master"]
              0%nat _ _ Hrun (or_intror eq_refl))
    as (cfg0 & m & Hd & Hm & Ht & Hma & _ & Has & Hku & _).
  vm_compute in Hd. injection Hd as <-.
  exists m. repeat split; assumption.
Defined.
